(** * TrustScholar: document confidentiality and authenticity pipeline

    A shallow embedding of the cryptographic core of the TrustScholar
    backend:

    - [backend/utils/encryption.js]: [encryptAES], [decryptAES],
      [generateRSAKeyPair], [encryptRSA], [decryptRSA], [hybridEncrypt],
      [hybridDecrypt], [createDigitalSignature], [verifyDigitalSignature],
      [createHashSHA512];
    - [backend/utils/encoding.js]: [generateVerifiedCertificateData];
    - [backend/routes/documents.js]: [ensureUserKeys] and the integrity
      check of [GET /documents/:id] and [GET /documents/:id/verify];
    - the application routes: [PUT /applications/:id/status] and
      [GET /applications/verify/:code].

    Further parts, embedded after the sample data: the rest of
    [backend/utils/encoding.js]; [backend/middleware/authorization.js];
    the handlers of the four routes of [backend/routes/documents.js] on a
    [Portal], the [World] with the documents, the files and the audit log;
    [GET /applications/verify/:code/document],
    [POST /applications/:id/submit] and [DELETE /users/:id]; and
    [PUT /applications/:id/status] and [DELETE /users/:id] as
    [backend/server.js] serves them, behind [auditLog].

    JavaScript exceptions are values of [Result]; randomness, the clock and
    the MongoDB collections live in an explicit [World] that every effectful
    function threads.  The libraries the code calls (crypto-js, Node's
    [crypto] and [Buffer], [Date]) are an interface, [Primitives], whose
    laws are stated as propositions and assumed only by the theorems that
    need them. *)

From Stdlib Require Import Strings.String Strings.Ascii Strings.Byte.
From Stdlib Require Import List NArith ZArith Arith Lia Bool DecimalString.
Import ListNotations.

Local Open Scope list_scope.
Local Open Scope string_scope.

(* ================================================================== *)
(** * Values *)
(* ================================================================== *)

(** A [Buffer], or the bytes of a crypto-js [WordArray]. *)
Definition bytes := list byte.

(** JavaScript strings are represented by their UTF-8 encoding: a value of
    type [string] stands for the JavaScript string whose UTF-8 bytes it
    lists, so [Buffer.from(s, 'utf8')] is [list_byte_of_string].  Strings
    with unpaired surrogates have no representation. *)
Definition Buffer_from_utf8 (s : string) : bytes := list_byte_of_string s.

(** The outcome of evaluating JavaScript code: a value, or a thrown [Error]
    with its [message]. *)
Inductive Result (A : Type) : Type :=
| Ok (value : A)
| Throw (message : string).
Arguments Ok {A} value.
Arguments Throw {A} message.

(** [Buffer.isBuffer(data) ? data : Buffer.from(String(data))] takes either
    a buffer or a string. *)
Inductive JsData : Type :=
| DBuffer (b : bytes)
| DString (s : string).

Definition toBuffer (data : JsData) : bytes :=
  match data with
  | DBuffer b => b
  | DString s => Buffer_from_utf8 s
  end.

(** A JavaScript value is truthy in [a && b] and [a || b] tests; for an
    optional string property that means present and not empty. *)
Definition truthy (v : option string) : bool :=
  match v with
  | Some s => negb (s =? "")
  | None => false
  end.

(** [`${v}`] for a possibly missing string property. *)
Definition template (v : option string) : string :=
  match v with
  | Some s => s
  | None => "undefined"
  end.

(** [a || b] on strings. *)
Definition orElse (v : option string) (default : string) : string :=
  if truthy v then template v else default.

(* ================================================================== *)
(** * Persistent documents (Mongoose models) *)
(* ================================================================== *)

(** [models/User.js], the fields the pipeline touches. *)
Record User : Type := mkUser {
  user_id : string;
  email : string;
  fullName : option string;
  publicKey : option string;
  privateKey : option string
}.

(** The application model, the fields the status and verify routes touch. *)
Record Application : Type := mkApplication {
  app_id : string;
  applicationNumber : option string;
  userId : string;
  status : string;
  reviewedBy : option string;
  reviewedAt : option N;
  reviewNotes : option string;
  verificationCode : option string;
  verifiedVerificationCode : option string;
  verifiedCertificateText : option string;
  verifiedAt : option N
}.

(** [process.env]. *)
Record Env : Type := mkEnv {
  AES_SECRET_KEY : option string;
  FRONTEND_URL : option string;
  BACKEND_URL : option string
}.

(** The entropy source: an infinite tape and the number of bytes drawn. *)
Record Rng : Type := mkRng {
  tape : nat -> byte;
  drawn : nat
}.

(** Everything outside the call stack: the entropy source, the clock read
    by [Date.now()], the environment and the two MongoDB collections in
    natural order. *)
Record World : Type := mkWorld {
  rng : Rng;
  clock : N;
  env : Env;
  users : list User;
  applications : list Application
}.

(* ================================================================== *)
(** * Effects: state and exceptions *)
(* ================================================================== *)

Definition M (A : Type) : Type := World -> Result A * World.

Definition ret {A} (a : A) : M A := fun w => (Ok a, w).

Definition throw {A} (message : string) : M A := fun w => (Throw message, w).

Definition bind {A B} (c : M A) (k : A -> M B) : M B :=
  fun w =>
    match c w with
    | (Ok a, w') => k a w'
    | (Throw m, w') => (Throw m, w')
    end.

Declare Scope js_scope.
Delimit Scope js_scope with js.
Notation "x <- c ;; k" := (bind c (fun x => k))
  (at level 61, c at next level, right associativity) : js_scope.
Notation "' pat <- c ;; k" := (bind c (fun x => match x with pat => k end))
  (at level 61, pat pattern, c at next level, right associativity) : js_scope.
Notation "c ;;; k" := (bind c (fun _ => k))
  (at level 61, right associativity) : js_scope.
Local Open Scope js_scope.

(** A pure computation that may throw. *)
Definition lift {A} (r : Result A) : M A := fun w => (r, w).

(** [try { body } catch (error) { throw new Error(prefix + error.message) }].
    Effects the body had before it threw are kept. *)
Definition try_rethrow {A} (prefix : string) (body : M A) : M A :=
  fun w =>
    match body w with
    | (Ok a, w') => (Ok a, w')
    | (Throw m, w') => (Throw (prefix ++ m), w')
    end.

(** [try { body } catch (error) { return handler }]. *)
Definition try_catch {A} (body : M A) (handler : string -> M A) : M A :=
  fun w =>
    match body w with
    | (Ok a, w') => (Ok a, w')
    | (Throw m, w') => handler m w'
    end.

(** A computation that touches nothing but the entropy source. *)
Definition Random (A : Type) : Type := Rng -> Result A * Rng.

Definition withRng {A} (c : Random A) : M A :=
  fun w =>
    let '(r, g) := c (rng w) in
    (r, mkWorld g (clock w) (env w) (users w) (applications w)).

(** [n] fresh bytes from the entropy source. *)
Definition draw (n : nat) : Random bytes :=
  fun g => (Ok (map (tape g) (seq (drawn g) n)), mkRng (tape g) (drawn g + n)).

(** [CryptoJS.lib.WordArray.random(n)]. *)
Definition WordArray_random (n : nat) : M bytes := withRng (draw n).

(** [Date.now()]. *)
Definition Date_now : M N := fun w => (Ok (clock w), w).

(** [process.env.NAME]. *)
Definition getenv (field : Env -> option string) : M (option string) :=
  fun w => (Ok (field (env w)), w).

(* ================================================================== *)
(** * Bytes, hexadecimal and UTF-8 *)
(* ================================================================== *)

Definition byte_of_N (n : N) : byte :=
  match Byte.of_N (n mod 256) with
  | Some b => b
  | None => x00
  end.

Definition hexDigit (n : N) : ascii :=
  ascii_of_N (if (n <? 10)%N then 48 + n else 87 + n).

(** [wordArray.toString(CryptoJS.enc.Hex)]: two lower-case digits a byte. *)
Fixpoint Hex_stringify (bs : bytes) : string :=
  match bs with
  | [] => ""
  | b :: rest =>
      String (hexDigit (Byte.to_N b / 16))
        (String (hexDigit (Byte.to_N b mod 16)) (Hex_stringify rest))
  end.

Definition isHexDigit (c : ascii) : bool :=
  let n := N_of_ascii c in
  ((48 <=? n) && (n <=? 57) || (97 <=? n) && (n <=? 102))%N.

Fixpoint allChars (p : ascii -> bool) (s : string) : bool :=
  match s with
  | EmptyString => true
  | String c rest => p c && allChars p rest
  end.

Definition inRange (lo hi : N) (b : byte) : bool :=
  ((lo <=? Byte.to_N b) && (Byte.to_N b <=? hi))%N.

Definition isCont : byte -> bool := inRange 128 191.

(** Well-formed UTF-8, as [decodeURIComponent] demands: shortest encodings
    only, no surrogates, nothing above U+10FFFF. *)
Fixpoint utf8_valid (bs : bytes) : bool :=
  match bs with
  | [] => true
  | b0 :: rest =>
      if inRange 0 127 b0 then utf8_valid rest
      else
        match rest with
        | b1 :: rest1 =>
            if inRange 194 223 b0 then isCont b1 && utf8_valid rest1
            else
              match rest1 with
              | b2 :: rest2 =>
                  if inRange 224 239 b0 then
                    (if inRange 224 224 b0 then inRange 160 191 b1
                     else if inRange 237 237 b0 then inRange 128 159 b1
                     else isCont b1)
                    && isCont b2 && utf8_valid rest2
                  else
                    match rest2 with
                    | b3 :: rest3 =>
                        inRange 240 244 b0
                        && (if inRange 240 240 b0 then inRange 144 191 b1
                            else if inRange 244 244 b0 then inRange 128 143 b1
                            else isCont b1)
                        && isCont b2 && isCont b3 && utf8_valid rest3
                    | [] => false
                    end
              | [] => false
              end
        | [] => false
        end
  end.

(** A [string] that denotes a JavaScript string. *)
Definition wellFormed (s : string) : bool := utf8_valid (list_byte_of_string s).

(* ================================================================== *)
(** * The libraries the code calls *)
(* ================================================================== *)

(** The operations of crypto-js, of Node's [crypto] and [Buffer] and of
    [Date] that the pipeline calls and that this development does not
    define.  A primitive that throws returns [Throw] with the library's
    message; one that draws randomness is a [Random] computation. *)
Class Primitives : Type := {
  (** [CryptoJS.enc.Hex.parse]. *)
  Hex_parse : string -> bytes;
  (** [CryptoJS.enc.Base64.stringify] and [parse]. *)
  Base64_stringify : bytes -> string;
  Base64_parse : string -> bytes;
  (** [CryptoJS.algo.EvpKDF] for a 256-bit key and 128-bit IV:
      passphrase and salt to (key, iv). *)
  EvpKDF : string -> bytes -> bytes * bytes;
  (** AES-256 in CBC mode over whole blocks: key, iv, data. *)
  AES_CBC_encryptBlocks : bytes -> bytes -> bytes -> bytes;
  AES_CBC_decryptBlocks : bytes -> bytes -> bytes -> bytes;
  (** [crypto.generateKeyPairSync('rsa', { modulusLength: 2048, pkcs1 pem })]:
      (publicKey, privateKey). *)
  generateKeyPairSync : Random (string * string);
  (** [crypto.publicEncrypt(key, buffer)] and
      [crypto.privateDecrypt(key, buffer)] (RSA-OAEP). *)
  publicEncrypt : string -> bytes -> Random bytes;
  privateDecrypt : string -> bytes -> Result bytes;
  (** [crypto.sign('RSA-SHA512', buffer, privateKey)] and
      [crypto.verify('RSA-SHA512', buffer, publicKey, signature)]. *)
  crypto_sign : bytes -> string -> Result bytes;
  crypto_verify : bytes -> string -> bytes -> Result bool;
  (** [crypto.createHash('sha512').update(buffer).digest('hex')]. *)
  sha512_hex : bytes -> string;
  (** [buffer.toString('base64')], [Buffer.from(s, 'base64')] and
      [buffer.toString('utf8')]. *)
  Buffer_toString_base64 : bytes -> string;
  Buffer_from_base64 : string -> bytes;
  Buffer_toString_utf8 : bytes -> string;
  (** [new Date(ms).toISOString()]. *)
  toISOString : N -> string
}.

Section Laws.
Context {P : Primitives}.

(** Both base64 codecs decode what they encoded. *)
Definition Base64_law : Prop :=
  forall bs, Base64_parse (Base64_stringify bs) = bs.

Definition Buffer_base64_law : Prop :=
  forall bs, Buffer_from_base64 (Buffer_toString_base64 bs) = bs.

(** Decoding the UTF-8 bytes of a string gives the string back. *)
Definition Buffer_utf8_law : Prop :=
  forall s, wellFormed s = true -> Buffer_toString_utf8 (Buffer_from_utf8 s) = s.

(** CBC decryption inverts CBC encryption on whole blocks under the same
    key and iv. *)
Definition AES_law : Prop :=
  forall key iv data,
    length data mod 16 = 0 ->
    AES_CBC_decryptBlocks key iv (AES_CBC_encryptBlocks key iv data) = data.

(** The pairs [crypto.generateKeyPairSync] can return. *)
Definition KeyPair (publicKey privateKey : string) : Prop :=
  exists g g', generateKeyPairSync g = (Ok (publicKey, privateKey), g').

(** Keys come out as PEM text. *)
Definition PEM_law : Prop :=
  forall publicKey privateKey,
    KeyPair publicKey privateKey ->
    publicKey <> "" /\ wellFormed privateKey = true.

(** OAEP with a 2048-bit modulus takes up to 214 bytes, and the private
    key of a pair decrypts what its public key encrypted. *)
Definition RSA_law : Prop :=
  forall publicKey privateKey,
    KeyPair publicKey privateKey ->
    forall message g,
      length message <= 214 ->
      exists c g',
        publicEncrypt publicKey message g = (Ok c, g') /\
        privateDecrypt privateKey c = Ok message.

(** OAEP decoding under the private key of another pair fails (the
    idealisation of a failure that happens with overwhelming
    probability). *)
Definition RSA_isolation_law : Prop :=
  forall publicKey1 privateKey1 publicKey2 privateKey2,
    KeyPair publicKey1 privateKey1 ->
    KeyPair publicKey2 privateKey2 ->
    publicKey1 <> publicKey2 ->
    forall message g c g',
      publicEncrypt publicKey1 message g = (Ok c, g') ->
      exists m, privateDecrypt privateKey2 c = Throw m.

(** A SHA-512 digest in hex is 128 hexadecimal digits. *)
Definition sha512_law : Prop :=
  forall bs,
    String.length (sha512_hex bs) = 128 /\
    allChars isHexDigit (sha512_hex bs) = true.

End Laws.

(* ================================================================== *)
(** * crypto-js: the password-based AES cipher *)
(* ================================================================== *)

Module CryptoJS.
Section CryptoJS.
Context {P : Primitives}.

(** [CryptoJS.enc.Utf8.parse]. *)
Definition Utf8_parse (s : string) : bytes := list_byte_of_string s.

(** [wordArray.toString(CryptoJS.enc.Utf8)]: throws on bytes that are not
    UTF-8. *)
Definition Utf8_stringify (data : bytes) : Result string :=
  if utf8_valid data then Ok (string_of_list_byte data)
  else Throw "Malformed UTF-8 data".

(** [CryptoJS.pad.Pkcs7.pad] for 16-byte blocks. *)
Definition Pkcs7_pad (data : bytes) : bytes :=
  let nPaddingBytes := 16 - length data mod 16 in
  (data ++ repeat (byte_of_N (N.of_nat nPaddingBytes)) nPaddingBytes)%list.

(** [CryptoJS.pad.Pkcs7.unpad]: the last byte is taken as the number of
    bytes to drop and is not checked against the bytes dropped; a count
    larger than the data leaves nothing. *)
Definition Pkcs7_unpad (data : bytes) : bytes :=
  let nPaddingBytes := N.to_nat (Byte.to_N (last data x00)) in
  firstn (length data - nPaddingBytes) data.

(** A [CipherParams] object: the ciphertext and the salt of the key
    derivation, when there is one. *)
Record CipherParams : Type := mkCipherParams {
  ciphertext : bytes;
  salt : option bytes
}.

Definition Salted__ : bytes := list_byte_of_string "Salted__".

(** [CryptoJS.format.OpenSSL]: base64 of ["Salted__"], the 8-byte salt
    and the ciphertext. *)
Definition OpenSSL_stringify (cp : CipherParams) : string :=
  Base64_stringify
    match salt cp with
    | Some s => (Salted__ ++ s ++ ciphertext cp)%list
    | None => ciphertext cp
    end.

Definition OpenSSL_parse (s : string) : CipherParams :=
  let raw := Base64_parse s in
  if string_of_list_byte (firstn 8 raw) =? "Salted__"
  then mkCipherParams (skipn 16 raw) (Some (firstn 8 (skipn 8 raw)))
  else mkCipherParams raw None.

(** Modelled from the spec: [CryptoJS.AES.encrypt(message, key, cfg)] of the
    crypto-js package, which is not part of the repository.  With a string
    [key] the cipher is password based: it derives the actual key and IV
    from the passphrase and a fresh random salt, replaces [cfg.iv] by the
    derived IV, and embeds the salt in the result. *)
Definition AES_encrypt (message password : string) (cfg_iv : bytes)
  : M CipherParams :=
  s <- WordArray_random 8 ;;
  let '(key, iv) := EvpKDF password s in
  ret (mkCipherParams
         (AES_CBC_encryptBlocks key iv (Pkcs7_pad (Utf8_parse message)))
         (Some s)).

(** Modelled from the spec: [CryptoJS.AES.decrypt(ciphertext, key, cfg)] of
    the crypto-js package, with a string [key]: the key and IV are derived
    from the passphrase and the salt embedded in the ciphertext (a random
    one when the ciphertext carries none), [cfg.iv] is replaced by the
    derived IV, and the padding is removed unchecked. *)
Definition AES_decrypt (encrypted password : string) (cfg_iv : bytes)
  : M bytes :=
  let cp := OpenSSL_parse encrypted in
  s <- match salt cp with
       | Some s => ret s
       | None => WordArray_random 8
       end ;;
  let '(key, iv) := EvpKDF password s in
  ret (Pkcs7_unpad (AES_CBC_decryptBlocks key iv (ciphertext cp))).

End CryptoJS.
End CryptoJS.

(* ================================================================== *)
(** * backend/utils/encryption.js *)
(* ================================================================== *)

Module Aes.
(** The object [encryptAES] returns. *)
Record t : Type := mk { encryptedData : string; iv : string }.
End Aes.

Module Rsa.
(** The object [generateRSAKeyPair] returns. *)
Record t : Type := mk { publicKey : string; privateKey : string }.
End Rsa.

Module Hybrid.
(** The object [hybridEncrypt] returns. *)
Record t : Type := mk {
  encryptedData : string;
  encryptedKey : string;
  iv : string
}.
End Hybrid.

Section Encryption.
Context {P : Primitives}.

(** [process.env.AES_SECRET_KEY || 'default_32_char_secret_key_here!']. *)
Definition AES_SECRET : M string :=
  k <- getenv AES_SECRET_KEY ;;
  ret (orElse k "default_32_char_secret_key_here!").

Definition encryptAES (plainText secretKey : string) : M Aes.t :=
  try_rethrow "Encryption failed: "
    (iv <- WordArray_random 16 ;;
     encrypted <- CryptoJS.AES_encrypt plainText secretKey iv ;;
     ret (Aes.mk (CryptoJS.OpenSSL_stringify encrypted) (Hex_stringify iv))).

Definition decryptAES (encryptedData iv secretKey : string) : M string :=
  try_rethrow "Decryption failed: "
    (let ivWordArray := Hex_parse iv in
     decrypted <- CryptoJS.AES_decrypt encryptedData secretKey ivWordArray ;;
     lift (CryptoJS.Utf8_stringify decrypted)).

Definition generateRSAKeyPair : M Rsa.t :=
  try_rethrow "RSA key generation failed: "
    ('(publicKey, privateKey) <- withRng generateKeyPairSync ;;
     ret (Rsa.mk publicKey privateKey)).

Definition encryptRSA (data publicKey : string) : M string :=
  try_rethrow "RSA encryption failed: "
    (let buffer := Buffer_from_utf8 data in
     c <- withRng (publicEncrypt publicKey buffer) ;;
     ret (Buffer_toString_base64 c)).

Definition decryptRSA (encryptedData privateKey : string) : M string :=
  try_rethrow "RSA decryption failed: "
    (let buffer := Buffer_from_base64 encryptedData in
     m <- lift (privateDecrypt privateKey buffer) ;;
     ret (Buffer_toString_utf8 m)).

Definition hybridEncrypt (data publicKey : string) : M Hybrid.t :=
  try_rethrow "Hybrid encryption failed: "
    (k <- WordArray_random 32 ;;
     let aesKey := Hex_stringify k in
     e <- encryptAES data aesKey ;;
     encryptedKey <- encryptRSA aesKey publicKey ;;
     ret (Hybrid.mk (Aes.encryptedData e) encryptedKey (Aes.iv e))).

Definition hybridDecrypt (encryptedData encryptedKey iv privateKey : string)
  : M string :=
  try_rethrow "Hybrid decryption failed: "
    (aesKey <- decryptRSA encryptedKey privateKey ;;
     decryptAES encryptedData iv aesKey).

Definition createDigitalSignature (data : JsData) (privateKey : string)
  : M string :=
  try_rethrow "Digital signature creation failed: "
    (let buffer := toBuffer data in
     s <- lift (crypto_sign buffer privateKey) ;;
     ret (Buffer_toString_base64 s)).

(** The handler also writes the message to [console.error]. *)
Definition verifyDigitalSignature (data : JsData) (signature publicKey : string)
  : M bool :=
  try_catch
    (let buffer := toBuffer data in
     let sigBuffer := Buffer_from_base64 signature in
     lift (crypto_verify buffer publicKey sigBuffer))
    (fun _ => ret false).

Definition createHashSHA512 (data : JsData) : string :=
  sha512_hex (toBuffer data).

End Encryption.

(* ================================================================== *)
(** * JSON.stringify on flat objects *)
(* ================================================================== *)

Definition dquote : string := String "034" "".
Definition newline : string := String "010" "".

Definition JSON_escape (c : ascii) : string :=
  let n := N_of_ascii c in
  if (n =? 34)%N then "\" ++ dquote
  else if (n =? 92)%N then "\\"
  else if (n =? 8)%N then "\b"
  else if (n =? 9)%N then "\t"
  else if (n =? 10)%N then "\n"
  else if (n =? 12)%N then "\f"
  else if (n =? 13)%N then "\r"
  else if (n <? 32)%N then
    "\u00" ++ String (hexDigit (n / 16)) (String (hexDigit (n mod 16)) "")
  else String c "".

Fixpoint JSON_escapeAll (s : string) : string :=
  match s with
  | EmptyString => ""
  | String c rest => JSON_escape c ++ JSON_escapeAll rest
  end.

Definition JSON_quote (s : string) : string :=
  dquote ++ JSON_escapeAll s ++ dquote.

(** The property values that occur: strings (an [ObjectId] serialises as
    its hex string), integral numbers, and [undefined]. *)
Inductive JsonValue : Type :=
| JString (s : string)
| JNumber (n : N)
| JUndefined.

Definition jsonOpt (v : option string) : JsonValue :=
  match v with
  | Some s => JString s
  | None => JUndefined
  end.

Definition decimal (n : N) : string := NilEmpty.string_of_uint (N.to_uint n).

(** A property whose value is [undefined] is left out. *)
Fixpoint JSON_members (fields : list (string * JsonValue)) : list string :=
  match fields with
  | [] => []
  | (k, JString s) :: rest =>
      (JSON_quote k ++ ":" ++ JSON_quote s)%string :: JSON_members rest
  | (k, JNumber n) :: rest =>
      (JSON_quote k ++ ":" ++ decimal n)%string :: JSON_members rest
  | (_, JUndefined) :: rest => JSON_members rest
  end.

Definition JSON_stringify (fields : list (string * JsonValue)) : string :=
  "{" ++ String.concat "," (JSON_members fields) ++ "}".

(* ================================================================== *)
(** * backend/utils/encoding.js *)
(* ================================================================== *)

Module ApplicationData.
(** The object handed to [generateVerifiedCertificateData]; any property
    may be missing. *)
Record t : Type := mk {
  id : option string;
  applicationNumber : option string;
  application_number : option string;
  student_id : option string
}.
End ApplicationData.

Module Certificate.
Record t : Type := mk { verificationCode : string; certificateText : string }.
End Certificate.

Section Encoding.
Context {P : Primitives}.

Definition generateVerifiedCertificateData (applicationData : ApplicationData.t)
  : M Certificate.t :=
  try_rethrow "Verified certificate generation failed: "
    (timestamp <- Date_now ;;
     let payload :=
       [ ("applicationId", jsonOpt (ApplicationData.id applicationData));
         ("applicationNumber",
          jsonOpt (ApplicationData.application_number applicationData));
         ("studentId", jsonOpt (ApplicationData.student_id applicationData));
         ("timestamp", JNumber timestamp) ] in
     let verificationData := JSON_stringify payload in
     let verificationHash :=
       substring 0 16 (sha512_hex (Buffer_from_utf8 verificationData)) in
     let verificationCode :=
       "SVS-VERIFIED-"
       ++ template (ApplicationData.applicationNumber applicationData)
       ++ "-" ++ verificationHash in
     frontend <- getenv FRONTEND_URL ;;
     let frontendUrl := orElse frontend "http://localhost:3000" in
     let verifyUrl := frontendUrl ++ "/verify/" ++ verificationCode in
     let certificateText :=
       String.concat newline
         [ "Scholarship Verification Certificate";
           ("Application: "
            ++ template (ApplicationData.applicationNumber applicationData))%string;
           ("Student ID: "
            ++ template (ApplicationData.student_id applicationData))%string;
           ("Verified At: " ++ toISOString timestamp)%string;
           ("Verification Code: " ++ verificationCode)%string;
           ("Verify URL: " ++ verifyUrl)%string ] in
     ret (Certificate.mk verificationCode certificateText)).

End Encoding.

(* ================================================================== *)
(** * Routes *)
(* ================================================================== *)

(** What a handler sends: [res.status(code).json(...)] with
    [success: true] and a payload, or with [success: false] and a
    message. *)
Inductive Response (A : Type) : Type :=
| Success (statusCode : nat) (data : A)
| Failure (statusCode : nat) (message : string).
Arguments Success {A} statusCode data.
Arguments Failure {A} statusCode message.

Definition Handler (A : Type) : Type := World -> Response A * World.

(** The [try { ... } catch (error) { console.error(...); res.status(500)... }]
    around a handler's body. *)
Definition route {A} (failed : string) (body : M (Response A)) : Handler A :=
  fun w =>
    match body w with
    | (Ok r, w') => (r, w')
    | (Throw _, w') => (Failure 500 failed, w')
    end.

Definition setUsers (us : list User) (w : World) : World :=
  mkWorld (rng w) (clock w) (env w) us (applications w).

Definition setApplications (apps : list Application) (w : World) : World :=
  mkWorld (rng w) (clock w) (env w) (users w) apps.

(** [User.findById(id)]: a copy of the stored document, or [null]. *)
Definition User_findById (id : string) : M (option User) :=
  fun w => (Ok (find (fun u => user_id u =? id) (users w)), w).

(** [user.save()] after the assignments of [ensureUserKeys]: the modified
    paths [publicKey] and [privateKey] are written to the stored document
    with the same [_id]; Mongoose rejects when there is none. *)
Definition User_saveKeys (user : User) : M unit :=
  fun w =>
    if existsb (fun u => user_id u =? user_id user) (users w)
    then
      (Ok tt,
       setUsers
         (map (fun u =>
                 if user_id u =? user_id user
                 then mkUser (user_id u) (email u) (fullName u)
                        (publicKey user) (privateKey user)
                 else u)
              (users w))
         w)
    else (Throw "No document found for query", w).

(** The text of an [ObjectId]: 24 hexadecimal digits in lower case, as the
    ids of stored documents are.  A query by id is embedded for ids of this
    form; Mongoose casts another string to an [ObjectId] of another text or
    rejects the query with a [CastError]. *)
Definition isObjectId (s : string) : bool :=
  (String.length s =? 24)%nat && allChars isHexDigit s.

(** [Application.findById(id)]. *)
Definition Application_findById (id : string) : M (option Application) :=
  fun w => (Ok (find (fun a => app_id a =? id) (applications w)), w).

(** [application.save()]: the stored document with the same [_id] takes the
    in-memory one's values. *)
Definition Application_save (application : Application) : M unit :=
  fun w =>
    (Ok tt,
     setApplications
       (map (fun a => if app_id a =? app_id application then application else a)
            (applications w))
       w).

Definition eqOpt (field : option string) (value : string) : bool :=
  match field with
  | Some s => s =? value
  | None => false
  end.

(** The filter [{ $or: [{ verificationCode: code },
    { verifiedVerificationCode: code }] }]. *)
Definition holdsCode (code : string) (a : Application) : bool :=
  eqOpt (verificationCode a) code || eqOpt (verifiedVerificationCode a) code.

(** [Application.findOne(filter)]: the first match in natural order. *)
Definition Application_findOneByCode (code : string) : M (option Application) :=
  fun w => (Ok (find (holdsCode code) (applications w)), w).

(** The object literal [PUT /applications/:id/status] hands to
    [generateVerifiedCertificateData]: [id], [applicationNumber] and
    [student_id], and no [application_number]. *)
Definition applicationDataOf (application : Application) : ApplicationData.t :=
  ApplicationData.mk (Some (app_id application)) (applicationNumber application)
    None (Some (userId application)).

Module Verification.
(** The [verification] object of [GET /documents/:id/verify]. *)
Record t : Type := mk {
  signatureValid : bool;
  documentHash : string;
  currentHash : string;
  signature : string;
  isEncrypted : bool;
  isTampered : bool
}.
End Verification.

Module Verified.
(** The [data] of [GET /applications/verify/:code], without the fields
    read from the populated scholarship and user. *)
Record t : Type := mk {
  applicationNumber : option string;
  status : string;
  verificationCode : option string;
  certificateAvailable : bool;
  certificateDownloadUrl : string
}.
End Verified.

Section Routes.
Context {P : Primitives}.

(** [ensureUserKeys] of [routes/documents.js] and of the application
    routes (the two copies are the same text).  [user.save()] is the one
    point where the function waits. *)
Definition ensureUserKeys (user : option User) : M User :=
  match user with
  | Some u =>
      if truthy (publicKey u) && truthy (privateKey u) then ret u
      else
        kp <- generateRSAKeyPair ;;
        secret <- AES_SECRET ;;
        e <- encryptAES (Rsa.privateKey kp) secret ;;
        let u' :=
          mkUser (user_id u) (email u) (fullName u)
            (Some (Rsa.publicKey kp))
            (Some (JSON_stringify
                     [ ("data", JString (Aes.encryptedData e));
                       ("iv", JString (Aes.iv e)) ])) in
        User_saveKeys u' ;;;
        ret u'
  | None =>
      kp <- generateRSAKeyPair ;;
      secret <- AES_SECRET ;;
      e <- encryptAES (Rsa.privateKey kp) secret ;;
      throw "Cannot set properties of null (setting 'publicKey')"
  end.

(** One request's use of the key vault:
    [ensureUserKeys(await User.findById(id))]. *)
Definition ensureKeyPair (id : string) : M User :=
  user <- User_findById id ;;
  ensureUserKeys user.

(** The stored document of [GET /documents/:id] and
    [GET /documents/:id/verify]. *)
Record Document : Type := mkDocument {
  doc_id : string;
  fileName : string;
  documentHash : string;
  digitalSignature : string
}.

(** [a && b] where [b] is evaluated only when [a] holds. *)
Definition andThen (a : bool) (b : M bool) : M bool :=
  if a then b else ret false.

(** [GET /documents/:id], from the decrypted [fileBuffer] on. *)
Definition downloadChecked (doc : Document) (ownerPublicKey : string)
    (fileBuffer : bytes) : M (Response bytes) :=
  let currentHash := createHashSHA512 (DBuffer fileBuffer) in
  integrityValid <-
    andThen (currentHash =? documentHash doc)
      (verifyDigitalSignature (DString currentHash) (digitalSignature doc)
         ownerPublicKey) ;;
  if negb integrityValid then
    ret (Failure 500
           "Document integrity check failed - file may have been tampered")
  else ret (Success 200 fileBuffer).

(** [GET /documents/:id/verify], from the decrypted [fileBuffer] on. *)
Definition verifyChecked (doc : Document) (ownerPublicKey : string)
    (fileBuffer : bytes) : M (Response Verification.t) :=
  let currentHash := createHashSHA512 (DBuffer fileBuffer) in
  signatureValid <-
    andThen (currentHash =? documentHash doc)
      (verifyDigitalSignature (DString currentHash) (digitalSignature doc)
         ownerPublicKey) ;;
  ret (Success 200
         (Verification.mk signatureValid (documentHash doc) currentHash
            (digitalSignature doc) true (negb signatureValid))).

Definition allowed : list string :=
  ["under_review"; "verified"; "approved"; "rejected"].

(** [PUT /applications/:id/status] for the reviewer [reviewer]
    ([req.user.id]) with body [{ status, comments }].  [reviewedBy] is an
    [ObjectId] path of the schema: [application.save()] rejects, and
    stores nothing, when the reviewer cannot be cast to one.
    [req.user.id] is the [_id] of a stored user; of the strings, the
    embedding lets the texts of an [ObjectId] through. *)
Definition putStatus (reviewer id newStatus : string) (comments : option string)
  : Handler unit :=
  route "Failed to update status"
    (if negb (existsb (String.eqb newStatus) allowed) then
       ret (Failure 400 "Invalid status")
     else
       found <- Application_findById id ;;
       match found with
       | None => ret (Failure 404 "Application not found")
       | Some application =>
           application <-
             (if (newStatus =? "verified")
                 || (newStatus =? "approved")
                    && negb (truthy (verifiedVerificationCode application))
              then
                cert <- generateVerifiedCertificateData
                          (applicationDataOf application) ;;
                now <- Date_now ;;
                ret (mkApplication
                       (app_id application) (applicationNumber application)
                       (userId application) (status application)
                       (reviewedBy application) (reviewedAt application)
                       (reviewNotes application) (verificationCode application)
                       (Some (Certificate.verificationCode cert))
                       (Some (Certificate.certificateText cert))
                       (Some now))
              else ret application) ;;
           now <- Date_now ;;
           (if negb (isObjectId reviewer) then
              throw "Application validation failed: reviewedBy"
            else
              Application_save
                (mkApplication
                   (app_id application) (applicationNumber application)
                   (userId application) newStatus
                   (Some reviewer) (Some now)
                   (if truthy comments then comments
                    else reviewNotes application)
                   (verificationCode application)
                   (verifiedVerificationCode application)
                   (verifiedCertificateText application)
                   (verifiedAt application))) ;;;
           ret (Success 200 tt)
       end).

(** [GET /applications/verify/:code]. *)
Definition getVerify (code : string) : Handler Verified.t :=
  route "Verification failed"
    (found <- Application_findOneByCode code ;;
     match found with
     | None => ret (Failure 404 "Invalid verification code")
     | Some application =>
         backend <- getenv BACKEND_URL ;;
         ret (Success 200
                (Verified.mk
                   (applicationNumber application)
                   (status application)
                   (verificationCode application)
                   ((status application =? "verified")
                    && eqOpt (verifiedVerificationCode application) code)
                   (orElse backend "http://localhost:5000"
                    ++ "/api/applications/verify/" ++ code ++ "/document")))
     end).

End Routes.

(* ================================================================== *)
(** * Vocabulary of the statements *)
(* ================================================================== *)

(** [needle] occurs in [hay]. *)
Definition contains (needle hay : string) : Prop :=
  exists before after, hay = before ++ needle ++ after.

(** The world after [n] more bytes were drawn. *)
Definition afterDraw (n : nat) (w : World) : World :=
  mkWorld (mkRng (tape (rng w)) (drawn (rng w) + n))
    (clock w) (env w) (users w) (applications w).

(** The session key [hybridEncrypt] draws in world [w]. *)
Definition sessionKey (w : World) : string :=
  Hex_stringify (map (tape (rng w)) (seq (drawn (rng w)) 32)).


(** The record a certificate's hash is taken of: application id, student
    id and timestamp. *)
Definition certificateRecord (application : Application) (timestamp : N)
  : string :=
  JSON_stringify
    [ ("applicationId", JString (app_id application));
      ("studentId", JString (userId application));
      ("timestamp", JNumber timestamp) ].

(** The stored form of a private key: [JSON.stringify({ data, iv })]. *)
Definition storedPrivateKey (e : Aes.t) : string :=
  JSON_stringify
    [ ("data", JString (Aes.encryptedData e)); ("iv", JString (Aes.iv e)) ].

Definition flipTop (b : byte) : byte := byte_of_N (Byte.to_N b + 128).

Section Vocabulary.
Context {P : Primitives}.

(** Whether the library accepts [signature] for [data] under [publicKey];
    a throw counts as no. *)
Definition verifies (data : bytes) (publicKey : string) (signature : bytes)
  : bool :=
  match crypto_verify data publicKey signature with
  | Ok b => b
  | Throw _ => false
  end.

(** The code of a certificate issued for [application] at [timestamp]. *)
Definition codeFor (application : Application) (timestamp : N) : string :=
  "SVS-VERIFIED-" ++ template (applicationNumber application) ++ "-"
  ++ substring 0 16
       (sha512_hex (Buffer_from_utf8 (certificateRecord application timestamp))).


(** One flipped bit in the first ciphertext byte of an [encryptedData]
    string, behind the 16 bytes of header and salt. *)
Definition tamper (encryptedData : string) : string :=
  let bs := Base64_parse encryptedData in
  Base64_stringify
    (firstn 16 bs ++ map flipTop (firstn 1 (skipn 16 bs)) ++ skipn 17 bs)%list.

(** Two first-time requests for the same user, interleaved where they
    wait: both have read the user before either saves. *)
Definition racingFirstCalls (id : string) : M (User * User) :=
  a <- User_findById id ;;
  b <- User_findById id ;;
  ua <- ensureUserKeys a ;;
  ub <- ensureUserKeys b ;;
  ret (ua, ub).

End Vocabulary.

(* ================================================================== *)
(** * A small instance of the libraries *)
(* ================================================================== *)

(** Stand-ins for the library operations, simple enough to run by hand:
    a byte-shift cipher in place of AES, tagged messages in place of RSA,
    the identity in place of base64.  They satisfy every law above, which
    shows the laws consistent. *)
Module Standin.

Definition codec_stringify (bs : bytes) : string := string_of_list_byte bs.
Definition codec_parse (s : string) : bytes := list_byte_of_string s.

Definition kdf (password : string) (salt : bytes) : bytes * bytes :=
  ((list_byte_of_string password ++ salt)%list, salt).

Definition keysum (key : bytes) : N :=
  fold_right (fun b acc => (Byte.to_N b + acc) mod 256)%N 0%N key.

Definition shift (s : N) (b : byte) : byte := byte_of_N (Byte.to_N b + s).

Definition unshift (s : N) (b : byte) : byte :=
  byte_of_N (Byte.to_N b + (256 - s mod 256)).

Definition encryptBlocks (key iv data : bytes) : bytes :=
  map (shift (keysum key)) data.

Definition decryptBlocks (key iv data : bytes) : bytes :=
  map (unshift (keysum key)) data.

(** A key pair is a 16-digit tag behind ["PUB"] and ["PRV"]. *)
Definition keygen : Random (string * string) :=
  fun g =>
    match draw 8 g with
    | (Ok seed, g') =>
        (Ok ("PUB" ++ Hex_stringify seed, "PRV" ++ Hex_stringify seed), g')
    | (Throw m, g') => (Throw m, g')
    end.

Definition tagOf (kind key : string) : option bytes :=
  if prefix kind key && Nat.eqb (String.length key) 19
  then Some (list_byte_of_string (substring 3 16 key))
  else None.

Definition publicTag : string -> option bytes := tagOf "PUB".

Definition privateTag : string -> option bytes := tagOf "PRV".

Definition unsupported : string := "error:1E08010C:DECODER routines::unsupported".

Definition oaepEncrypt (key : string) (message : bytes) : Random bytes :=
  fun g =>
    match publicTag key with
    | Some tag =>
        if Nat.leb (length message) 214 then (Ok (tag ++ message)%list, g)
        else (Throw "error:0200006E:rsa routines::data too large for key size", g)
    | None => (Throw unsupported, g)
    end.

Definition oaepDecrypt (key : string) (c : bytes) : Result bytes :=
  match privateTag key with
  | Some tag =>
      if string_of_list_byte (firstn 16 c) =? string_of_list_byte tag
      then Ok (skipn 16 c)
      else Throw "error:02000079:rsa routines::oaep decoding error"
  | None => Throw unsupported
  end.

Definition sign (data : bytes) (key : string) : Result bytes :=
  match privateTag key with
  | Some tag => Ok (tag ++ data)%list
  | None => Throw unsupported
  end.

Definition verify (data : bytes) (key : string) (signature : bytes)
  : Result bool :=
  match publicTag key with
  | Some tag =>
      Ok (string_of_list_byte signature =? string_of_list_byte (tag ++ data)%list)
  | None => Throw unsupported
  end.

(** 64 bytes that depend on the end of the input, in hex. *)
Definition digest (data : bytes) : string :=
  Hex_stringify (firstn 64 (rev data ++ repeat x00 64)%list).

#[export] Instance primitives : Primitives := {|
  Hex_parse := codec_parse;
  Base64_stringify := codec_stringify;
  Base64_parse := codec_parse;
  EvpKDF := kdf;
  AES_CBC_encryptBlocks := encryptBlocks;
  AES_CBC_decryptBlocks := decryptBlocks;
  generateKeyPairSync := keygen;
  publicEncrypt := oaepEncrypt;
  privateDecrypt := oaepDecrypt;
  crypto_sign := sign;
  crypto_verify := verify;
  sha512_hex := digest;
  Buffer_toString_base64 := codec_stringify;
  Buffer_from_base64 := codec_parse;
  Buffer_toString_utf8 := codec_stringify;
  toISOString := decimal
|}.

End Standin.

(* ================================================================== *)
(** * The algorithms behind the crypto-js and hash operations *)
(* ================================================================== *)

(** Base64, MD5 and the OpenSSL key derivation built on it, AES-256 in CBC
    mode and SHA-512, as their standards define them, on bytes as numbers
    below 256.  They make the cipher and hash operations of the interface
    executable on real data. *)
Module Actual.
Local Open Scope list_scope.
Local Open Scope N_scope.

Definition hexValue (c : ascii) : N :=
  let n := N_of_ascii c in
  if n <? 58 then n - 48 else n - 87.

(** The bytes a string of lower-case hex digits denotes. *)
Fixpoint hexTable (s : string) : list N :=
  match s with
  | String a (String b rest) => (16 * hexValue a + hexValue b) :: hexTable rest
  | _ => []
  end.

Definition toN (bs : bytes) : list N := map Byte.to_N bs.
Definition ofN (ns : list N) : bytes := map byte_of_N ns.

(** Consecutive groups of [n] elements; the last may be shorter. *)
Fixpoint groups {A} (fuel n : nat) (l : list A) : list (list A) :=
  match fuel with
  | O => []
  | S fuel' =>
      match l with
      | [] => []
      | _ => firstn n l :: groups fuel' n (skipn n l)
      end
  end.

Definition chunks {A} (n : nat) (l : list A) : list (list A) :=
  groups (length l) n l.

Definition fromBE (bs : list N) : N := fold_left (fun acc b => acc * 256 + b) bs 0.
Definition fromLE (bs : list N) : N := fold_right (fun b acc => b + 256 * acc) 0 bs.

Definition toLE (width : nat) (x : N) : list N :=
  map (fun i => (x / 256 ^ N.of_nat i) mod 256) (seq 0 width).
Definition toBE (width : nat) (x : N) : list N := rev (toLE width x).

Definition at_ (l : list N) (i : nat) : N := nth i l 0.

(* ------------------------------------------------------------------ *)
(** ** Base64 (RFC 4648), as [CryptoJS.enc.Base64] reads and writes it *)

Definition alphabet : string :=
  "ABCDEFGHIJKLMNOPQRSTUVWXYZabcdefghijklmnopqrstuvwxyz0123456789+/".

Definition sextetChar (n : N) : ascii :=
  match String.get (N.to_nat n) alphabet with
  | Some c => c
  | None => "="%char
  end.

Definition base64Group (g : list N) : string :=
  match g with
  | [a; b; c] =>
      String (sextetChar (a / 4))
        (String (sextetChar ((a mod 4) * 16 + b / 16))
           (String (sextetChar ((b mod 16) * 4 + c / 64))
              (String (sextetChar (c mod 64)) "")))
  | [a; b] =>
      String (sextetChar (a / 4))
        (String (sextetChar ((a mod 4) * 16 + b / 16))
           (String (sextetChar ((b mod 16) * 4)) "="))
  | [a] =>
      String (sextetChar (a / 4)) (String (sextetChar ((a mod 4) * 16)) "==")
  | _ => ""
  end.

Definition base64_stringify (bs : bytes) : string :=
  String.concat "" (map base64Group (chunks 3 (toN bs))).

(** The value of a base64 digit; any other character counts as 0. *)
Definition sextetOf (c : ascii) : N :=
  let n := N_of_ascii c in
  if (65 <=? n) && (n <=? 90) then n - 65
  else if (97 <=? n) && (n <=? 122) then n - 71
  else if (48 <=? n) && (n <=? 57) then n + 4
  else if n =? 43 then 62
  else if n =? 47 then 63
  else 0.

(** The digits before the first padding character. *)
Fixpoint sextets (s : string) : list N :=
  match s with
  | EmptyString => []
  | String c rest =>
      if (N_of_ascii c =? 61) then [] else sextetOf c :: sextets rest
  end.

(** Each digit but the first of a group of four completes a byte. *)
Fixpoint decodeFrom (i : nat) (prev : N) (l : list N) : list N :=
  match l with
  | [] => []
  | x :: rest =>
      let k := N.of_nat (i mod 4) in
      if (k =? 0) then decodeFrom (S i) x rest
      else ((prev * 2 ^ (2 * k) + x / 2 ^ (6 - 2 * k)) mod 256)
             :: decodeFrom (S i) x rest
  end.

Definition base64_parse (s : string) : bytes := ofN (decodeFrom 0 0 (sextets s)).

(** [CryptoJS.enc.Hex.parse] on a string of hex digits. *)
Definition hex_parse (s : string) : bytes := ofN (hexTable s).

(* ------------------------------------------------------------------ *)
(** ** MD5 (RFC 1321) and [EvpKDF] *)

(** The AES S-box (FIPS 197, figure 7). *)
Definition sboxTable : list N :=
  hexTable
    ("637c777bf26b6fc53001672bfed7ab76ca82c97dfa5947f0add4a2af9ca472c0" ++
     "b7fd9326363ff7cc34a5e5f171d8311504c723c31896059a071280e2eb27b275" ++
     "09832c1a1b6e5aa0523bd6b329e32f8453d100ed20fcb15b6acbbe394a4c58cf" ++
     "d0efaafb434d338545f9027f503c9fa851a3408f929d38f5bcb6da2110fff3d2" ++
     "cd0c13ec5f974417c4a77e3d645d197360814fdc222a908846eeb814de5e0bdb" ++
     "e0323a0a4906245cc2d3ac629195e479e7c8376d8dd54ea96c56f4ea657aae08" ++
     "ba78252e1ca6b4c6e8dd741f4bbd8b8a703eb5664803f60e613557b986c11d9e" ++
     "e1f8981169d98e949b1e87e9ce5528df8ca1890dbfe6426841992d0fb054bb16").

(** The inverse S-box (FIPS 197, figure 14). *)
Definition invSboxTable : list N :=
  hexTable
    ("52096ad53036a538bf40a39e81f3d7fb7ce339829b2fff87348e4344c4dee9cb" ++
     "547b9432a6c2233dee4c950b42fac34e082ea16628d924b2765ba2496d8bd125" ++
     "72f8f66486689816d4a45ccc5d65b6926c704850fdedb9da5e154657a78d9d84" ++
     "90d8ab008cbcd30af7e45805b8b34506d02c1e8fca3f0f02c1afbd0301138a6b" ++
     "3a9111414f67dcea97f2cfcef0b4e67396ac7422e7ad3585e2f937e81c75df6e" ++
     "47f11a711d29c5896fb7620eaa18be1bfc563e4bc6d279209adbc0fe78cd5af4" ++
     "1fdda8338807c731b11210592780ec5f60517fa919b54a0d2de57a9f93c99cef" ++
     "a0e03b4dae2af5b0c8ebbb3c83539961172b047eba77d626e169146355210c7d").

(** The sine table of MD5 (RFC 1321), as bytes. *)
Definition md5Table : list N :=
  hexTable
    ("d76aa478e8c7b756242070dbc1bdceeef57c0faf4787c62aa8304613fd469501" ++
     "698098d88b44f7afffff5bb1895cd7be6b901122fd987193a679438e49b40821" ++
     "f61e2562c040b340265e5a51e9b6c7aad62f105d02441453d8a1e681e7d3fbc8" ++
     "21e1cde6c33707d6f4d50d87455a14eda9e3e905fcefa3f8676f02d98d2a4c8a" ++
     "fffa39428771f6816d9d6122fde5380ca4beea444bdecfa9f6bb4b60bebfbc70" ++
     "289b7ec6eaa127fad4ef308504881d05d9d4d039e6db99e51fa27cf8c4ac5665" ++
     "f4292244432aff97ab9423a7fc93a039655b59c38f0ccc92ffeff47d85845dd1" ++
     "6fa87e4ffe2ce6e0a30143144e0811a1f7537e82bd3af2352ad7d2bbeb86d391").

(** The round constants of SHA-512 (FIPS 180-4), as bytes. *)
Definition sha512Table : list N :=
  hexTable
    ("428a2f98d728ae227137449123ef65cdb5c0fbcfec4d3b2fe9b5dba58189dbbc" ++
     "3956c25bf348b53859f111f1b605d019923f82a4af194f9bab1c5ed5da6d8118" ++
     "d807aa98a303024212835b0145706fbe243185be4ee4b28c550c7dc3d5ffb4e2" ++
     "72be5d74f27b896f80deb1fe3b1696b19bdc06a725c71235c19bf174cf692694" ++
     "e49b69c19ef14ad2efbe4786384f25e30fc19dc68b8cd5b5240ca1cc77ac9c65" ++
     "2de92c6f592b02754a7484aa6ea6e4835cb0a9dcbd41fbd476f988da831153b5" ++
     "983e5152ee66dfaba831c66d2db43210b00327c898fb213fbf597fc7beef0ee4" ++
     "c6e00bf33da88fc2d5a79147930aa72506ca6351e003826f142929670a0e6e70" ++
     "27b70a8546d22ffc2e1b21385c26c9264d2c6dfc5ac42aed53380d139d95b3df" ++
     "650a73548baf63de766a0abb3c77b2a881c2c92e47edaee692722c851482353b" ++
     "a2bfe8a14cf10364a81a664bbc423001c24b8b70d0f89791c76c51a30654be30" ++
     "d192e819d6ef5218d69906245565a910f40e35855771202a106aa07032bbd1b8" ++
     "19a4c116b8d2d0c81e376c085141ab532748774cdf8eeb9934b0bcb5e19b48a8" ++
     "391c0cb3c5c95a634ed8aa4ae3418acb5b9cca4f7763e373682e6ff3d6b2b8a3" ++
     "748f82ee5defb2fc78a5636f43172f6084c87814a1f0ab728cc702081a6439ec" ++
     "90befffa23631e28a4506cebde82bde9bef9a3f7b2c67915c67178f2e372532b" ++
     "ca273eceea26619cd186b8c721c0c207eada7dd6cde0eb1ef57d4f7fee6ed178" ++
     "06f067aa72176fba0a637dc5a2c898a6113f9804bef90dae1b710b35131c471b" ++
     "28db77f523047d8432caab7b40c724933c9ebe0a15c9bebc431d67c49c100d4c" ++
     "4cc5d4becb3e42b6597f299cfc657e2a5fcb6fab3ad6faec6c44198c4a475817").

(** The initial hash value of SHA-512, as bytes. *)
Definition sha512Initial : list N :=
  hexTable
    ("6a09e667f3bcc908bb67ae8584caa73b3c6ef372fe94f82ba54ff53a5f1d36f1" ++
     "510e527fade682d19b05688c2b3e6c1f1f83d9abfb41bd6b5be0cd19137e2179").

Definition add32 (a b : N) : N := (a + b) mod 2 ^ 32.
Definition not32 (a : N) : N := N.lxor a (2 ^ 32 - 1).
Definition rotl32 (x c : N) : N :=
  N.lor (N.shiftl x c mod 2 ^ 32) (N.shiftr x (32 - c)).

Definition md5K : list N := map fromBE (chunks 4 md5Table).

Definition md5Shifts : list N :=
  [7; 12; 17; 22; 5; 9; 14; 20; 4; 11; 16; 23; 6; 10; 15; 21].

Definition md5Step (M : list N) (st : N * N * N * N) (i : nat)
  : N * N * N * N :=
  let '(A, B, C, D) := st in
  let q := (i / 16)%nat in
  let F :=
    match q with
    | 0%nat => N.lor (N.land B C) (N.land (not32 B) D)
    | 1%nat => N.lor (N.land D B) (N.land (not32 D) C)
    | 2%nat => N.lxor B (N.lxor C D)
    | _ => N.lxor C (N.lor B (not32 D))
    end in
  let g :=
    match q with
    | 0%nat => i
    | 1%nat => ((5 * i + 1) mod 16)%nat
    | 2%nat => ((3 * i + 5) mod 16)%nat
    | _ => ((7 * i) mod 16)%nat
    end in
  let F' := add32 (add32 (add32 F A) (at_ md5K i)) (at_ M g) in
  (D, add32 B (rotl32 F' (at_ md5Shifts (4 * q + i mod 4))), B, C).

Definition md5Block (st : N * N * N * N) (block : list N) : N * N * N * N :=
  let M := map fromLE (chunks 4 block) in
  let '(A, B, C, D) := st in
  let '(A', B', C', D') := fold_left (md5Step M) (seq 0 64) st in
  (add32 A A', add32 B B', add32 C C', add32 D D').

Definition md5Pad (msg : list N) : list N :=
  let n := length msg in
  msg ++ [128] ++ repeat 0 ((119 - n mod 64) mod 64)
      ++ toLE 8 ((N.of_nat n * 8) mod 2 ^ 64).

Definition md5 (msg : list N) : list N :=
  let '(A, B, C, D) :=
    fold_left md5Block (chunks 64 (md5Pad msg))
      (1732584193, 4023233417, 2562383102, 271733878) in
  toLE 4 A ++ toLE 4 B ++ toLE 4 C ++ toLE 4 D.

(** [CryptoJS.algo.EvpKDF] with its defaults (MD5, one iteration), as
    OpenSSL's [EVP_BytesToKey]: 32 bytes of key and 16 of IV. *)
Definition evpKDF (password : string) (salt : bytes) : bytes * bytes :=
  let ps := toN (list_byte_of_string password) ++ toN salt in
  let d1 := md5 ps in
  let d2 := md5 (d1 ++ ps) in
  let d3 := md5 (d2 ++ ps) in
  (ofN (d1 ++ d2), ofN d3).

(* ------------------------------------------------------------------ *)
(** ** AES-256 (FIPS 197) in CBC mode *)

Definition sbox (b : N) : N := at_ sboxTable (N.to_nat b).
Definition invSbox (b : N) : N := at_ invSboxTable (N.to_nat b).

Definition xtime (b : N) : N :=
  let d := (2 * b) mod 256 in
  if 128 <=? b then N.lxor d 27 else d.

(** Multiplication in GF(2^8) by the constants of the column mixes. *)
Definition mul2 := xtime.
Definition mul3 (b : N) := N.lxor (xtime b) b.
Definition mul9 (b : N) := N.lxor (xtime (xtime (xtime b))) b.
Definition mul11 (b : N) := N.lxor (xtime (N.lxor (xtime (xtime b)) b)) b.
Definition mul13 (b : N) := N.lxor (xtime (xtime (N.lxor (xtime b) b))) b.
Definition mul14 (b : N) := xtime (N.lxor (xtime (N.lxor (xtime b) b)) b).

Definition xorBytes (a b : list N) : list N :=
  map (fun i => N.lxor (at_ a i) (at_ b i)) (seq 0 (length a)).

(** The state is the block in input order: byte [r + 4c] is row [r],
    column [c]. *)
Definition shiftRows (s : list N) : list N :=
  map (fun i => at_ s (i mod 4 + 4 * ((i / 4 + i mod 4) mod 4))) (seq 0 16).

Definition invShiftRows (s : list N) : list N :=
  map (fun i => at_ s (i mod 4 + 4 * ((i / 4 + 4 - i mod 4) mod 4))) (seq 0 16).

Definition mixColumn (c : list N) : list N :=
  let a0 := at_ c 0 in let a1 := at_ c 1 in
  let a2 := at_ c 2 in let a3 := at_ c 3 in
  [ N.lxor (N.lxor (mul2 a0) (mul3 a1)) (N.lxor a2 a3);
    N.lxor (N.lxor a0 (mul2 a1)) (N.lxor (mul3 a2) a3);
    N.lxor (N.lxor a0 a1) (N.lxor (mul2 a2) (mul3 a3));
    N.lxor (N.lxor (mul3 a0) a1) (N.lxor a2 (mul2 a3)) ].

Definition invMixColumn (c : list N) : list N :=
  let a0 := at_ c 0 in let a1 := at_ c 1 in
  let a2 := at_ c 2 in let a3 := at_ c 3 in
  [ N.lxor (N.lxor (mul14 a0) (mul11 a1)) (N.lxor (mul13 a2) (mul9 a3));
    N.lxor (N.lxor (mul9 a0) (mul14 a1)) (N.lxor (mul11 a2) (mul13 a3));
    N.lxor (N.lxor (mul13 a0) (mul9 a1)) (N.lxor (mul14 a2) (mul11 a3));
    N.lxor (N.lxor (mul11 a0) (mul13 a1)) (N.lxor (mul9 a2) (mul14 a3)) ].

Definition mixColumns (s : list N) : list N := flat_map mixColumn (chunks 4 s).
Definition invMixColumns (s : list N) : list N :=
  flat_map invMixColumn (chunks 4 s).

(** The key schedule for a 32-byte key: 60 words, kept newest first while
    it grows. *)
Definition subWord (w : list N) : list N := map sbox w.
Definition rotWord (w : list N) : list N := skipn 1 w ++ firstn 1 w.

Definition rcon (i : nat) : list N :=
  [at_ [1; 2; 4; 8; 16; 32; 64] (i - 1); 0; 0; 0].

Definition nextWord (acc : list (list N)) (i : nat) : list (list N) :=
  let prev := nth 0 acc [] in
  let back := nth 7 acc [] in
  let temp :=
    if (i mod 8 =? 0)%nat then xorBytes (subWord (rotWord prev)) (rcon (i / 8))
    else if (i mod 8 =? 4)%nat then subWord prev
    else prev in
  xorBytes back temp :: acc.

Definition keySchedule (key : list N) : list (list N) :=
  rev (fold_left nextWord (seq 8 52) (rev (chunks 4 key))).

Definition roundKey (w : list (list N)) (r : nat) : list N :=
  concat (firstn 4 (skipn (4 * r) w)).

Definition encryptBlock (w : list (list N)) (block : list N) : list N :=
  let s :=
    fold_left
      (fun s r => xorBytes (mixColumns (shiftRows (map sbox s))) (roundKey w r))
      (seq 1 13) (xorBytes block (roundKey w 0)) in
  xorBytes (shiftRows (map sbox s)) (roundKey w 14).

Definition decryptBlock (w : list (list N)) (block : list N) : list N :=
  let s :=
    fold_left
      (fun s r =>
         invMixColumns
           (xorBytes (map invSbox (invShiftRows s)) (roundKey w (14 - r))))
      (seq 1 13) (xorBytes block (roundKey w 14)) in
  xorBytes (map invSbox (invShiftRows s)) (roundKey w 0).

Fixpoint cbcEncrypt (w : list (list N)) (prev : list N) (blocks : list (list N))
  : list N :=
  match blocks with
  | [] => []
  | b :: rest =>
      let c := encryptBlock w (xorBytes b prev) in
      c ++ cbcEncrypt w c rest
  end.

Fixpoint cbcDecrypt (w : list (list N)) (prev : list N) (blocks : list (list N))
  : list N :=
  match blocks with
  | [] => []
  | c :: rest => xorBytes (decryptBlock w c) prev ++ cbcDecrypt w c rest
  end.

Definition aesEncrypt (key iv data : bytes) : bytes :=
  ofN (cbcEncrypt (keySchedule (toN key)) (toN iv) (chunks 16 (toN data))).

Definition aesDecrypt (key iv data : bytes) : bytes :=
  ofN (cbcDecrypt (keySchedule (toN key)) (toN iv) (chunks 16 (toN data))).

(* ------------------------------------------------------------------ *)
(** ** SHA-512 (FIPS 180-4) *)

Definition add64 (a b : N) : N := (a + b) mod 2 ^ 64.
Definition rotr64 (x c : N) : N :=
  N.lor (N.shiftr x c) (N.shiftl x (64 - c) mod 2 ^ 64).
Definition not64 (a : N) : N := N.lxor a (2 ^ 64 - 1).

Definition sha512K : list N := map fromBE (chunks 8 sha512Table).
Definition sha512H : list N := map fromBE (chunks 8 sha512Initial).

Definition smallSigma0 (x : N) : N :=
  N.lxor (N.lxor (rotr64 x 1) (rotr64 x 8)) (N.shiftr x 7).
Definition smallSigma1 (x : N) : N :=
  N.lxor (N.lxor (rotr64 x 19) (rotr64 x 61)) (N.shiftr x 6).
Definition bigSigma0 (x : N) : N :=
  N.lxor (N.lxor (rotr64 x 28) (rotr64 x 34)) (rotr64 x 39).
Definition bigSigma1 (x : N) : N :=
  N.lxor (N.lxor (rotr64 x 14) (rotr64 x 18)) (rotr64 x 41).

(** The message schedule, newest word first while it grows. *)
Definition nextW (acc : list N) (_ : nat) : list N :=
  add64 (add64 (smallSigma1 (at_ acc 1)) (at_ acc 6))
        (add64 (smallSigma0 (at_ acc 14)) (at_ acc 15))
  :: acc.

Definition schedule (block : list N) : list N :=
  rev (fold_left nextW (seq 16 64) (rev (map fromBE (chunks 8 block)))).

Definition sha512Step (W : list N) (st : list N) (t : nat) : list N :=
  let a := at_ st 0 in let b := at_ st 1 in let c := at_ st 2 in
  let d := at_ st 3 in let e := at_ st 4 in let f := at_ st 5 in
  let g := at_ st 6 in let h := at_ st 7 in
  let ch := N.lxor (N.land e f) (N.land (not64 e) g) in
  let maj := N.lxor (N.lxor (N.land a b) (N.land a c)) (N.land b c) in
  let T1 :=
    add64 (add64 (add64 h (bigSigma1 e)) (add64 ch (at_ sha512K t))) (at_ W t) in
  let T2 := add64 (bigSigma0 a) maj in
  [add64 T1 T2; a; b; c; add64 d T1; e; f; g].

Definition sha512Block (st : list N) (block : list N) : list N :=
  let W := schedule block in
  let st' := fold_left (sha512Step W) (seq 0 80) st in
  map (fun i => add64 (at_ st i) (at_ st' i)) (seq 0 8).

Definition sha512Pad (msg : list N) : list N :=
  let n := length msg in
  msg ++ [128] ++ repeat 0 ((239 - n mod 128) mod 128)
      ++ toBE 16 ((N.of_nat n * 8) mod 2 ^ 128).

Definition sha512 (msg : list N) : list N :=
  flat_map (toBE 8) (fold_left sha512Block (chunks 128 (sha512Pad msg)) sha512H).

Definition sha512Hex (data : bytes) : string := Hex_stringify (ofN (sha512 (toN data))).

(* ------------------------------------------------------------------ *)
(** ** [Date.prototype.toISOString] *)

Definition digits (width : nat) (n : N) : string :=
  let s := decimal n in
  String.concat "" (repeat "0" (width - String.length s)) ++ s.

(** The civil date of a day count from 1970-01-01. *)
Definition civil (days : N) : N * N * N :=
  let z := days + 719468 in
  let era := z / 146097 in
  let doe := z mod 146097 in
  let yoe := (doe - doe / 1460 + doe / 36524 - doe / 146096) / 365 in
  let doy := doe - (365 * yoe + yoe / 4 - yoe / 100) in
  let mp := (5 * doy + 2) / 153 in
  let d := doy - (153 * mp + 2) / 5 + 1 in
  let m := if mp <? 10 then mp + 3 else mp - 9 in
  let y := yoe + era * 400 + (if m <=? 2 then 1 else 0) in
  (y, m, d).

Definition isoString (ms : N) : string :=
  let '(y, m, d) := civil (ms / 86400000) in
  let t := ms mod 86400000 in
  digits 4 y ++ "-" ++ digits 2 m ++ "-" ++ digits 2 d ++ "T"
  ++ digits 2 (t / 3600000) ++ ":" ++ digits 2 (t / 60000 mod 60) ++ ":"
  ++ digits 2 (t / 1000 mod 60) ++ "." ++ digits 3 (t mod 1000) ++ "Z".

(** The interface with these algorithms.  RSA key generation, encryption
    and signing stay the tagged stand-ins. *)
#[export] Instance primitives : Primitives := {|
  Hex_parse := hex_parse;
  Base64_stringify := base64_stringify;
  Base64_parse := base64_parse;
  EvpKDF := evpKDF;
  AES_CBC_encryptBlocks := aesEncrypt;
  AES_CBC_decryptBlocks := aesDecrypt;
  generateKeyPairSync := Standin.keygen;
  publicEncrypt := Standin.oaepEncrypt;
  privateDecrypt := Standin.oaepDecrypt;
  crypto_sign := Standin.sign;
  crypto_verify := Standin.verify;
  sha512_hex := sha512Hex;
  Buffer_toString_base64 := base64_stringify;
  Buffer_from_base64 := base64_parse;
  Buffer_toString_utf8 := Standin.codec_stringify;
  toISOString := isoString
|}.

End Actual.

(* ================================================================== *)
(** * Sample data *)
(* ================================================================== *)

Module Sample.

(** A world to run in: a varying entropy tape, no environment variables,
    one student without keys and one submitted application. *)
Definition entropy (n : nat) : byte := byte_of_N (N.of_nat n * 37 + 11).

Definition student : User :=
  mkUser "65a1f0c2e4b0a1b2c3d4e5f6" "student@example.org" (Some "Student")
    None None.

Definition submitted : Application :=
  mkApplication "65a1f0c2e4b0a1b2c3d4e5f7" (Some "APP2026-ABCXYZ")
    "65a1f0c2e4b0a1b2c3d4e5f6" "submitted" None None None None None None None.

Definition world (now : N) : World :=
  mkWorld (mkRng entropy 0) now (mkEnv None None None) [student] [submitted].

(** 2026-01-01T00:00:00Z and one minute later. *)
Definition t1 : N := 1767225600000.
Definition t2 : N := 1767225660000.

(** The [_id] of an officer, as [req.user.id] of the reviewer, and the
    officer's account. *)
Definition officer : string := "65a1f0c2e4b0a1b2c3d4e5a1".

Definition reviewer : User :=
  mkUser officer "officer@example.org" (Some "Officer") None None.

(** The sample world with the officer's account in it. *)
Definition office (now : N) : World :=
  mkWorld (mkRng entropy 0) now (mkEnv None None None) [student; reviewer]
    [submitted].

(** The first two key pairs the entropy tape gives. *)
Definition keys1 : Rsa.t := Rsa.mk "PUB0b30557a9fc4e90e" "PRV0b30557a9fc4e90e".
Definition keys2 : Rsa.t := Rsa.mk "PUB33587da2c7ec1136" "PRV33587da2c7ec1136".

Section OnStandin.
#[local] Existing Instance Standin.primitives.

(** ["hello-world"] for the holder of [keys1], on the stand-in instance. *)
Definition sealedStandin : Hybrid.t :=
  match fst (hybridEncrypt "hello-world" (Rsa.publicKey keys1) (world t1)) with
  | Ok e => e
  | Throw _ => Hybrid.mk "" "" ""
  end.

End OnStandin.

Section OnActual.
#[local] Existing Instance Actual.primitives.

(** What [encryptAES("secret", "k1")] returns in [world t1]: AES-256-CBC
    under the key and IV that MD5 derives from ["k1"] and the salt
    [5b80a5caef14395e]. *)
Definition cipher : Aes.t :=
  Aes.mk "U2FsdGVkX19bgKXK7xQ5Xq3HUnROwZxuxb25nQuTjAQ="
    "0b30557a9fc4e90e33587da2c7ec1136".

(** A payload of three blocks for the holder of [keys1]. *)
Definition letter : string := "hello-world, from the scholarship portal".

Definition sealed : Hybrid.t :=
  match fst (hybridEncrypt letter (Rsa.publicKey keys1) (world t1)) with
  | Ok e => e
  | Throw _ => Hybrid.mk "" "" ""
  end.

(** The application verified at [t1], and verified again at [t2]. *)
Definition verifiedOnce : World :=
  snd (putStatus officer "65a1f0c2e4b0a1b2c3d4e5f7" "verified" None
         (office t1)).


(** The application as stored after its first verification. *)
Definition storedOnce : Application :=
  match applications verifiedOnce with
  | a :: _ => a
  | [] => submitted
  end.

Definition code1 : string := "SVS-VERIFIED-APP2026-ABCXYZ-a8d525b05ab55d67".

End OnActual.

End Sample.

(* ================================================================== *)
(** * backend/utils/encoding.js: Base64 and verification codes *)
(* ================================================================== *)

(** [s.split(sep)] for a separator of one ASCII character: a string
    without the separator is one part, the empty string included. *)
Fixpoint split (sep : ascii) (s : string) : list string :=
  match s with
  | EmptyString => [""]
  | String c rest =>
      if Ascii.eqb c sep then "" :: split sep rest
      else
        match split sep rest with
        | part :: parts => String c part :: parts
        | [] => [String c ""]
        end
  end.

(** An index argument of [slice], counted from the end when negative and
    clamped to the array. *)
Definition relativeIndex (len : nat) (i : Z) : nat :=
  if (i <? 0)%Z then Z.to_nat (Z.max (Z.of_nat len + i) 0)
  else Nat.min (Z.to_nat i) len.

(** [array.slice(start, stop)]. *)
Definition slice {A} (start stop : Z) (l : list A) : list A :=
  let from := relativeIndex (length l) start in
  let to := relativeIndex (length l) stop in
  firstn (to - from) (skipn from l).

Module Parsed.
(** What [parseVerificationCode] returns: [{ prefix, applicationNumber,
    hash, isValid: true }] or [{ isValid: false, error }]. *)
Inductive t : Type :=
| Valid (prefix applicationNumber hash : string)
| Invalid (error : string).
End Parsed.

(** For a string argument.  The [throw] inside the [try] is caught by its
    own [catch], which returns the message. *)
Definition parseVerificationCode (verificationCode : string) : Parsed.t :=
  let body : Result Parsed.t :=
    let parts := split "-" verificationCode in
    if negb (hd "" parts =? "SVS") || (length parts <? 3)%nat then
      Throw "Invalid verification code format"
    else
      Ok (Parsed.Valid (hd "" parts)
            (String.concat "-" (slice 1 (-1) parts))
            (last parts "")) in
  match body with
  | Ok parsed => parsed
  | Throw message => Parsed.Invalid message
  end.

Section Codes.
Context {P : Primitives}.

Definition encodeBase64 (data : string) : M string :=
  try_rethrow "Base64 encoding failed: "
    (ret (Buffer_toString_base64 (Buffer_from_utf8 data))).

Definition decodeBase64 (encodedData : string) : M string :=
  try_rethrow "Base64 decoding failed: "
    (ret (Buffer_toString_utf8 (Buffer_from_base64 encodedData))).

Definition generateVerificationCodeString (applicationData : ApplicationData.t)
  : M string :=
  try_rethrow "Verification code generation failed: "
    (timestamp <- Date_now ;;
     let payload :=
       [ ("applicationId", jsonOpt (ApplicationData.id applicationData));
         ("applicationNumber",
          jsonOpt (ApplicationData.application_number applicationData));
         ("studentId", jsonOpt (ApplicationData.student_id applicationData));
         ("timestamp", JNumber timestamp) ] in
     let verificationData := JSON_stringify payload in
     let verificationHash :=
       substring 0 16 (sha512_hex (Buffer_from_utf8 verificationData)) in
     ret ("SVS-"
          ++ template (ApplicationData.applicationNumber applicationData)
          ++ "-" ++ verificationHash)).

(** [crypto.sign] and [crypto.verify] agree on the pairs
    [crypto.generateKeyPairSync] returns. *)
Definition Signature_law : Prop :=
  forall publicKey privateKey,
    KeyPair publicKey privateKey ->
    forall data,
      exists s,
        crypto_sign data privateKey = Ok s /\
        crypto_verify data publicKey s = Ok true.

End Codes.

(** No hyphen in [s]. *)
Definition noHyphen (s : string) : bool :=
  allChars (fun c => negb (Ascii.eqb c "-")) s.

(* ================================================================== *)
(** * Application routes: the certificate document *)
(* ================================================================== *)

(** A header value that [res.set] accepts: Node throws on a character
    outside tab, [\x20-\x7e] and [\x80-\xff].  In the UTF-8 of the string
    these are the bytes 9, 32 to 126 and 128 to 195. *)
Definition headerSafe (s : string) : bool :=
  allChars
    (fun c =>
       let n := N_of_ascii c in
       ((n =? 9) || (32 <=? n) && (n <=? 126) || (128 <=? n) && (n <=? 195))%N)
    s.

Module CertificateFile.
(** What [GET /applications/verify/:code/document] sends: the text and
    its [Content-Disposition] header ([Content-Type] is [text/plain]). *)
Record t : Type := mk { content : string; disposition : string }.
End CertificateFile.

Section CertificateDocument.
Context {P : Primitives}.

(** [application.scholarshipId?.title] after [populate('scholarshipId')];
    scholarships are kept outside the [World]. *)
Variable scholarshipTitle : Application -> option string.

(** [GET /applications/verify/:code/document]. *)
Definition getCertificateDocument (code : string) : Handler CertificateFile.t :=
  route "Failed to download certificate"
    (fun w =>
       match find (fun a => eqOpt (verifiedVerificationCode a) code)
               (applications w) with
       | None => ret (Failure 404 "Certificate not found") w
       | Some application =>
           if negb (status application =? "verified") then
             ret (Failure 404 "Certificate not found") w
           else
             (student <- User_findById (userId application) ;;
              now <- Date_now ;;
              let name :=
                match student with
                | Some u =>
                    if truthy (fullName u) then fullName u else Some (email u)
                | None => None
                end in
              let content :=
                String.concat newline
                  [ "Scholarship Verification Certificate";
                    ("Application: "
                     ++ template (applicationNumber application))%string;
                    ("Student: " ++ template name)%string;
                    ("Scholarship: "
                     ++ template (scholarshipTitle application))%string;
                    ("Status: " ++ status application)%string;
                    ("Verified At: "
                     ++ toISOString
                          match verifiedAt application with
                          | Some t => t
                          | None => now
                          end)%string ] in
              let disposition :=
                ("attachment; filename=" ++ dquote ++ "verified-certificate-"
                 ++ template (applicationNumber application)
                 ++ ".txt" ++ dquote)%string in
              if negb (headerSafe disposition) then
                throw "Invalid character in header content"
              else ret (Success 200 (CertificateFile.mk content disposition))) w
       end).

End CertificateDocument.

(* ================================================================== *)
(** * Vocabulary of the further statements *)
(* ================================================================== *)

(** The stored application after [PUT .../status] with a status that
    issues no certificate. *)
Definition reviewedAs (reviewer newStatus : string) (comments : option string)
    (application : Application) (now : N) : Application :=
  mkApplication
    (app_id application) (applicationNumber application) (userId application)
    newStatus (Some reviewer) (Some now)
    (if truthy comments then comments else reviewNotes application)
    (verificationCode application)
    (verifiedVerificationCode application)
    (verifiedCertificateText application)
    (verifiedAt application).

(** Whether [PUT .../status] issues a certificate for [application]. *)
Definition issues (newStatus : string) (application : Application) : bool :=
  (newStatus =? "verified")
  || (newStatus =? "approved")
     && negb (truthy (verifiedVerificationCode application)).

(** The stored application after [PUT .../status] with a status that
    issues the certificate [cert]. *)
Definition certifiedAs (reviewer newStatus : string) (comments : option string)
    (application : Application) (cert : Certificate.t) (now : N)
  : Application :=
  mkApplication
    (app_id application) (applicationNumber application) (userId application)
    newStatus (Some reviewer) (Some now)
    (if truthy comments then comments else reviewNotes application)
    (verificationCode application)
    (Some (Certificate.verificationCode cert))
    (Some (Certificate.certificateText cert))
    (Some now).

(* ================================================================== *)
(** * The portal: documents, files and the audit log *)
(* ================================================================== *)

Module AuditLog.
(** [models/AuditLog.js], the fields [logAccessAttempt] writes and the
    timestamp Mongoose adds. *)
Record t : Type := mk {
  userId : option string;
  action : string;
  resource : string;
  ipAddress : string;
  userAgent : option string;
  status : string;
  timestamp : N
}.
End AuditLog.

Module Doc.
(** A stored document of [routes/documents.js]: the fields the integrity
    check reads ([Document]) and the others [POST /upload] writes. *)
Record t : Type := mk {
  document : Document;
  applicationId : string;
  userId : string;
  documentType : option string;
  fileSize : N;
  filePath : string;
  encryptedData : option string;
  createdAt : N
}.
End Doc.

(** The [World] together with the documents collection, the files under
    the uploads directory (path and content) and the audit log, oldest
    entry first. *)
Record Portal : Type := mkPortal {
  world : World;
  documents : list Doc.t;
  files : list (string * string);
  auditLogs : list AuditLog.t
}.

(** A computation on the portal.  [None] is for a run on which the
    embedding does not say what the code does (a stored JSON value of a
    type the code does not expect reaches a library call). *)
Definition Act (A : Type) : Type := Portal -> option (Result A * Portal).

Definition retA {A} (a : A) : Act A := fun p => Some (Ok a, p).

Definition throwA {A} (message : string) : Act A :=
  fun p => Some (Throw message, p).

Definition unmodelled {A} : Act A := fun _ => None.

Definition bindA {A B} (c : Act A) (k : A -> Act B) : Act B :=
  fun p =>
    match c p with
    | Some (Ok a, p') => k a p'
    | Some (Throw m, p') => Some (Throw m, p')
    | None => None
    end.

Declare Scope portal_scope.
Delimit Scope portal_scope with portal.
Notation "x <- c ;; k" := (bindA c (fun x => k))
  (at level 61, c at next level, right associativity) : portal_scope.
Notation "' pat <- c ;; k" := (bindA c (fun x => match x with pat => k end))
  (at level 61, pat pattern, c at next level, right associativity)
  : portal_scope.
Notation "c ;;; k" := (bindA c (fun _ => k))
  (at level 61, right associativity) : portal_scope.

Definition liftA {A} (r : Result A) : Act A := fun p => Some (r, p).

Definition setWorld (w : World) (p : Portal) : Portal :=
  mkPortal w (documents p) (files p) (auditLogs p).

(** A computation on the [World], run inside the portal. *)
Definition inWorld {A} (c : M A) : Act A :=
  fun p => let '(r, w') := c (world p) in Some (r, setWorld w' p).

(** [try { ... } catch (error) { console.error(...); res.status(500)... }]
    around a handler's body. *)
Definition routeA {A} (failed : string) (body : Act (Response A))
  : Portal -> option (Response A * Portal) :=
  fun p =>
    match body p with
    | Some (Ok r, p') => Some (r, p')
    | Some (Throw _, p') => Some (Failure 500 failed, p')
    | None => None
    end.

(* ================================================================== *)
(** * backend/middleware/authorization.js *)
(* ================================================================== *)

Module Requester.
(** [req.user], as [verifyToken] attaches it: the id and the role. *)
Record t : Type := mk { id : string; role : string }.
End Requester.

Module Req.
(** The parts of an Express request the middleware reads. *)
Record t : Type := mk {
  user : option Requester.t;
  method : string;
  originalUrl : string;
  baseUrl : string;
  ip : string;
  userAgent : option string
}.
End Req.

Module Denial.
(** The body a middleware answers with when it does not call [next()]. *)
Record t : Type := mk {
  statusCode : nat;
  message : string;
  required : option (list string);
  current : option string
}.
End Denial.

(** What a middleware does: call [next()] or answer. *)
Inductive Gate : Type :=
| Next
| Refused (denial : Denial.t).

Module Acl.
(** The resources and actions of [ROLE_PERMISSIONS]; the routes pass no
    other names to [checkPermission]. *)
Inductive Resource : Type :=
| manage_users | view_audit_logs | manage_applications
| manage_scholarships | verify_documents.

Inductive Action : Type := create | read | update | delete.

Definition Resource_eqb (a b : Resource) : bool :=
  match a, b with
  | manage_users, manage_users | view_audit_logs, view_audit_logs
  | manage_applications, manage_applications
  | manage_scholarships, manage_scholarships
  | verify_documents, verify_documents => true
  | _, _ => false
  end.

Definition Action_eqb (a b : Action) : bool :=
  match a, b with
  | create, create | read, read | update, update | delete, delete => true
  | _, _ => false
  end.

(** The property names, as they appear in messages. *)
Definition resourceKey (r : Resource) : string :=
  match r with
  | manage_users => "manage_users"
  | view_audit_logs => "view_audit_logs"
  | manage_applications => "manage_applications"
  | manage_scholarships => "manage_scholarships"
  | verify_documents => "verify_documents"
  end.

Definition actionKey (a : Action) : string :=
  match a with
  | create => "create" | read => "read" | update => "update"
  | delete => "delete"
  end.

Definition crud (c r u d : bool) : list (Action * bool) :=
  [(create, c); (read, r); (update, u); (delete, d)].

Definition ROLE_PERMISSIONS
  : list (string * list (Resource * list (Action * bool))) :=
  [ ("student",
     [ (manage_users, crud false false false false);
       (view_audit_logs, [(read, false)]);
       (manage_applications, crud true true true false);
       (manage_scholarships, crud false true false false);
       (verify_documents, [(read, false)]) ]);
    ("officer",
     [ (manage_users, crud false false false false);
       (view_audit_logs, [(read, false)]);
       (manage_applications, crud false true true false);
       (manage_scholarships, crud false true false false);
       (verify_documents, [(read, true)]) ]);
    ("admin",
     [ (manage_users, crud true true true true);
       (view_audit_logs, [(read, true)]);
       (manage_applications, crud true true true true);
       (manage_scholarships, crud true true true true);
       (verify_documents, [(read, true)]) ]) ].

(** [Boolean(((ROLE_PERMISSIONS[role] || {})[resource] || {})[action])]. *)
Definition isAllowed (role : string) (resource : Resource) (action : Action)
  : bool :=
  let rolePermissions :=
    match find (fun e => fst e =? role) ROLE_PERMISSIONS with
    | Some e => snd e
    | None => []
    end in
  let resourcePermissions :=
    match find (fun e => Resource_eqb (fst e) resource) rolePermissions with
    | Some e => snd e
    | None => []
    end in
  match find (fun e => Action_eqb (fst e) action) resourcePermissions with
  | Some e => snd e
  | None => false
  end.

Definition actionNames (a : Action) : string :=
  match a with
  | create => "Create" | read => "View" | update => "Update"
  | delete => "Delete"
  end.

Definition resourceNames (r : Resource) : string :=
  match r with
  | manage_users => "Users"
  | view_audit_logs => "Audit Logs"
  | manage_applications => "Applications"
  | manage_scholarships => "Scholarships"
  | verify_documents => "Documents"
  end.

End Acl.

(** [s.startsWith(prefix)], and what follows the prefix. *)
Fixpoint stripPrefix (prefix s : string) : option string :=
  match prefix, s with
  | EmptyString, _ => Some s
  | String a prefix', String b s' =>
      if Ascii.eqb a b then stripPrefix prefix' s' else None
  | String _ _, EmptyString => None
  end.

(** The characters of [s] before its first [/], and the rest of [s] from
    that [/] on. *)
Fixpoint segment (s : string) : string * string :=
  match s with
  | EmptyString => ("", "")
  | String c rest =>
      if Ascii.eqb c "/" then ("", s)
      else let '(seg, tail) := segment rest in (String c seg, tail)
  end.

(** [s.replace(pattern, '')] for a string [pattern] that is not empty:
    its first occurrence is taken out. *)
Fixpoint String_remove (pattern s : string) : string :=
  match stripPrefix pattern s with
  | Some rest => rest
  | None =>
      match s with
      | EmptyString => ""
      | String c rest => String c (String_remove pattern rest)
      end
  end.

Module Pattern.
(** The regular expressions of [dynamicPatterns]: [Dynamic before after]
    is [/^before[^/]+after$/], where [after] is empty or begins with [/],
    and [Literal text] is [/^text$/]. *)
Inductive t : Type :=
| Dynamic (before after : string)
| Literal (text : string).

(** [pattern.test(s)].  The characters [[^/]+] takes are those before
    the first [/] of what follows [before], one at least, as [after]
    begins with [/] or is the end. *)
Definition test (pattern : t) (s : string) : bool :=
  match pattern with
  | Dynamic before after =>
      match stripPrefix before s with
      | Some rest =>
          let '(seg, tail) := segment rest in
          negb (seg =? "") && (tail =? after)
      | None => false
      end
  | Literal text => s =? text
  end.
End Pattern.

(** The tables of [getReadableAction].  Its keys have a space in them, and
    [req.method] is a method name of Node in upper case, so no lookup
    finds a property that [Object.prototype] defines. *)
Definition actionMappings : list (string * string) :=
  [ ("POST /api/auth/register", "User Registration");
    ("POST /api/auth/login", "User Login");
    ("POST /api/auth/logout", "User Logout");
    ("POST /api/auth/verify-otp", "OTP Verification");
    ("POST /api/auth/verify-email", "Email Verification");
    ("POST /api/auth/verify-mfa", "MFA Verification");
    ("POST /api/auth/resend-otp", "Resend OTP");
    ("POST /api/auth/forgot-password", "Password Reset Request");
    ("POST /api/auth/reset-password", "Password Reset");
    ("GET /api/auth/me", "View Profile");
    ("GET /api/scholarships", "View Scholarships");
    ("POST /api/scholarships", "Create Scholarship");
    ("GET /api/applications", "View Applications");
    ("POST /api/applications", "Submit Application");
    ("GET /api/applications/my", "View My Applications");
    ("GET /api/documents", "View Documents");
    ("POST /api/documents", "Upload Document");
    ("GET /api/users", "View Users");
    ("POST /api/users", "Create User");
    ("GET /api/users/audit-logs", "View Audit Logs") ].

Definition dynamicPatterns : list (Pattern.t * string) :=
  [ (Pattern.Dynamic "GET /api/scholarships/" "", "View Scholarship Details");
    (Pattern.Dynamic "PUT /api/scholarships/" "", "Update Scholarship");
    (Pattern.Dynamic "DELETE /api/scholarships/" "", "Delete Scholarship");
    (Pattern.Dynamic "GET /api/applications/" "", "View Application Details");
    (Pattern.Dynamic "PUT /api/applications/" "", "Update Application");
    (Pattern.Dynamic "DELETE /api/applications/" "", "Delete Application");
    (Pattern.Dynamic "PUT /api/applications/" "/status",
     "Update Application Status");
    (Pattern.Dynamic "GET /api/applications/" "/certificate",
     "Download Certificate");
    (Pattern.Dynamic "GET /api/applications/verify/" "", "Verify Application");
    (Pattern.Dynamic "GET /api/documents/" "", "Download Document");
    (Pattern.Dynamic "GET /api/documents/" "/verify", "Verify Document");
    (Pattern.Dynamic "DELETE /api/documents/" "", "Delete Document");
    (Pattern.Dynamic "GET /api/users/" "", "View User Details");
    (Pattern.Dynamic "PUT /api/users/" "", "Update User");
    (Pattern.Dynamic "DELETE /api/users/" "", "Delete User");
    (Pattern.Dynamic "PUT /api/users/" "/toggle-active", "Toggle User Status");
    (Pattern.Literal "DELETE /api/users/me", "Delete Own Account") ].

Definition methodNames : list (string * string) :=
  [ ("GET", "View"); ("POST", "Create"); ("PUT", "Update");
    ("PATCH", "Modify"); ("DELETE", "Delete") ].

(** [resource.charAt(0).toUpperCase() + resource.slice(1)] for a
    [resource] that begins with an ASCII character; for another first
    character the embedding does not say. *)
Definition capitalise (resource : string) : option string :=
  match resource with
  | EmptyString => Some ""
  | String c rest =>
      let n := N_of_ascii c in
      if (n <? 128)%N then
        Some (String
                (if ((97 <=? n) && (n <=? 122))%N then ascii_of_N (n - 32)
                 else c)
                rest)
      else None
  end.

(** [getReadableAction(method, url)]. *)
Definition getReadableAction (method url : string) : option string :=
  let cleanUrl := hd "" (split "?" url) in
  let exactKey := (method ++ " " ++ cleanUrl)%string in
  match find (fun m => fst m =? exactKey) actionMappings with
  | Some m => Some (snd m)
  | None =>
      match find (fun d => Pattern.test (fst d) exactKey) dynamicPatterns with
      | Some d => Some (snd d)
      | None =>
          let urlParts :=
            filter (fun part => negb (part =? ""))
              (split "/" (String_remove "/api/" cleanUrl)) in
          let resource := hd "Resource" urlParts in
          let methodName :=
            match find (fun m => fst m =? method) methodNames with
            | Some m => snd m
            | None => method
            end in
          match capitalise resource with
          | Some formattedResource =>
              Some (methodName ++ " " ++ formattedResource)%string
          | None => None
          end
      end
  end.

Local Open Scope portal_scope.

(** [logAccessAttempt]: one more entry in the audit log; its own
    [try]/[catch] keeps it from throwing.  [req.user.id] is the [_id] of a
    stored user and [status] one of the two the schema lists, so the entry
    is valid when [action] is not empty. *)
Definition logAccessAttempt (req : Req.t) (action status : string) : Act unit :=
  now <- inWorld Date_now ;;
  fun p =>
    let who :=
      match Req.user req with
      | Some u =>
          if truthy (Some (Requester.id u)) then Some (Requester.id u) else None
      | None => None
      end in
    Some (Ok tt,
          mkPortal (world p) (documents p) (files p)
            (auditLogs p
             ++ [AuditLog.mk who action (Req.baseUrl req) (Req.ip req)
                   (Req.userAgent req) status now])%list).

(** [requireRole(...allowedRoles)].  The call of [logAccessAttempt] is not
    awaited: the entry is written while the answer goes out. *)
Definition requireRole (allowedRoles : list string) (req : Req.t) : Act Gate :=
  match Req.user req with
  | None =>
      retA (Refused (Denial.mk 401 "Authentication required" None None))
  | Some u =>
      if negb (existsb (String.eqb (Requester.role u)) allowedRoles) then
        logAccessAttempt req "Unauthorized Access Attempt" "failure" ;;;
        retA (Refused
                (Denial.mk 403 "Access denied. Insufficient privileges."
                   (Some allowedRoles) (Some (Requester.role u))))
      else retA Next
  end.

(** [checkPermission(resource, action)]. *)
Definition checkPermission (resource : Acl.Resource) (action : Acl.Action)
    (req : Req.t) : Act Gate :=
  fun p =>
    match
      match Req.user req with
      | None =>
          retA (Refused (Denial.mk 401 "Authentication required" None None)) p
      | Some u =>
          let isAllowed := Acl.isAllowed (Requester.role u) resource action in
          let readableAction :=
            (Acl.actionNames action ++ " " ++ Acl.resourceNames resource)%string in
          if negb isAllowed then
            (logAccessAttempt req ("Access Denied: " ++ readableAction) "failure" ;;;
             retA (Refused
                     (Denial.mk 403
                        ("Access denied. Cannot " ++ Acl.actionKey action ++ " "
                         ++ Acl.resourceKey resource ++ ".")
                        None None))) p
          else
            (logAccessAttempt req readableAction "success" ;;; retA Next) p
      end
    with
    | Some (Ok g, p') => Some (Ok g, p')
    | Some (Throw _, p') =>
        Some (Ok (Refused (Denial.mk 500 "Authorization error" None None)), p')
    | None => None
    end.

Module Owned.
(** The [resourceType] of [checkOwnership]: the three the [switch] names,
    or another name (one that is no property of [Object.prototype]). *)
Inductive t : Type :=
| application | document | user | other (name : string).
End Owned.

(** [checkOwnership(resourceType, paramName)].  The file declares no
    [pool], so the two cases that query it throw a [ReferenceError]; in
    the [user] case [parseInt(resourceId)] is a number and [req.user.id]
    is not, so [===] is false whatever the parameter is. *)
Definition checkOwnership (resourceType : Owned.t) (req : Req.t) : Act Gate :=
  fun p =>
    match
      match Req.user req with
      | None =>
          throwA "Cannot read properties of undefined (reading 'role')" p
      | Some u =>
          if existsb (String.eqb (Requester.role u)) ["admin"; "officer"] then
            retA Next p
          else
            (isOwner <-
               match resourceType with
               | Owned.application | Owned.document =>
                   throwA "pool is not defined"
               | Owned.user => retA false
               | Owned.other _ => retA false
               end ;;
             if negb isOwner then
               let resourceName :=
                 match resourceType with
                 | Owned.application => "Application"
                 | Owned.document => "Document"
                 | Owned.user => "User"
                 | Owned.other name => name
                 end in
               logAccessAttempt req
                 ("Access Denied: " ++ resourceName ++ " Ownership") "failure" ;;;
               retA (Refused
                       (Denial.mk 403
                          "Access denied. You can only access your own resources."
                          None None))
             else retA Next) p
      end
    with
    | Some (Ok g, p') => Some (Ok g, p')
    | Some (Throw _, p') =>
        Some (Ok (Refused (Denial.mk 500 "Authorization error" None None)), p')
    | None => None
    end.

(** A route: its middleware in order, then its handler.  The first
    middleware that answers ends the request; one that throws hands the
    error to the error handler of [server.js], which is not embedded. *)
Fixpoint guarded {A} (gates : list (Req.t -> Act Gate)) (req : Req.t)
    (handler : Portal -> option (Response A * Portal))
  : Portal -> option ((Denial.t + Response A) * Portal) :=
  fun p =>
    match gates with
    | [] =>
        match handler p with
        | Some (r, p') => Some (inr r, p')
        | None => None
        end
    | gate :: rest =>
        match gate req p with
        | Some (Ok Next, p') => guarded rest req handler p'
        | Some (Ok (Refused d), p') => Some (inl d, p')
        | Some (Throw _, _) => None
        | None => None
        end
    end.

(** A handler on the [World], as a handler on the portal. *)
Definition onWorld {A} (h : Handler A) : Portal -> option (Response A * Portal) :=
  fun p => let '(r, w') := h (world p) in Some (r, setWorld w' p).

(** [res.statusCode] of what a route answers. *)
Definition statusCodeOf {A} (answer : Denial.t + Response A) : nat :=
  match answer with
  | inl d => Denial.statusCode d
  | inr (Success statusCode _) => statusCode
  | inr (Failure statusCode _) => statusCode
  end.

(** [app.use(auditLog)] of [server.js], which comes before every router:
    [res.end] is wrapped, so when a route below has done its work and
    answers, [logAccessAttempt] is called with the readable action of the
    request and with [success] for a status code below 400.  The call is
    not awaited; the portal returned is the one in which the entry is
    written, the audit log being in the order of the calls of
    [AuditLog.create]. *)
Definition auditLog {A} (req : Req.t)
    (next : Portal -> option ((Denial.t + Response A) * Portal))
  : Portal -> option ((Denial.t + Response A) * Portal) :=
  fun p =>
    match next p with
    | Some (answer, p') =>
        match getReadableAction (Req.method req) (Req.originalUrl req) with
        | Some readableAction =>
            match
              logAccessAttempt req readableAction
                (if (statusCodeOf answer <? 400)%nat then "success"
                 else "failure") p'
            with
            | Some (_, p'') => Some (answer, p'')
            | None => None
            end
        | None => None
        end
    | None => None
    end.

Section GuardedRoutes.
Context {P : Primitives}.

(** [PUT /api/applications/:id/status] as [server.js] serves it, from
    [app.use(auditLog)] on, to a request that [verifyToken] lets through:
    [auditLog], then [router.put('/:id/status', verifyToken,
    requireRole('officer', 'admin'), ...)] from [requireRole] on. *)
Definition putStatusRoute (req : Req.t) (id newStatus : string)
    (comments : option string)
  : Portal -> option ((Denial.t + Response unit) * Portal) :=
  auditLog req
    (guarded [requireRole ["officer"; "admin"]] req
       (match Req.user req with
        | Some u => onWorld (putStatus (Requester.id u) id newStatus comments)
        | None => fun p => Some (Failure 500 "Failed to update status", p)
        end)).

End GuardedRoutes.

(* ================================================================== *)
(** * JSON values, the [binary] encoding and the platform *)
(* ================================================================== *)

(** What [JSON.parse] returns. *)
#[local] Unset Elimination Schemes.
Inductive Json : Type :=
| JsonNull
| JsonBool (b : bool)
| JsonNumber (text : string)
| JsonString (s : string)
| JsonArray (items : list Json)
| JsonObject (members : list (string * Json)).
#[local] Set Elimination Schemes.

(** [value.key] for a key that no prototype defines: the own property of
    an object, [undefined] on anything else, and a [TypeError] on
    [null]. *)
Definition property (key : string) (value : Json) : Result (option Json) :=
  match value with
  | JsonNull =>
      Throw ("Cannot read properties of null (reading '" ++ key ++ "')")
  | JsonObject members =>
      Ok (option_map snd (find (fun m => fst m =? key) members))
  | _ => Ok None
  end.

(** A property handed to a function of [encryption.js] where it expects a
    string: a string is passed on; [undefined] makes the library call
    throw a [TypeError], which the function rethrows; for any other value
    the embedding does not say what crypto-js and [crypto] do. *)
Definition asString (v : option Json) : Act string :=
  match v with
  | Some (JsonString s) => retA s
  | None => throwA "TypeError"
  | Some _ => unmodelled
  end.

(** The UTF-8 encoding of the code point of a byte. *)
Definition utf8_of_byte (b : byte) : bytes :=
  let n := Byte.to_N b in
  if (n <? 128)%N then [b]
  else [byte_of_N (192 + n / 64); byte_of_N (128 + n mod 64)].

(** [buffer.toString('binary')]: one character for each byte, with the
    byte as its code point. *)
Definition Buffer_toString_binary (bs : bytes) : string :=
  string_of_list_byte (flat_map utf8_of_byte bs).

(** The low bytes of the UTF-16 code units of the string that the UTF-8
    bytes [bs] encode (a sequence cut short at the end, which no string
    has, is kept as it is). *)
Fixpoint lowBytes (bs : bytes) : bytes :=
  match bs with
  | [] => []
  | b0 :: rest =>
      let n0 := Byte.to_N b0 in
      if (n0 <? 128)%N then b0 :: lowBytes rest
      else
        match rest with
        | [] => [b0]
        | b1 :: rest1 =>
            let n1 := Byte.to_N b1 in
            if (n0 <? 224)%N then
              byte_of_N ((n0 mod 32) * 64 + n1 mod 64) :: lowBytes rest1
            else
              match rest1 with
              | [] => [b0; b1]
              | b2 :: rest2 =>
                  let n2 := Byte.to_N b2 in
                  if (n0 <? 240)%N then
                    byte_of_N ((n1 mod 64) * 64 + n2 mod 64) :: lowBytes rest2
                  else
                    match rest2 with
                    | [] => [b0; b1; b2]
                    | b3 :: rest3 =>
                        let n3 := Byte.to_N b3 in
                        let cp :=
                          ((n0 mod 8) * 262144 + (n1 mod 64) * 4096
                           + (n2 mod 64) * 64 + n3 mod 64 - 65536)%N in
                        byte_of_N (55296 + cp / 1024)
                          :: byte_of_N (56320 + cp mod 1024)
                          :: lowBytes rest3
                    end
              end
        end
  end.

(** [Buffer.from(s, 'binary')]: the low byte of each UTF-16 code unit. *)
Definition Buffer_from_binary (s : string) : bytes :=
  lowBytes (list_byte_of_string s).

(** What the document routes use besides the [Primitives]: [JSON.parse],
    [uuidv4()] of the uuid package, [path.extname] and [path.join], the
    [_id] Mongoose gives a new document (from the ids in use), and the
    uploads directory [path.join(__dirname, '../uploads')]. *)
Class Platform : Type := {
  JSON_parse : string -> Result Json;
  uuidv4 : Rng -> string * Rng;
  path_extname : string -> string;
  path_join : string -> string -> string;
  ObjectId_new : list string -> string;
  uploadsDir : string
}.

Section PlatformLaws.
Context {P : Primitives} {F : Platform}.

(** [JSON.parse] reads what [JSON.stringify] wrote, for the two objects
    of strings the routes store. *)
Definition JSON_law : Prop :=
  (forall data iv,
     wellFormed data = true -> wellFormed iv = true ->
     JSON_parse (JSON_stringify [("data", JString data); ("iv", JString iv)])
     = Ok (JsonObject [("data", JsonString data); ("iv", JsonString iv)])) /\
  (forall data encryptedKey iv,
     wellFormed data = true -> wellFormed encryptedKey = true ->
     wellFormed iv = true ->
     JSON_parse
       (JSON_stringify
          [ ("data", JString data); ("encryptedKey", JString encryptedKey);
            ("iv", JString iv) ])
     = Ok (JsonObject
             [ ("data", JsonString data);
               ("encryptedKey", JsonString encryptedKey);
               ("iv", JsonString iv) ])).

(** A new [_id] is not one in use. *)
Definition ObjectId_law : Prop :=
  forall used, ~ In (ObjectId_new used) used.

(** [path.join] never returns the empty string. *)
Definition Path_law : Prop :=
  forall a b, path_join a b <> "".

(** Base64 text is ASCII. *)
Definition Base64_text_law : Prop :=
  forall bs,
    wellFormed (Base64_stringify bs) = true /\
    wellFormed (Buffer_toString_base64 bs) = true.

End PlatformLaws.

(* ================================================================== *)
(** * backend/routes/documents.js *)
(* ================================================================== *)

Module File.
(** [req.file], as multer's memory storage leaves it; its [size] is the
    length of the buffer. *)
Record t : Type := mk {
  buffer : bytes;
  originalname : string;
  mimetype : string
}.

Definition size (f : t) : N := N.of_nat (length (buffer f)).
End File.

Module Receipt.
(** The [data] of the answer of [POST /documents/upload]. *)
Record t : Type := mk {
  id : string;
  filename : string;
  type : option string;
  hash : string;
  signature : string
}.
End Receipt.

Module Report.
(** The [data] of the answer of [GET /documents/:id/verify]. *)
Record t : Type := mk {
  documentId : string;
  filename : string;
  uploadedAt : N;
  verification : Verification.t;
  algorithm : string;
  iv : option Json;
  decryptedBytes : nat
}.
End Report.

Definition setDocuments (ds : list Doc.t) (p : Portal) : Portal :=
  mkPortal (world p) ds (files p) (auditLogs p).

Definition setFiles (fs : list (string * string)) (p : Portal) : Portal :=
  mkPortal (world p) (documents p) fs (auditLogs p).

Definition docId (d : Doc.t) : string := doc_id (Doc.document d).

(** [fs.mkdir(uploadsDir, { recursive: true })] and
    [fs.writeFile(path, content)] on a directory the process may write
    to: the file is created or replaced. *)
Definition fs_writeFile (path content : string) : Act unit :=
  fun p =>
    Some (Ok tt,
          setFiles
            ((path, content)
             :: filter (fun f => negb (fst f =? path)) (files p))
            p).

(** [fs.readFile(path, 'utf-8')]. *)
Definition fs_readFile (path : string) : Act string :=
  fun p =>
    match find (fun f => fst f =? path) (files p) with
    | Some f => Some (Ok (snd f), p)
    | None =>
        Some (Throw ("ENOENT: no such file or directory, open '" ++ path ++ "'"),
              p)
    end.

(** [Document.findById(id)], for an [id] that [isObjectId]. *)
Definition Document_findById (id : string) : Act (option Doc.t) :=
  fun p => Some (Ok (find (fun d => docId d =? id) (documents p)), p).

(** [Document.deleteOne({ _id: id })], for an [id] that [isObjectId]. *)
Fixpoint removeFirst (id : string) (ds : list Doc.t) : list Doc.t :=
  match ds with
  | [] => []
  | d :: rest => if docId d =? id then rest else d :: removeFirst id rest
  end.

Definition Document_deleteOne (id : string) : Act unit :=
  fun p => Some (Ok tt, setDocuments (removeFirst id (documents p)) p).

(** [Application.findOne({ _id: id, userId: userId })], for an [id] that
    [isObjectId]. *)
Definition Application_findOwned (id owner : string) : M (option Application) :=
  fun w =>
    (Ok (find (fun a => (app_id a =? id) && (userId a =? owner))
           (applications w)),
     w).

(** The [enum] of [documentType] in the schema of [Document]. *)
Definition documentTypes : list string :=
  [ "transcript"; "id_proof"; "income_certificate"; "recommendation_letter";
    "recommendation"; "other" ].

(** A key of the user [ensureUserKeys] returned: it has both keys, so
    [undefined] does not occur where one is read. *)
Definition keyOf (k : option string) : Act string :=
  match k with
  | Some s => retA s
  | None => unmodelled
  end.

Section Documents.
Context {P : Primitives} {F : Platform}.

(** [Document.create({...})]: Mongoose validates against the schema, which
    requires [documentType] (one of [documentTypes]), [fileName] and
    [filePath], and rejects with a [ValidationError] before anything is
    stored; otherwise it adds the [_id] and the creation time. *)
Definition Document_create (applicationId userId : string)
    (documentType : option string) (fileName : string) (fileSize : N)
    (filePath encryptedData documentHash digitalSignature : string)
  : Act Doc.t :=
  let valid :=
    match documentType with
    | Some t => existsb (String.eqb t) documentTypes
    | None => false
    end
    && negb (fileName =? "") && negb (filePath =? "") in
  if negb valid then throwA "Document validation failed"
  else
    now <- inWorld Date_now ;;
    fun p =>
      let d :=
        Doc.mk
          (mkDocument (ObjectId_new (map docId (documents p))) fileName
             documentHash digitalSignature)
          applicationId userId documentType fileSize filePath
          (Some encryptedData) now in
      Some (Ok d, setDocuments (documents p ++ [d])%list p).

(** [const keyData = JSON.parse(user.privateKey);
     const privateKey = decryptAES(keyData.data, keyData.iv);] *)
Definition unlockPrivateKey (user : User) : Act string :=
  stored <- keyOf (privateKey user) ;;
  keyData <- liftA (JSON_parse stored) ;;
  data <- (v <- liftA (property "data" keyData) ;; asString v) ;;
  iv <- (v <- liftA (property "iv" keyData) ;; asString v) ;;
  inWorld (secret <- AES_SECRET ;; decryptAES data iv secret)%js.

(** [POST /documents/upload], from [req.file] on, for a body whose
    [application_id] is a string and whose [document_type] is a string or
    missing. *)
Definition postUpload (req : Req.t) (file : option File.t)
    (application_id : string) (document_type : option string)
  : Portal -> option (Response Receipt.t * Portal) :=
  routeA "Failed to upload document"
    match file with
    | None => retA (Failure 400 "No file uploaded")
    | Some file =>
        match Req.user req with
        | None => throwA "Cannot read properties of undefined (reading 'id')"
        | Some requester =>
            application <-
              inWorld (Application_findOwned application_id
                         (Requester.id requester)) ;;
            match application with
            | None =>
                retA (Failure 403 "Application not found or access denied")
            | Some application =>
                if negb (status application =? "draft") then
                  retA (Failure 400
                          "Cannot upload documents to submitted application")
                else
                  fileBase64 <-
                    inWorld (encodeBase64
                               (Buffer_toString_binary (File.buffer file))) ;;
                  user <- inWorld (ensureKeyPair (Requester.id requester)) ;;
                  publicKey <- keyOf (publicKey user) ;;
                  e <- inWorld (hybridEncrypt fileBase64 publicKey) ;;
                  let fileHash := createHashSHA512 (DBuffer (File.buffer file)) in
                  privateKey <- unlockPrivateKey user ;;
                  digitalSignature <-
                    inWorld (createDigitalSignature (DString fileHash)
                               privateKey) ;;
                  uuid <-
                    inWorld
                      (withRng (fun g => let '(s, g') := uuidv4 g in (Ok s, g'))) ;;
                  let storedFilename :=
                    (uuid ++ path_extname (File.originalname file))%string in
                  let filePath := path_join uploadsDir storedFilename in
                  let stored :=
                    JSON_stringify
                      [ ("data", JString (Hybrid.encryptedData e));
                        ("encryptedKey", JString (Hybrid.encryptedKey e));
                        ("iv", JString (Hybrid.iv e)) ] in
                  fs_writeFile filePath stored ;;;
                  doc <-
                    Document_create application_id (Requester.id requester)
                      document_type (File.originalname file) (File.size file)
                      filePath stored fileHash digitalSignature ;;
                  retA (Success 201
                          (Receipt.mk (docId doc) (File.originalname file)
                             document_type fileHash digitalSignature))
            end
        end
    end.

(** The lines both [GET /documents/:id] and [GET /documents/:id/verify]
    run to get the file back: read, unlock the owner's key, decrypt,
    decode.  The owner and the bytes are returned. *)
Definition openDocument (doc : Doc.t) : Act (User * bytes) :=
  text <- fs_readFile (Doc.filePath doc) ;;
  encryptedContent <- liftA (JSON_parse text) ;;
  owner <- inWorld (ensureKeyPair (Doc.userId doc)) ;;
  privateKey <- unlockPrivateKey owner ;;
  data <- (v <- liftA (property "data" encryptedContent) ;; asString v) ;;
  encryptedKey <-
    (v <- liftA (property "encryptedKey" encryptedContent) ;; asString v) ;;
  iv <- (v <- liftA (property "iv" encryptedContent) ;; asString v) ;;
  decryptedBase64 <- inWorld (hybridDecrypt data encryptedKey iv privateKey) ;;
  decoded <- inWorld (decodeBase64 decryptedBase64) ;;
  retA (owner, Buffer_from_binary decoded).

(** [GET /documents/:id].  [res.set] throws when the file name does not
    fit a header. *)
Definition getDocument (req : Req.t) (id : string)
  : Portal -> option (Response bytes * Portal) :=
  routeA "Failed to retrieve document"
    (doc <- Document_findById id ;;
     match doc with
     | None => retA (Failure 404 "Document not found")
     | Some doc =>
         match Req.user req with
         | None => throwA "Cannot read properties of undefined (reading 'role')"
         | Some requester =>
             if negb (existsb (String.eqb (Requester.role requester))
                        ["admin"; "officer"])
             then retA (Failure 403 "Access denied")
             else
               '(owner, fileBuffer) <- openDocument doc ;;
               publicKey <- keyOf (publicKey owner) ;;
               checked <-
                 inWorld (downloadChecked (Doc.document doc) publicKey
                            fileBuffer) ;;
               let disposition :=
                 ("attachment; filename=" ++ dquote
                  ++ fileName (Doc.document doc) ++ dquote)%string in
               match checked with
               | Success _ _ =>
                   if negb (headerSafe disposition) then
                     throwA "Invalid character in header content"
                   else retA checked
               | Failure _ _ => retA checked
               end
         end
     end).

(** The handler of [GET /documents/:id/verify]. *)
Definition getDocumentVerify (id : string)
  : Portal -> option (Response Report.t * Portal) :=
  routeA "Failed to verify document"
    (doc <- Document_findById id ;;
     match doc with
     | None => retA (Failure 404 "Document not found")
     | Some doc =>
         '(owner, fileBuffer) <- openDocument doc ;;
         publicKey <- keyOf (publicKey owner) ;;
         checked <-
           inWorld (verifyChecked (Doc.document doc) publicKey fileBuffer) ;;
         match checked with
         | Failure statusCode message => retA (Failure statusCode message)
         | Success statusCode verification =>
             let storedEncryptedData :=
               match JSON_parse (orElse (Doc.encryptedData doc) "{}") with
               | Ok value => value
               | Throw _ => JsonObject []
               end in
             iv <- liftA (property "iv" storedEncryptedData) ;;
             retA (Success statusCode
                     (Report.mk (docId doc) (fileName (Doc.document doc))
                        (Doc.createdAt doc) verification
                        "Hybrid RSA-2048 + AES-256" iv (length fileBuffer)))
         end
     end).

(** The handler of [DELETE /documents/:id]. *)
Definition deleteDocument (req : Req.t) (id : string)
  : Portal -> option (Response unit * Portal) :=
  routeA "Failed to delete document"
    (doc <- Document_findById id ;;
     match Req.user req with
     | None =>
         match doc with
         | None => retA (Failure 403 "Access denied")
         | Some _ => throwA "Cannot read properties of undefined (reading 'id')"
         end
     | Some requester =>
         match doc with
         | Some d =>
             if negb (Doc.userId d =? Requester.id requester) then
               retA (Failure 403 "Access denied")
             else Document_deleteOne id ;;; retA (Success 200 tt)
         | None => retA (Failure 403 "Access denied")
         end
     end).

End Documents.

(** The keys of [user] are the public key [pub] and, encrypted by
    [encryptAES] under [secret] and stored as [ensureUserKeys] stores it,
    the private key [prv] that [crypto.generateKeyPairSync] returned with
    it. *)
Definition Vaulted {P : Primitives} (secret : string) (user : User)
    (pub prv : string) : Prop :=
  KeyPair pub prv /\
  publicKey user = Some pub /\
  exists e w0 w1,
    encryptAES prv secret w0 = (Ok e, w1) /\
    privateKey user = Some (storedPrivateKey e).

(** The process secret [AES_SECRET]. *)
Definition secretOf (w : World) : string :=
  orElse (AES_SECRET_KEY (env w)) "default_32_char_secret_key_here!".

Section SealedDocuments.
Context {P : Primitives} {F : Platform}.

(** The text [encodeBase64] makes of the bytes of a file. *)
Definition fileText (content : bytes) : string :=
  Buffer_toString_base64 (Buffer_from_utf8 (Buffer_toString_binary content)).

(** The stored document [doc] holds [content] as [POST /upload] leaves
    it: the owner's keys are vaulted, the file at [filePath] is the JSON
    of a hybrid ciphertext that opens to the text of [content] under the
    owner's private key, the stored hash is the SHA-512 of [content], and
    the stored signature verifies for that hash under the owner's public
    key. *)
Definition Sealed (p : Portal) (doc : Doc.t) (content : bytes) : Prop :=
  exists owner pub prv data encryptedKey iv,
    find (fun x => user_id x =? Doc.userId doc) (users (world p)) = Some owner /\
    Vaulted (secretOf (world p)) owner pub prv /\
    find (fun f => fst f =? Doc.filePath doc) (files p)
    = Some (Doc.filePath doc,
            JSON_stringify
              [ ("data", JString data); ("encryptedKey", JString encryptedKey);
                ("iv", JString iv) ]) /\
    Doc.encryptedData doc
    = Some (JSON_stringify
              [ ("data", JString data); ("encryptedKey", JString encryptedKey);
                ("iv", JString iv) ]) /\
    wellFormed data = true /\ wellFormed encryptedKey = true /\
    wellFormed iv = true /\
    (forall w,
       hybridDecrypt data encryptedKey iv prv w = (Ok (fileText content), w)) /\
    documentHash (Doc.document doc) = createHashSHA512 (DBuffer content) /\
    (forall w,
       verifyDigitalSignature (DString (documentHash (Doc.document doc)))
         (digitalSignature (Doc.document doc)) pub w
       = (Ok true, w)).

(** The laws of the libraries the document routes rest on. *)
Definition DocumentLaws : Prop :=
  Base64_law /\ Buffer_base64_law /\ Buffer_utf8_law /\ AES_law /\ PEM_law /\
  RSA_law /\ Signature_law /\ JSON_law /\ Base64_text_law /\ ObjectId_law /\
  Path_law.

End SealedDocuments.

(* ================================================================== *)
(** * backend/routes/users.js: deleting a user *)
(* ================================================================== *)

Fixpoint removeFirstUser (id : string) (us : list User) : list User :=
  match us with
  | [] => []
  | u :: rest => if user_id u =? id then rest else u :: removeFirstUser id rest
  end.

(** The handler of [DELETE /users/:id], for an [id] that [isObjectId]:
    [Application.deleteMany] and [Document.deleteMany] by [userId], then
    [User.deleteOne]. *)
Definition deleteUser (id : string) : Portal -> option (Response unit * Portal) :=
  routeA "Failed to delete user"
    (fun p =>
       let w := world p in
       Some (Ok (Success 200 tt),
             mkPortal
               (mkWorld (rng w) (clock w) (env w)
                  (removeFirstUser id (users w))
                  (filter (fun a => negb (userId a =? id)) (applications w)))
               (filter (fun d => negb (Doc.userId d =? id)) (documents p))
               (files p) (auditLogs p))).

(** [DELETE /api/users/:id] as [server.js] serves it, from
    [app.use(auditLog)] on, to a request that [verifyToken] lets through:
    [auditLog], then [router.delete('/:id', verifyToken,
    requireRole('admin'), checkPermission('manage_users', 'delete'), ...)]
    from [requireRole] on. *)
Definition deleteUserRoute (req : Req.t) (id : string) :=
  auditLog req
    (guarded
       [requireRole ["admin"]; checkPermission Acl.manage_users Acl.delete]
       req (deleteUser id)).

(* ================================================================== *)
(** * Application routes: submitting *)
(* ================================================================== *)

(** The stored application after [POST /applications/:id/submit]:
    [status] is set, [reviewNotes] is unset.  The route also sets
    [submittedAt], which is not among the fields of [Application]. *)
Definition submittedAs (application : Application) : Application :=
  mkApplication
    (app_id application) (applicationNumber application) (userId application)
    "submitted" (reviewedBy application) (reviewedAt application) None
    (verificationCode application)
    (verifiedVerificationCode application)
    (verifiedCertificateText application)
    (verifiedAt application).

(** [POST /applications/:id/submit] for the requester [requester]
    ([req.user.id]) and an [id] that [isObjectId].  The answer carries the
    application number. *)
Definition postSubmit (requester id : string) : Handler (option string) :=
  route "Failed to submit application"
    (application <- Application_findOwned id requester ;;
     match application with
     | None => ret (Failure 404 "Application not found")
     | Some application =>
         Application_save (submittedAs application) ;;;
         ret (Success 200 (applicationNumber application))
     end)%js.

(* ================================================================== *)
(** * A second instance, with text out of the codecs *)
(* ================================================================== *)

(** The stand-ins of [Standin] with two changes: hexadecimal in place of
    Base64, so that encoded bytes are text, and the SHA-512 of [Actual].
    Beside it a stand-in for the platform: a reader for the two JSON
    objects the routes store, names from the entropy source, and ids of
    zeros, 24 or more and longer than every id in use. *)
Module Hexed.

#[export] Instance primitives : Primitives := {|
  Hex_parse := Actual.hex_parse;
  Base64_stringify := Hex_stringify;
  Base64_parse := Actual.hex_parse;
  EvpKDF := Standin.kdf;
  AES_CBC_encryptBlocks := Standin.encryptBlocks;
  AES_CBC_decryptBlocks := Standin.decryptBlocks;
  generateKeyPairSync := Standin.keygen;
  publicEncrypt := Standin.oaepEncrypt;
  privateDecrypt := Standin.oaepDecrypt;
  crypto_sign := Standin.sign;
  crypto_verify := Standin.verify;
  sha512_hex := Actual.sha512Hex;
  Buffer_toString_base64 := Hex_stringify;
  Buffer_from_base64 := Actual.hex_parse;
  Buffer_toString_utf8 := Standin.codec_stringify;
  toISOString := Actual.isoString
|}.

Definition quote : ascii := ascii_of_N 34.
Definition backslash : ascii := ascii_of_N 92.

(** The string up to the closing quote, escapes undone, and what follows
    the quote. *)
Fixpoint readString (s : string) : option (string * string) :=
  match s with
  | EmptyString => None
  | String c rest =>
      if Ascii.eqb c quote then Some ("", rest)
      else if Ascii.eqb c backslash then
        match rest with
        | EmptyString => None
        | String e rest' =>
            let plain (d : ascii) :=
              match readString rest' with
              | Some (v, r) => Some (String d v, r)
              | None => None
              end in
            if Ascii.eqb e "b" then plain (ascii_of_N 8)
            else if Ascii.eqb e "t" then plain (ascii_of_N 9)
            else if Ascii.eqb e "n" then plain (ascii_of_N 10)
            else if Ascii.eqb e "f" then plain (ascii_of_N 12)
            else if Ascii.eqb e "r" then plain (ascii_of_N 13)
            else if Ascii.eqb e "u" then
              match rest' with
              | String _ (String _ (String h (String l rest''))) =>
                  match readString rest'' with
                  | Some (v, r) =>
                      Some (String
                              (ascii_of_N
                                 (16 * Actual.hexValue h + Actual.hexValue l))
                              v,
                            r)
                  | None => None
                  end
              | _ => None
              end
            else plain e
        end
      else
        match readString rest with
        | Some (v, r) => Some (String c v, r)
        | None => None
        end
  end.

(** What is left of [s] behind [pre]. *)
Fixpoint strip (pre s : string) : option string :=
  match pre, s with
  | EmptyString, _ => Some s
  | String a pre', String b s' => if Ascii.eqb a b then strip pre' s' else None
  | String _ _, EmptyString => None
  end.

(** What stands before the value of the member [key]. *)
Definition memberPrefix (first : bool) (key : string) : string :=
  (if first then "" else ",")
  ++ String quote key
  ++ String quote (String ":" (String quote "")).

(** The members with the keys [keys], in that order, up to the closing
    brace. *)
Fixpoint readMembers (keys : list string) (first : bool) (s : string)
  : option (list (string * Json)) :=
  match keys with
  | [] => if s =? "}" then Some [] else None
  | key :: keys' =>
      match strip (memberPrefix first key) s with
      | Some s1 =>
          match readString s1 with
          | Some (v, s2) =>
              match readMembers keys' false s2 with
              | Some members => Some ((key, JsonString v) :: members)
              | None => None
              end
          | None => None
          end
      | None => None
      end
  end.

Definition parse (s : string) : Result Json :=
  match strip "{" s with
  | Some body =>
      match readMembers ["data"; "encryptedKey"; "iv"] true body with
      | Some members => Ok (JsonObject members)
      | None =>
          match readMembers ["data"; "iv"] true body with
          | Some members => Ok (JsonObject members)
          | None =>
              match readMembers [] true body with
              | Some members => Ok (JsonObject members)
              | None => Throw "Unexpected token in JSON"
              end
          end
      end
  | None => Throw "Unexpected token in JSON"
  end.

Fixpoint zeros (n : nat) : string :=
  match n with
  | O => ""
  | S n' => String "0" (zeros n')
  end.

(** The text behind the last dot, with the dot. *)
Definition extname (name : string) : string :=
  match split "." name with
  | [] | [_] => ""
  | parts => "." ++ last parts ""
  end.

#[export] Instance platform : Platform := {|
  JSON_parse := parse;
  uuidv4 :=
    fun g =>
      (Hex_stringify (map (tape g) (seq (drawn g) 16)),
       mkRng (tape g) (drawn g + 16));
  path_extname := extname;
  path_join := fun a b => a ++ "/" ++ b;
  ObjectId_new :=
    fun used => zeros (Nat.max 24 (S (list_max (map String.length used))));
  uploadsDir := "/srv/uploads"
|}.

End Hexed.

(* ================================================================== *)
(** * Sample data for the portal *)
(* ================================================================== *)

Module Campus.

(** A second application of the sample student, still a draft. *)
Definition draft : Application :=
  mkApplication "65a1f0c2e4b0a1b2c3d4e5f8" (Some "APP2026-DEFUVW")
    "65a1f0c2e4b0a1b2c3d4e5f6" "draft" None None None None None None None.

(** The accounts of the admin and of a second student, who has no
    application. *)
Definition registrar : User :=
  mkUser "65a1f0c2e4b0a1b2c3d4e5a2" "admin@example.org" (Some "Admin")
    None None.

Definition classmate : User :=
  mkUser "65a1f0c2e4b0a1b2c3d4e5f5" "classmate@example.org" (Some "Classmate")
    None None.

(** The sample world with the four accounts and both applications, no
    document stored. *)
Definition portal : Portal :=
  mkPortal
    (mkWorld (mkRng Sample.entropy 0) Sample.t1 (mkEnv None None None)
       [Sample.student; Sample.reviewer; registrar; classmate]
       [Sample.submitted; draft])
    [] [] [].

Definition student : Requester.t :=
  Requester.mk "65a1f0c2e4b0a1b2c3d4e5f6" "student".

(** The second student. *)
Definition visitor : Requester.t :=
  Requester.mk "65a1f0c2e4b0a1b2c3d4e5f5" "student".

Definition officer : Requester.t := Requester.mk Sample.officer "officer".

Definition admin : Requester.t :=
  Requester.mk "65a1f0c2e4b0a1b2c3d4e5a2" "admin".

(** A request of [who], as [verifyToken] hands it on. *)
Definition request (who : Requester.t) (method originalUrl baseUrl : string)
  : Req.t :=
  Req.mk (Some who) method originalUrl baseUrl "10.0.0.7" (Some "Mozilla/5.0").

(** [POST /api/documents/upload] by the student. *)
Definition asStudent : Req.t :=
  request student "POST" "/api/documents/upload" "/api/documents".

(** [GET /api/documents/:id] and [DELETE /api/documents/:id]. *)
Definition fetching (who : Requester.t) (id : string) : Req.t :=
  request who "GET" ("/api/documents/" ++ id) "/api/documents".

Definition deleting (who : Requester.t) (id : string) : Req.t :=
  request who "DELETE" ("/api/documents/" ++ id) "/api/documents".

(** [PUT /api/applications/:id/status]. *)
Definition reviewing (who : Requester.t) (id : string) : Req.t :=
  request who "PUT" ("/api/applications/" ++ id ++ "/status")
    "/api/applications".

(** [DELETE /api/users/:id] by the admin, for the student. *)
Definition asAdmin : Req.t :=
  request admin "DELETE" "/api/users/65a1f0c2e4b0a1b2c3d4e5f6" "/api/users".

(** A file of five bytes, the last two above 127. *)
Definition transcript : File.t :=
  File.mk [x48; x69; x21; xc3; xff]%byte "transcript.pdf" "application/pdf".

Definition title (a : Application) : option string := Some "Merit Scholarship".

Section OnHexed.
#[local] Existing Instance Hexed.primitives.
#[local] Existing Instance Hexed.platform.

(** The portal after the student uploaded [transcript] to the draft. *)
Definition uploaded : Portal :=
  match
    postUpload asStudent (Some transcript) "65a1f0c2e4b0a1b2c3d4e5f8"
      (Some "transcript") portal
  with
  | Some (_, p') => p'
  | None => portal
  end.

(** The id the upload gave the document. *)
Definition uploadedId : string :=
  match documents uploaded with
  | d :: _ => docId d
  | [] => ""
  end.

End OnHexed.

Section OnActual.
#[local] Existing Instance Actual.primitives.

(** What [GET /verify/:code] tells about the verified sample application. *)
Definition verifiedData : Verified.t :=
  match fst (getVerify Sample.code1 Sample.verifiedOnce) with
  | Success _ data => data
  | Failure _ _ => Verified.mk None "" None false ""
  end.

End OnActual.

End Campus.

Local Close Scope portal_scope.

(* ================================================================== *)
(** * Facts about bytes and strings *)
(* ================================================================== *)

Lemma list_byte_of_string_cons (c : ascii) (s : string) :
  list_byte_of_string (String c s) = byte_of_ascii c :: list_byte_of_string s.
Proof. reflexivity. Qed.

Lemma string_of_list_byte_cons (b : byte) (bs : bytes) :
  string_of_list_byte (b :: bs) = String (ascii_of_byte b) (string_of_list_byte bs).
Proof. reflexivity. Qed.

Lemma list_byte_of_string_length (s : string) :
  length (list_byte_of_string s) = String.length s.
Proof.
  induction s as [|c s IH]; [reflexivity|].
  rewrite list_byte_of_string_cons. simpl. now rewrite IH.
Qed.

Lemma list_byte_of_string_app (s t : string) :
  list_byte_of_string (s ++ t) = (list_byte_of_string s ++ list_byte_of_string t)%list.
Proof.
  induction s as [|c s IH]; [reflexivity|].
  change (String c s ++ t) with (String c (s ++ t)).
  rewrite !list_byte_of_string_cons, IH. reflexivity.
Qed.

Lemma to_N_byte_of_N (n : N) : Byte.to_N (byte_of_N n) = (n mod 256)%N.
Proof.
  unfold byte_of_N.
  destruct (Byte.of_N (n mod 256)) as [b|] eqn:E.
  - now apply Byte.to_of_N.
  - apply Byte.of_N_None_iff in E.
    pose proof (N.mod_upper_bound n 256). lia.
Qed.

Lemma byte_of_N_to_N (b : byte) : byte_of_N (Byte.to_N b) = b.
Proof.
  unfold byte_of_N. rewrite N.mod_small.
  - now rewrite Byte.of_to_N.
  - pose proof (Byte.to_N_bounded b). lia.
Qed.

Lemma Hex_stringify_length (bs : bytes) :
  String.length (Hex_stringify bs) = 2 * length bs.
Proof. induction bs as [|b bs IH]; simpl; lia. Qed.

Lemma hexDigit_high (b : byte) : isHexDigit (hexDigit (Byte.to_N b / 16)) = true.
Proof. destruct b; reflexivity. Qed.

Lemma hexDigit_low (b : byte) : isHexDigit (hexDigit (Byte.to_N b mod 16)) = true.
Proof. destruct b; reflexivity. Qed.

Lemma Hex_stringify_hex (bs : bytes) : allChars isHexDigit (Hex_stringify bs) = true.
Proof.
  induction bs as [|b bs IH]; simpl; [reflexivity|].
  now rewrite hexDigit_high, hexDigit_low, IH.
Qed.

Lemma isHexDigit_ascii (c : ascii) :
  isHexDigit c = true -> inRange 0 127 (byte_of_ascii c) = true.
Proof.
  destruct c as [[] [] [] [] [] [] [] []]; try discriminate; reflexivity.
Qed.

Lemma hex_wellFormed (s : string) : allChars isHexDigit s = true -> wellFormed s = true.
Proof.
  unfold wellFormed.
  induction s as [|c s IH]; [reflexivity|].
  rewrite list_byte_of_string_cons. simpl.
  intros H. apply andb_prop in H as [Hc Hs].
  now rewrite (isHexDigit_ascii c Hc), IH.
Qed.

Lemma firstn_length_app {A} (l l' : list A) : firstn (length l) (l ++ l')%list = l.
Proof. induction l; simpl; congruence. Qed.

Lemma skipn_length_app {A} (l l' : list A) : skipn (length l) (l ++ l')%list = l'.
Proof. induction l; simpl; congruence. Qed.

Lemma substring_whole (s : string) : substring 0 (String.length s) s = s.
Proof. induction s as [|c s IH]; simpl; congruence. Qed.

Lemma length_append (s t : string) :
  String.length (s ++ t) = String.length s + String.length t.
Proof. induction s as [|c s IH]; simpl; congruence. Qed.

Lemma append_assoc (a b c : string) : (a ++ b) ++ c = a ++ (b ++ c).
Proof. induction a as [|x a IH]; simpl; congruence. Qed.

Lemma substring_prefix_length (n : nat) (s : string) :
  n <= String.length s -> String.length (substring 0 n s) = n.
Proof.
  revert s. induction n as [|n IH]; intros [|c s] H; simpl in *;
    try reflexivity; try lia.
  rewrite IH; lia.
Qed.

Lemma allChars_substring (p : ascii -> bool) (n : nat) (s : string) :
  allChars p s = true -> allChars p (substring 0 n s) = true.
Proof.
  revert s. induction n as [|n IH]; intros [|c s] H; simpl in *; try reflexivity.
  apply andb_prop in H as [Hc Hs]. now rewrite Hc, IH.
Qed.

Lemma append_nil_r (s : string) : s ++ "" = s.
Proof. induction s as [|c s IH]; simpl; congruence. Qed.

Lemma map_seq_ext {A} (f g : nat -> A) (a b n : nat) :
  (forall i, i < n -> f (a + i) = g (b + i)) ->
  map f (seq a n) = map g (seq b n).
Proof.
  revert a b. induction n as [|n IH]; intros a b H; [reflexivity|].
  cbn [seq map]. f_equal.
  - specialize (H 0 ltac:(lia)). now rewrite !Nat.add_0_r in H.
  - apply IH. intros i Hi. specialize (H (S i) ltac:(lia)).
    now rewrite !Nat.add_succ_r in H.
Qed.

(* ================================================================== *)
(** * Facts about the cipher layer *)
(* ================================================================== *)

Lemma last_app_repeat {A} (l : list A) (b d : A) (n : nat) :
  0 < n -> last (l ++ repeat b n)%list d = b.
Proof.
  destruct n as [|k]; [lia|]. intros _.
  change (repeat b (S k)) with (b :: repeat b k).
  rewrite repeat_cons, app_assoc. apply last_last.
Qed.

Lemma Pkcs7_pad_blocks (data : bytes) : length (CryptoJS.Pkcs7_pad data) mod 16 = 0.
Proof.
  unfold CryptoJS.Pkcs7_pad. rewrite length_app, repeat_length.
  pose proof (Nat.div_mod_eq (length data) 16).
  pose proof (Nat.mod_upper_bound (length data) 16).
  replace (length data + (16 - length data mod 16))
    with ((length data / 16 + 1) * 16) by lia.
  apply Nat.Div0.mod_mul.
Qed.

Lemma Pkcs7_unpad_pad (data : bytes) :
  CryptoJS.Pkcs7_unpad (CryptoJS.Pkcs7_pad data) = data.
Proof.
  unfold CryptoJS.Pkcs7_unpad, CryptoJS.Pkcs7_pad.
  pose proof (Nat.mod_upper_bound (length data) 16).
  set (n := 16 - length data mod 16).
  assert (Hn : 0 < n <= 16) by (unfold n; lia).
  rewrite last_app_repeat by lia.
  rewrite to_N_byte_of_N, N.mod_small by lia.
  rewrite Nat2N.id, length_app, repeat_length.
  replace (length data + n - n) with (length data) by lia.
  apply firstn_length_app.
Qed.

Section CryptoJSFacts.
Context {P : Primitives}.

Lemma OpenSSL_parse_stringify (c s : bytes) :
  Base64_law -> length s = 8 ->
  CryptoJS.OpenSSL_parse (CryptoJS.OpenSSL_stringify (CryptoJS.mkCipherParams c (Some s)))
  = CryptoJS.mkCipherParams c (Some s).
Proof.
  intros B Hs. unfold CryptoJS.OpenSSL_parse, CryptoJS.OpenSSL_stringify.
  cbn [CryptoJS.salt CryptoJS.ciphertext].
  rewrite B.
  assert (H8 : length CryptoJS.Salted__ = 8) by reflexivity.
  rewrite <- H8 at 1. rewrite firstn_length_app.
  change (string_of_list_byte CryptoJS.Salted__ =? "Salted__") with true. cbv iota.
  f_equal.
  - rewrite app_assoc.
    replace 16 with (length (CryptoJS.Salted__ ++ s)%list)
      by (rewrite length_app, Hs; reflexivity).
    apply skipn_length_app.
  - rewrite <- H8 at 2.
    rewrite skipn_length_app. rewrite <- Hs. now rewrite firstn_length_app.
Qed.

Lemma Utf8_stringify_parse (s : string) :
  wellFormed s = true -> CryptoJS.Utf8_stringify (CryptoJS.Utf8_parse s) = Ok s.
Proof.
  intros H. unfold CryptoJS.Utf8_stringify, CryptoJS.Utf8_parse.
  unfold wellFormed in H. rewrite H. now rewrite string_of_list_byte_of_string.
Qed.

Lemma draw_length (n : nat) (g : Rng) (bs : bytes) (g' : Rng) :
  draw n g = (Ok bs, g') -> length bs = n.
Proof.
  unfold draw. intros H. injection H as <- _.
  now rewrite length_map, length_seq.
Qed.

(** What [encryptAES] returns and does: it draws the 16 bytes of the iv it
    reports and the 8 bytes of the salt, and nothing else changes. *)
Lemma encryptAES_run (plainText secretKey : string) (w : World) :
  let iv := map (tape (rng w)) (seq (drawn (rng w)) 16) in
  let s := map (tape (rng w)) (seq (drawn (rng w) + 16) 8) in
  encryptAES plainText secretKey w =
  (Ok (Aes.mk
         (CryptoJS.OpenSSL_stringify
            (CryptoJS.mkCipherParams
               (AES_CBC_encryptBlocks (fst (EvpKDF secretKey s)) (snd (EvpKDF secretKey s))
                  (CryptoJS.Pkcs7_pad (CryptoJS.Utf8_parse plainText)))
               (Some s)))
         (Hex_stringify iv)),
   mkWorld (mkRng (tape (rng w)) (drawn (rng w) + 16 + 8))
     (clock w) (env w) (users w) (applications w)).
Proof.
  unfold encryptAES, try_rethrow, bind, CryptoJS.AES_encrypt, WordArray_random,
    withRng, draw, ret, bind.
  cbn [rng tape drawn clock env users applications].
  destruct (EvpKDF secretKey _) as [key iv'] eqn:E. cbn [fst snd].
  reflexivity.
Qed.

Lemma decryptAES_salted (c s : bytes) (iv secretKey : string) (w : World) :
  Base64_law -> length s = 8 ->
  decryptAES (CryptoJS.OpenSSL_stringify (CryptoJS.mkCipherParams c (Some s)))
    iv secretKey w =
  (match
     CryptoJS.Utf8_stringify
       (CryptoJS.Pkcs7_unpad
          (AES_CBC_decryptBlocks (fst (EvpKDF secretKey s)) (snd (EvpKDF secretKey s)) c))
   with
   | Ok p => Ok p
   | Throw m => Throw ("Decryption failed: " ++ m)
   end, w).
Proof.
  intros B Hs.
  unfold decryptAES, CryptoJS.AES_decrypt.
  rewrite OpenSSL_parse_stringify by assumption.
  cbn [CryptoJS.salt CryptoJS.ciphertext].
  unfold try_rethrow, bind, ret, lift.
  destruct (EvpKDF secretKey s) as [key iv'] eqn:E. cbn [fst snd].
  destruct (CryptoJS.Utf8_stringify _); reflexivity.
Qed.

(** Decrypting what [encryptAES] produced, under the same key and any iv
    argument, gives the plaintext back and leaves the world alone. *)
Lemma decryptAES_encryptAES (plainText secretKey : string) (w : World) :
  Base64_law -> AES_law -> wellFormed plainText = true ->
  exists e w',
    encryptAES plainText secretKey w = (Ok e, w') /\
    forall iv w'',
      decryptAES (Aes.encryptedData e) iv secretKey w'' = (Ok plainText, w'').
Proof.
  intros B A Hp.
  eexists _, _. split; [apply encryptAES_run|].
  intros iv w''. cbn [Aes.encryptedData].
  rewrite decryptAES_salted; [|assumption|now rewrite length_map, length_seq].
  rewrite A by apply Pkcs7_pad_blocks.
  rewrite Pkcs7_unpad_pad, Utf8_stringify_parse by assumption.
  reflexivity.
Qed.

End CryptoJSFacts.

Section HybridFacts.
Context {P : Primitives}.

Lemma generateRSAKeyPair_KeyPair (w w' : World) (keys : Rsa.t) :
  generateRSAKeyPair w = (Ok keys, w') ->
  KeyPair (Rsa.publicKey keys) (Rsa.privateKey keys).
Proof.
  unfold generateRSAKeyPair, try_rethrow, bind, withRng, ret.
  destruct (generateKeyPairSync (rng w)) as [[[pk sk]|m] g] eqn:E;
    [|discriminate].
  intros H. injection H as <- _. exists (rng w), g. exact E.
Qed.

Lemma sessionKey_length (w : World) : String.length (sessionKey w) = 64.
Proof. unfold sessionKey. now rewrite Hex_stringify_length, length_map, length_seq. Qed.

Lemma sessionKey_wellFormed (w : World) : wellFormed (sessionKey w) = true.
Proof. apply hex_wellFormed, Hex_stringify_hex. Qed.

(** [hybridEncrypt] step by step: the session key, [encryptAES] under it,
    then the RSA wrap, whose failure is the only one possible. *)
Lemma hybridEncrypt_run (data publicKey : string) (w : World) :
  exists e w1,
    encryptAES data (sessionKey w) (afterDraw 32 w) = (Ok e, w1) /\
    hybridEncrypt data publicKey w =
    match publicEncrypt publicKey (Buffer_from_utf8 (sessionKey w)) (rng w1) with
    | (Ok c, g) =>
        (Ok (Hybrid.mk (Aes.encryptedData e) (Buffer_toString_base64 c) (Aes.iv e)),
         mkWorld g (clock w1) (env w1) (users w1) (applications w1))
    | (Throw m, g) =>
        (Throw ("Hybrid encryption failed: RSA encryption failed: " ++ m),
         mkWorld g (clock w1) (env w1) (users w1) (applications w1))
    end.
Proof.
  eexists _, _. split; [apply encryptAES_run|].
  unfold hybridEncrypt, try_rethrow at 1, bind at 1, WordArray_random at 1,
    withRng at 1, draw at 1.
  fold (sessionKey w). fold (afterDraw 32 w).
  unfold bind at 1. rewrite encryptAES_run.
  unfold bind, encryptRSA, try_rethrow, bind, withRng, ret.
  cbn [rng clock env users applications Aes.encryptedData Aes.iv].
  destruct (publicEncrypt publicKey _ _) as [[c|m] g]; reflexivity.
Qed.

(** [hybridDecrypt] step by step. *)
Lemma hybridDecrypt_run (encryptedData encryptedKey iv privateKey : string)
    (w : World) :
  hybridDecrypt encryptedData encryptedKey iv privateKey w =
  match privateDecrypt privateKey (Buffer_from_base64 encryptedKey) with
  | Ok k =>
      match decryptAES encryptedData iv (Buffer_toString_utf8 k) w with
      | (Ok p, w') => (Ok p, w')
      | (Throw m, w') => (Throw ("Hybrid decryption failed: " ++ m), w')
      end
  | Throw m =>
      (Throw ("Hybrid decryption failed: RSA decryption failed: " ++ m), w)
  end.
Proof.
  unfold hybridDecrypt, try_rethrow at 1, bind at 1, decryptRSA, try_rethrow at 1,
    bind at 1, lift, ret.
  destruct (privateDecrypt privateKey _) as [k|m]; reflexivity.
Qed.

End HybridFacts.

(* ================================================================== *)
(** * The hybrid codec *)
(* ================================================================== *)

Section HybridCodec.
Context {P : Primitives}.

(** C1.  Round trip of the hybrid codec: for every payload string (the
    empty one included) and every key pair that [generateRSAKeyPair]
    returns, [hybridEncrypt] under the public key returns a triple
    [(encryptedData, encryptedKey, iv)], and [hybridDecrypt] of that triple
    under the private key returns exactly the payload. *)
Theorem hybrid_roundtrip (payload : string) (keys : Rsa.t) (w0 w1 w : World) :
  Base64_law -> Buffer_base64_law -> Buffer_utf8_law -> AES_law -> RSA_law ->
  wellFormed payload = true ->
  generateRSAKeyPair w0 = (Ok keys, w1) ->
  exists e w',
    hybridEncrypt payload (Rsa.publicKey keys) w = (Ok e, w') /\
    forall wD,
      hybridDecrypt (Hybrid.encryptedData e) (Hybrid.encryptedKey e)
        (Hybrid.iv e) (Rsa.privateKey keys) wD
      = (Ok payload, wD).
Proof.
  intros B64 BB BU A R Hp Hk.
  apply generateRSAKeyPair_KeyPair in Hk.
  destruct (hybridEncrypt_run payload (Rsa.publicKey keys) w)
    as (e & w2 & He & Hrun).
  destruct (decryptAES_encryptAES payload (sessionKey w) (afterDraw 32 w) B64 A Hp)
    as (e' & w2' & He' & Hdec).
  rewrite He in He'. injection He' as <- <-.
  destruct (R _ _ Hk (Buffer_from_utf8 (sessionKey w)) (rng w2))
    as (c & g & Hc & Hd).
  { unfold Buffer_from_utf8.
    rewrite list_byte_of_string_length, sessionKey_length. lia. }
  rewrite Hc in Hrun.
  eexists _, _. split; [exact Hrun|].
  intros wD. cbn [Hybrid.encryptedData Hybrid.encryptedKey Hybrid.iv].
  rewrite hybridDecrypt_run, BB, Hd, BU by apply sessionKey_wellFormed.
  now rewrite Hdec.
Qed.

(** C3.  Key isolation: what [hybridEncrypt] produced under the public key
    of one generated pair, [hybridDecrypt] under the private key of a
    different generated pair does not decrypt: it throws, the error being
    [Hybrid decryption failed: RSA decryption failed: ...]. *)
Theorem key_isolation (payload : string) (keys1 keys2 : Rsa.t)
    (w1 w1' w2 w2' w w' : World) (e : Hybrid.t) :
  Buffer_base64_law -> RSA_isolation_law ->
  generateRSAKeyPair w1 = (Ok keys1, w1') ->
  generateRSAKeyPair w2 = (Ok keys2, w2') ->
  Rsa.publicKey keys1 <> Rsa.publicKey keys2 ->
  hybridEncrypt payload (Rsa.publicKey keys1) w = (Ok e, w') ->
  forall wD, exists m,
    hybridDecrypt (Hybrid.encryptedData e) (Hybrid.encryptedKey e)
      (Hybrid.iv e) (Rsa.privateKey keys2) wD
    = (Throw ("Hybrid decryption failed: RSA decryption failed: " ++ m), wD).
Proof.
  intros BB R K1 K2 Hne He wD.
  apply generateRSAKeyPair_KeyPair in K1, K2.
  destruct (hybridEncrypt_run payload (Rsa.publicKey keys1) w)
    as (a & wa & _ & Hrun).
  rewrite Hrun in He.
  destruct (publicEncrypt _ _ _) as [[c|m] g] eqn:Hc; [|discriminate].
  injection He as <- _.
  destruct (R _ _ _ _ K1 K2 Hne _ _ _ _ Hc) as (m & Hm).
  exists m. cbn [Hybrid.encryptedData Hybrid.encryptedKey Hybrid.iv].
  now rewrite hybridDecrypt_run, BB, Hm.
Qed.

(** Whatever its arguments, [decryptAES] returns a string or throws the one
    error the UTF-8 decoder has. *)
Lemma decryptAES_outcome (encryptedData iv secretKey : string) (w : World) :
  exists w',
    (exists p, decryptAES encryptedData iv secretKey w = (Ok p, w')) \/
    decryptAES encryptedData iv secretKey w
    = (Throw "Decryption failed: Malformed UTF-8 data", w').
Proof.
  unfold decryptAES, CryptoJS.AES_decrypt.
  destruct (CryptoJS.salt _) as [s|];
    unfold try_rethrow, bind, WordArray_random, withRng, draw, ret, lift;
    destruct (EvpKDF _ _) as [key iv']; unfold CryptoJS.Utf8_stringify;
    destruct (utf8_valid _); eauto.
Qed.

(** C7 (as the code has it).  A failed [hybridDecrypt] throws
    [Hybrid decryption failed: ] followed by the message of the layer that
    failed: [RSA decryption failed: ...] when the key unwrap threw, and
    [Decryption failed: Malformed UTF-8 data] when the unwrap succeeded and
    the payload layer threw.  The message names the layer. *)
Theorem hybridDecrypt_error_names_layer
    (encryptedData encryptedKey iv privateKey : string) (w w' : World)
    (message : string) :
  hybridDecrypt encryptedData encryptedKey iv privateKey w = (Throw message, w') ->
  (exists m,
     privateDecrypt privateKey (Buffer_from_base64 encryptedKey) = Throw m /\
     message = "Hybrid decryption failed: RSA decryption failed: " ++ m) \/
  (exists k,
     privateDecrypt privateKey (Buffer_from_base64 encryptedKey) = Ok k /\
     message = "Hybrid decryption failed: Decryption failed: Malformed UTF-8 data").
Proof.
  rewrite hybridDecrypt_run.
  destruct (privateDecrypt privateKey _) as [k|m] eqn:E.
  - intros H. right. exists k. split; [reflexivity|].
    destruct (decryptAES_outcome encryptedData iv (Buffer_toString_utf8 k) w)
      as (w2 & [(p & Hp)|Ht]).
    + rewrite Hp in H. discriminate.
    + rewrite Ht in H. injection H as <- _. reflexivity.
  - intros H. left. exists m. split; [reflexivity|]. congruence.
Qed.

End HybridCodec.

(* ================================================================== *)
(** * The symmetric cipher *)
(* ================================================================== *)

Section SymmetricCipher.
Context {P : Primitives}.

(** C5 (as the code has it).  [decryptAES] gives the plaintext back when
    given what [encryptAES] returned and the same key.  It authenticates
    nothing: on a salted ciphertext and any key it returns the UTF-8
    reading of whatever bytes the cipher and the unchecked unpadding leave,
    and it throws [Decryption failed: Malformed UTF-8 data] only when those
    bytes are not UTF-8; in every case it returns some string or throws
    that error. *)
Theorem decryptAES_unauthenticated :
  Base64_law -> AES_law ->
  (forall plainText secretKey w,
     wellFormed plainText = true ->
     exists e w',
       encryptAES plainText secretKey w = (Ok e, w') /\
       forall wD,
         decryptAES (Aes.encryptedData e) (Aes.iv e) secretKey wD
         = (Ok plainText, wD)) /\
  (forall c s iv secretKey w,
     length s = 8 ->
     let decrypted :=
       CryptoJS.Pkcs7_unpad
         (AES_CBC_decryptBlocks
            (fst (EvpKDF secretKey s)) (snd (EvpKDF secretKey s)) c) in
     decryptAES (CryptoJS.OpenSSL_stringify (CryptoJS.mkCipherParams c (Some s)))
       iv secretKey w
     = (if utf8_valid decrypted then Ok (string_of_list_byte decrypted)
        else Throw "Decryption failed: Malformed UTF-8 data", w)) /\
  (forall encryptedData iv secretKey w,
     exists w',
       (exists p, decryptAES encryptedData iv secretKey w = (Ok p, w')) \/
       decryptAES encryptedData iv secretKey w
       = (Throw "Decryption failed: Malformed UTF-8 data", w')).
Proof.
  intros B A. split; [|split].
  - intros plainText secretKey w Hp.
    destruct (decryptAES_encryptAES plainText secretKey w B A Hp)
      as (e & w' & He & Hd).
    eauto.
  - intros c s iv secretKey w Hs. cbv zeta.
    rewrite decryptAES_salted by assumption.
    unfold CryptoJS.Utf8_stringify. now destruct (utf8_valid _).
  - apply decryptAES_outcome.
Qed.

(** C10.  The iv is inert.  Because the key is a passphrase, the cipher
    derives key and IV from the salt it embeds in the ciphertext: for every
    plaintext and key, what [encryptAES] returned decrypts to the plaintext
    under that key with every iv argument whatever, and the ciphertext is
    the same in any world that supplies the same 8 salt bytes, whatever 16
    bytes were drawn for the iv. *)
Theorem iv_inert (plainText secretKey : string) (w : World) :
  Base64_law -> AES_law -> wellFormed plainText = true ->
  exists e w',
    encryptAES plainText secretKey w = (Ok e, w') /\
    (forall iv wD,
       decryptAES (Aes.encryptedData e) iv secretKey wD = (Ok plainText, wD)) /\
    (forall v e2 v',
       (forall i, 16 <= i < 24 ->
          tape (rng v) (drawn (rng v) + i) = tape (rng w) (drawn (rng w) + i)) ->
       encryptAES plainText secretKey v = (Ok e2, v') ->
       Aes.encryptedData e2 = Aes.encryptedData e).
Proof.
  intros B A Hp.
  destruct (decryptAES_encryptAES plainText secretKey w B A Hp)
    as (e & w' & He & Hd).
  exists e, w'. split; [exact He|]. split; [exact Hd|].
  intros v e2 v' Hsalt He2.
  rewrite encryptAES_run in He, He2.
  cbv zeta in He, He2.
  assert (E : forall (x y : Aes.t) (a b : World), (Ok x, a) = (Ok y, b) -> x = y)
    by (intros; congruence).
  apply E in He, He2. subst e e2.
  cbn [Aes.encryptedData].
  assert (Hs : map (tape (rng v)) (seq (drawn (rng v) + 16) 8)
               = map (tape (rng w)) (seq (drawn (rng w) + 16) 8)).
  { apply map_seq_ext. intros i Hi.
    rewrite <- !Nat.add_assoc. apply Hsalt. lia. }
  now rewrite Hs.
Qed.

End SymmetricCipher.

(* ================================================================== *)
(** * Signatures and the integrity check *)
(* ================================================================== *)

Section Integrity.
Context {P : Primitives}.

Lemma verifyDigitalSignature_run (data : JsData) (signature publicKey : string)
    (w : World) :
  verifyDigitalSignature data signature publicKey w =
  (Ok (verifies (toBuffer data) publicKey (Buffer_from_base64 signature)), w).
Proof.
  unfold verifyDigitalSignature, try_catch, lift, ret, verifies.
  destruct (crypto_verify _ _ _); reflexivity.
Qed.

(** C6 (as the code has it).  [verifyDigitalSignature] never throws: it
    returns what [crypto.verify] returned, so [false] on a signature that
    does not match, and it also returns [false] when [crypto.verify] threw
    on a malformed key or signature. *)
Theorem verifyDigitalSignature_never_throws (data : JsData)
    (signature publicKey : string) (w : World) :
  exists b,
    verifyDigitalSignature data signature publicKey w = (Ok b, w) /\
    (forall v,
       crypto_verify (toBuffer data) publicKey (Buffer_from_base64 signature)
       = Ok v -> b = v) /\
    (forall m,
       crypto_verify (toBuffer data) publicKey (Buffer_from_base64 signature)
       = Throw m -> b = false).
Proof.
  eexists. split; [apply verifyDigitalSignature_run|].
  unfold verifies. split; intros ? ->; reflexivity.
Qed.

(** C2.  The integrity check reports a document as tampered exactly when
    not (digest matches and signature valid), where the digest matches when
    the SHA-512 of the decrypted file equals the stored [documentHash] and
    the signature is valid when the stored [digitalSignature] verifies over
    the stored digest under the owner's public key.  [GET
    /documents/:id/verify] answers [isTampered] with that value, and [GET
    /documents/:id] refuses the download with the tampered message in
    exactly that case. *)
Theorem integrity_check_tampered (doc : Document) (ownerPublicKey : string)
    (fileBuffer : bytes) (w : World) :
  let digestMatches :=
    createHashSHA512 (DBuffer fileBuffer) =? documentHash doc in
  let signatureValid :=
    verifies (Buffer_from_utf8 (documentHash doc)) ownerPublicKey
      (Buffer_from_base64 (digitalSignature doc)) in
  (exists v,
     verifyChecked doc ownerPublicKey fileBuffer w = (Ok (Success 200 v), w) /\
     Verification.isTampered v = negb (digestMatches && signatureValid)) /\
  downloadChecked doc ownerPublicKey fileBuffer w =
  (Ok (if negb (digestMatches && signatureValid)
       then Failure 500
              "Document integrity check failed - file may have been tampered"
       else Success 200 fileBuffer), w).
Proof.
  cbv zeta. unfold verifyChecked, downloadChecked, andThen, bind.
  destruct (String.eqb_spec (createHashSHA512 (DBuffer fileBuffer))
              (documentHash doc)) as [E|E].
  - rewrite verifyDigitalSignature_run. cbn [toBuffer]. rewrite E. cbn [andb].
    split; [eexists; split; reflexivity|].
    destruct (verifies _ _ _); reflexivity.
  - unfold ret. cbn [andb negb].
    split; [eexists; split; reflexivity|reflexivity].
Qed.

End Integrity.

(* ================================================================== *)
(** * Verification certificates *)
(* ================================================================== *)

Lemma contains_refl (s : string) : contains s s.
Proof. exists "", "". simpl. now rewrite append_nil_r. Qed.

Lemma contains_app_l (needle p hay : string) :
  contains needle hay -> contains needle (p ++ hay).
Proof.
  intros (before & after & ->). exists (p ++ before), after.
  now rewrite append_assoc.
Qed.

Lemma contains_app_r (needle hay q : string) :
  contains needle hay -> contains needle (hay ++ q).
Proof.
  intros (before & after & ->). exists before, (after ++ q).
  now rewrite !append_assoc.
Qed.



Lemma find_map_same {A} (p : A -> bool) (f : A -> A) (l : list A) :
  (forall x, p (f x) = p x) -> find p (map f l) = option_map f (find p l).
Proof.
  intros H. induction l as [|x l IH]; [reflexivity|].
  cbn [map find]. rewrite H. destruct (p x); [reflexivity|exact IH].
Qed.

Section Certificates.
Context {P : Primitives}.

(** C8.  Issuing a certificate for an application at the time the clock
    shows hashes the record of exactly application id, student id and
    timestamp with SHA-512, keeps the first 16 hexadecimal digits, and
    returns the code [SVS-VERIFIED-<applicationNumber>-<suffix>]; the
    certificate text carries the same code, in its [Verification Code:]
    line and in its verify URL. *)
Theorem certificate_code_shape (application : Application) (w : World) :
  sha512_law ->
  let suffix :=
    substring 0 16
      (sha512_hex (Buffer_from_utf8 (certificateRecord application (clock w)))) in
  let code :=
    "SVS-VERIFIED-" ++ template (applicationNumber application) ++ "-" ++ suffix in
  String.length suffix = 16 /\
  allChars isHexDigit suffix = true /\
  exists text,
    generateVerifiedCertificateData (applicationDataOf application) w
    = (Ok (Certificate.mk code text), w) /\
    contains ("Verification Code: " ++ code) text /\
    contains ("/verify/" ++ code) text.
Proof.
  intros S. cbv zeta.
  destruct (S (Buffer_from_utf8 (certificateRecord application (clock w))))
    as [Hl Hh].
  split; [apply substring_prefix_length; lia|].
  split; [now apply allChars_substring|].
  eexists. split; [reflexivity|].
  cbn [String.concat]. split.
  - do 8 apply contains_app_l. apply contains_app_r, contains_refl.
  - do 12 apply contains_app_l. apply contains_refl.
Qed.

Lemma generateVerifiedCertificateData_run (application : Application)
    (w : World) :
  exists text,
    generateVerifiedCertificateData (applicationDataOf application) w
    = (Ok (Certificate.mk (codeFor application (clock w)) text), w).
Proof. eexists. reflexivity. Qed.


Lemma getVerify_run (code : string) (w : World) :
  fst (getVerify code w) =
  match find (holdsCode code) (applications w) with
  | Some application =>
      Success 200
        (Verified.mk (applicationNumber application) (status application)
           (verificationCode application)
           ((status application =? "verified")
            && eqOpt (verifiedVerificationCode application) code)
           (orElse (BACKEND_URL (env w)) "http://localhost:5000"
            ++ "/api/applications/verify/" ++ code ++ "/document"))
  | None => Failure 404 "Invalid verification code"
  end.
Proof.
  unfold getVerify, route, bind, Application_findOneByCode.
  destruct (find _ _); reflexivity.
Qed.


End Certificates.

(* ================================================================== *)
(** * The key vault *)
(* ================================================================== *)

Section KeyVault.
Context {P : Primitives}.

Lemma generateRSAKeyPair_frame (w w1 : World) (kp : Rsa.t) :
  generateRSAKeyPair w = (Ok kp, w1) ->
  exists g, w1 = mkWorld g (clock w) (env w) (users w) (applications w).
Proof.
  unfold generateRSAKeyPair, try_rethrow, bind, withRng, ret.
  destruct (generateKeyPairSync (rng w)) as [[[pk sk]|m] g]; [|discriminate].
  intros H. exists g. congruence.
Qed.

Lemma storedPrivateKey_truthy (e : Aes.t) :
  truthy (Some (storedPrivateKey e)) = true.
Proof. reflexivity. Qed.

Lemma truthy_Some (s : string) : s <> "" -> truthy (Some s) = true.
Proof. intros H. cbn. now destruct (String.eqb_spec s ""). Qed.

(** C4 (as the code has it).  Called one request after another,
    [ensureKeyPair] is idempotent.  For a stored user with both keys it
    returns that user and changes nothing.  Otherwise, when key generation
    succeeds, it stores exactly the generated public key and the private
    key encrypted under the process secret, returns them, and every later
    call finds them stored, returns the same pair and changes nothing. *)
Theorem ensureKeyPair_sequential (id : string) (w : World) (u : User) :
  PEM_law ->
  find (fun x => user_id x =? id) (users w) = Some u ->
  (truthy (publicKey u) && truthy (privateKey u) = true ->
   ensureKeyPair id w = (Ok u, w)) /\
  (truthy (publicKey u) && truthy (privateKey u) = false ->
   forall kp w1,
     generateRSAKeyPair w = (Ok kp, w1) ->
     exists e w2 u' w',
       encryptAES (Rsa.privateKey kp)
         (orElse (AES_SECRET_KEY (env w)) "default_32_char_secret_key_here!") w1
       = (Ok e, w2) /\
       ensureKeyPair id w = (Ok u', w') /\
       publicKey u' = Some (Rsa.publicKey kp) /\
       privateKey u' = Some (storedPrivateKey e) /\
       find (fun x => user_id x =? id) (users w') = Some u' /\
       ensureKeyPair id w' = (Ok u', w')).
Proof.
  intros PEM Hf. split.
  - intros Hk. unfold ensureKeyPair, bind, User_findById. rewrite Hf.
    unfold ensureUserKeys. now rewrite Hk.
  - intros Hk kp w1 Hg.
    assert (Hid : user_id u = id).
    { apply find_some in Hf as [_ H]. now apply String.eqb_eq. }
    assert (Hin : existsb (fun x => user_id x =? id) (users w) = true).
    { apply existsb_exists. exists u. now apply find_some in Hf. }
    destruct (generateRSAKeyPair_frame w w1 kp Hg) as (g & ->).
    pose proof (generateRSAKeyPair_KeyPair _ _ _ Hg) as K.
    apply PEM in K as [Hpk _].
    set (secret := orElse (AES_SECRET_KEY (env w)) "default_32_char_secret_key_here!").
    set (w1 := mkWorld g (clock w) (env w) (users w) (applications w)) in *.
    pose proof (encryptAES_run (Rsa.privateKey kp) secret w1) as He.
    cbv zeta in He.
    match type of He with
    | _ = (Ok ?x, ?y) => set (e := x) in *; set (w2 := y) in *
    end.
    set (u' := mkUser (user_id u) (email u) (fullName u)
                 (Some (Rsa.publicKey kp)) (Some (storedPrivateKey e))).
    set (f := fun x => if user_id x =? user_id u'
                       then mkUser (user_id x) (email x) (fullName x)
                              (publicKey u') (privateKey u')
                       else x).
    exists e, w2, u', (setUsers (map f (users w)) w2).
    assert (Hrun : ensureKeyPair id w = (Ok u', setUsers (map f (users w)) w2)).
    { unfold ensureKeyPair, bind at 1, User_findById. rewrite Hf.
      unfold ensureUserKeys. rewrite Hk.
      unfold bind at 1. rewrite Hg.
      unfold bind at 1, AES_SECRET, bind at 1, getenv, ret.
      change (env w1) with (env w). fold secret.
      unfold bind at 1. rewrite He.
      unfold bind, User_saveKeys, ret. fold (storedPrivateKey e). fold u'.
      change (users w2) with (users w). change (user_id u') with (user_id u).
      rewrite Hid, Hin. unfold f. change (user_id u') with (user_id u).
      rewrite Hid. reflexivity. }
    assert (Hfind : find (fun x => user_id x =? id)
                      (users (setUsers (map f (users w)) w2)) = Some u').
    { cbn [users setUsers]. rewrite find_map_same.
      - rewrite Hf. cbn [option_map]. unfold f.
        cbn [user_id]. now rewrite String.eqb_refl.
      - intros x. unfold f. now destruct (user_id x =? user_id u'). }
    repeat split; try assumption; try reflexivity.
    unfold ensureKeyPair, bind, User_findById. rewrite Hfind.
    unfold ensureUserKeys, u'. cbn [publicKey privateKey].
    now rewrite truthy_Some, storedPrivateKey_truthy.
Qed.

End KeyVault.

(* ================================================================== *)
(** * The stand-in instance satisfies the laws *)
(* ================================================================== *)

Lemma standin_base64 : @Base64_law Standin.primitives.
Proof. intros bs. apply list_byte_of_string_of_list_byte. Qed.

Lemma standin_buffer_base64 : @Buffer_base64_law Standin.primitives.
Proof. intros bs. apply list_byte_of_string_of_list_byte. Qed.

Lemma standin_buffer_utf8 : @Buffer_utf8_law Standin.primitives.
Proof. intros s _. apply string_of_list_byte_of_string. Qed.

Lemma shift_arith (b s : N) :
  (b < 256 -> ((b + s) mod 256 + (256 - s mod 256)) mod 256 = b)%N.
Proof. intros H. zify. Z.to_euclidean_division_equations. lia. Qed.

Lemma byte_of_N_mod (n : N) : byte_of_N (n mod 256) = byte_of_N n.
Proof. unfold byte_of_N. now rewrite N.Div0.mod_mod. Qed.

Lemma unshift_shift (s : N) (b : byte) :
  Standin.unshift s (Standin.shift s b) = b.
Proof.
  unfold Standin.unshift, Standin.shift.
  rewrite to_N_byte_of_N, <- byte_of_N_mod.
  pose proof (Byte.to_N_bounded b) as Hb.
  rewrite shift_arith by lia. apply byte_of_N_to_N.
Qed.

Lemma standin_aes : @AES_law Standin.primitives.
Proof.
  intros key iv data _.
  cbn [AES_CBC_decryptBlocks AES_CBC_encryptBlocks Standin.primitives].
  unfold Standin.decryptBlocks, Standin.encryptBlocks.
  rewrite map_map. rewrite <- (map_id data) at 2.
  apply map_ext. intros b. apply unshift_shift.
Qed.

Lemma standin_keygen_shape (publicKey privateKey : string) :
  @KeyPair Standin.primitives publicKey privateKey ->
  exists seed, length seed = 8 /\
    publicKey = "PUB" ++ Hex_stringify seed /\
    privateKey = "PRV" ++ Hex_stringify seed.
Proof.
  intros (g & g' & H).
  change (Standin.keygen g = (Ok (publicKey, privateKey), g')) in H.
  unfold Standin.keygen, draw in H. injection H as <- <- _.
  exists (map (tape g) (seq (drawn g) 8)). split; [|split; reflexivity].
  now rewrite length_map, length_seq.
Qed.

Lemma tagOf_tagged (kind tag : string) :
  String.length kind = 3 -> String.length tag = 16 ->
  Standin.tagOf kind (kind ++ tag) = Some (list_byte_of_string tag).
Proof.
  intros Hk Ht. unfold Standin.tagOf.
  assert (Hp : prefix kind (kind ++ tag) = true).
  { apply prefix_correct. clear. induction kind; simpl.
    - now destruct tag.
    - now rewrite IHkind. }
  rewrite Hp.
  assert (Hl : String.length (kind ++ tag) = 19).
  { rewrite length_append. lia. }
  rewrite Hl. cbn [Nat.eqb andb].
  do 4 (destruct kind as [|? kind]; try discriminate).
  cbn. rewrite <- Ht. now rewrite substring_whole.
Qed.

Lemma standin_pem : @PEM_law Standin.primitives.
Proof.
  intros pk sk K. apply standin_keygen_shape in K as (seed & _ & -> & ->).
  split; [discriminate|].
  unfold wellFormed. cbn [append]. rewrite !list_byte_of_string_cons.
  cbn. apply hex_wellFormed, Hex_stringify_hex.
Qed.

Lemma standin_rsa : @RSA_law Standin.primitives.
Proof.
  intros pk sk K message g Hm.
  apply standin_keygen_shape in K as (seed & Hs & -> & ->).
  assert (Hh : String.length (Hex_stringify seed) = 16)
    by (rewrite Hex_stringify_length; lia).
  cbn [publicEncrypt privateDecrypt Standin.primitives].
  unfold Standin.oaepEncrypt, Standin.oaepDecrypt,
    Standin.publicTag, Standin.privateTag.
  rewrite !tagOf_tagged by (reflexivity || assumption).
  apply Nat.leb_le in Hm. rewrite Hm.
  eexists _, _. split; [reflexivity|].
  replace 16 with (length (list_byte_of_string (Hex_stringify seed)))
    by (now rewrite list_byte_of_string_length).
  rewrite firstn_length_app, skipn_length_app, String.eqb_refl. reflexivity.
Qed.

Lemma standin_rsa_isolation : @RSA_isolation_law Standin.primitives.
Proof.
  intros pk1 sk1 pk2 sk2 K1 K2 Hne message g c g' H.
  apply standin_keygen_shape in K1 as (seed1 & Hs1 & -> & ->).
  apply standin_keygen_shape in K2 as (seed2 & Hs2 & -> & ->).
  assert (Hh1 : String.length (Hex_stringify seed1) = 16)
    by (rewrite Hex_stringify_length; lia).
  assert (Hh2 : String.length (Hex_stringify seed2) = 16)
    by (rewrite Hex_stringify_length; lia).
  cbn [publicEncrypt privateDecrypt Standin.primitives] in H |- *.
  unfold Standin.oaepEncrypt, Standin.oaepDecrypt,
    Standin.publicTag, Standin.privateTag in *.
  rewrite tagOf_tagged in H |- * by (reflexivity || assumption).
  destruct (Nat.leb _ 214); [|discriminate].
  injection H as <- _.
  replace 16 with (length (list_byte_of_string (Hex_stringify seed1)))
    by (now rewrite list_byte_of_string_length).
  rewrite firstn_length_app, !string_of_list_byte_of_string.
  destruct (String.eqb_spec (Hex_stringify seed1) (Hex_stringify seed2)) as [E|E].
  - exfalso. apply Hne. now rewrite E.
  - eexists. reflexivity.
Qed.

Lemma standin_sha512 : @sha512_law Standin.primitives.
Proof.
  intros bs. cbn [sha512_hex Standin.primitives]. unfold Standin.digest. split.
  - rewrite Hex_stringify_length, length_firstn, length_app, repeat_length. lia.
  - apply Hex_stringify_hex.
Qed.


(* ================================================================== *)
(** * The algorithms satisfy the laws used on them *)
(* ================================================================== *)

(** Key generation is shared with the stand-in instance. *)
Lemma actual_pem : @PEM_law Actual.primitives.
Proof. exact standin_pem. Qed.

Lemma sha512Block_length (st block : list N) :
  length (Actual.sha512Block st block) = 8.
Proof. unfold Actual.sha512Block. now rewrite length_map, length_seq. Qed.

Lemma sha512_state_length (blocks : list (list N)) (st : list N) :
  length st = 8 ->
  length (fold_left Actual.sha512Block blocks st) = 8.
Proof.
  revert st. induction blocks as [|b blocks IH]; intros st H; [exact H|].
  cbn [fold_left]. apply IH, sha512Block_length.
Qed.

Lemma flat_map_length_const {A B} (f : A -> list B) (n : nat) (l : list A) :
  (forall a, length (f a) = n) -> length (flat_map f l) = length l * n.
Proof.
  intros H. induction l as [|a l IH]; [reflexivity|].
  cbn [flat_map length]. rewrite length_app, H, IH. lia.
Qed.

Lemma sha512_length (msg : list N) : length (Actual.sha512 msg) = 64.
Proof.
  unfold Actual.sha512.
  rewrite (flat_map_length_const _ 8).
  - rewrite sha512_state_length; reflexivity.
  - intros a. unfold Actual.toBE, Actual.toLE.
    now rewrite length_rev, length_map, length_seq.
Qed.

Lemma actual_sha512 : @sha512_law Actual.primitives.
Proof.
  intros bs. cbn [sha512_hex Actual.primitives]. unfold Actual.sha512Hex. split.
  - rewrite Hex_stringify_length. unfold Actual.ofN.
    now rewrite length_map, sha512_length.
  - apply Hex_stringify_hex.
Qed.

(* ================================================================== *)
(** * The pipeline run on the stand-in instance *)
(* ================================================================== *)

Section OnStandin.
#[local] Existing Instance Standin.primitives.

(** C1 at two payloads, the empty one and ["hello-world"], for the first
    key pair of the tape. *)
Lemma hybrid_roundtrip_witness :
  (exists e w',
     hybridEncrypt "" (Rsa.publicKey Sample.keys1) (Sample.world Sample.t1)
     = (Ok e, w') /\
     forall wD,
       hybridDecrypt (Hybrid.encryptedData e) (Hybrid.encryptedKey e)
         (Hybrid.iv e) (Rsa.privateKey Sample.keys1) wD
       = (Ok "", wD)) /\
  (exists e w',
     hybridEncrypt "hello-world" (Rsa.publicKey Sample.keys1)
       (Sample.world Sample.t1)
     = (Ok e, w') /\
     forall wD,
       hybridDecrypt (Hybrid.encryptedData e) (Hybrid.encryptedKey e)
         (Hybrid.iv e) (Rsa.privateKey Sample.keys1) wD
       = (Ok "hello-world", wD)).
Proof.
  split;
    apply (hybrid_roundtrip _ Sample.keys1 (Sample.world Sample.t1)
             (snd (generateRSAKeyPair (Sample.world Sample.t1))));
    try reflexivity.
  all: first [ exact standin_base64 | exact standin_buffer_base64
             | exact standin_buffer_utf8 | exact standin_aes
             | exact standin_rsa ].
Defined.

(** C3 at [Sample.sealedStandin], sealed for the first key pair and opened
    with the second. *)
Lemma key_isolation_witness :
  exists m,
    hybridDecrypt (Hybrid.encryptedData Sample.sealedStandin)
      (Hybrid.encryptedKey Sample.sealedStandin)
      (Hybrid.iv Sample.sealedStandin)
      (Rsa.privateKey Sample.keys2) (Sample.world Sample.t1)
    = (Throw ("Hybrid decryption failed: RSA decryption failed: " ++ m),
       Sample.world Sample.t1).
Proof.
  apply (key_isolation "hello-world" Sample.keys1 Sample.keys2
           (Sample.world Sample.t1)
           (snd (generateRSAKeyPair (Sample.world Sample.t1)))
           (snd (generateRSAKeyPair (Sample.world Sample.t1)))
           (snd (generateRSAKeyPair
                   (snd (generateRSAKeyPair (Sample.world Sample.t1)))))
           (Sample.world Sample.t1)
           (snd (hybridEncrypt "hello-world" (Rsa.publicKey Sample.keys1)
                   (Sample.world Sample.t1)))
           Sample.sealedStandin standin_buffer_base64 standin_rsa_isolation).
  - reflexivity.
  - reflexivity.
  - discriminate.
  - reflexivity.
Defined.

(** C10 at ["secret"] under the passphrase ["k1"]. *)
Lemma iv_inert_witness :
  exists e w',
    encryptAES "secret" "k1" (Sample.world Sample.t1) = (Ok e, w') /\
    (forall iv wD,
       decryptAES (Aes.encryptedData e) iv "k1" wD = (Ok "secret", wD)) /\
    (forall v e2 v',
       (forall i, 16 <= i < 24 ->
          tape (rng v) (drawn (rng v) + i)
          = tape (rng (Sample.world Sample.t1))
              (drawn (rng (Sample.world Sample.t1)) + i)) ->
       encryptAES "secret" "k1" v = (Ok e2, v') ->
       Aes.encryptedData e2 = Aes.encryptedData e).
Proof.
  apply (iv_inert "secret" "k1" (Sample.world Sample.t1)
           standin_base64 standin_aes).
  reflexivity.
Defined.

(** C5, the round trip at ["secret"] under ["k1"]. *)
Lemma decryptAES_unauthenticated_witness :
  exists e w',
    encryptAES "secret" "k1" (Sample.world Sample.t1) = (Ok e, w') /\
    forall wD,
      decryptAES (Aes.encryptedData e) (Aes.iv e) "k1" wD = (Ok "secret", wD).
Proof.
  destruct (decryptAES_unauthenticated standin_base64 standin_aes) as [H _].
  apply (H "secret" "k1" (Sample.world Sample.t1)). reflexivity.
Defined.

End OnStandin.

(* ================================================================== *)
(** * The pipeline run on AES, MD5, SHA-512 and Base64 *)
(* ================================================================== *)

Section OnActual.
#[local] Existing Instance Actual.primitives.

(** The hybrid round trip on AES-256-CBC: the empty payload, one block
    and three blocks. *)
Lemma hybrid_roundtrip_aes :
  forall payload, In payload [""; "hello-world"; Sample.letter] ->
    exists e,
      fst (hybridEncrypt payload (Rsa.publicKey Sample.keys1)
             (Sample.world Sample.t1)) = Ok e /\
      fst (hybridDecrypt (Hybrid.encryptedData e) (Hybrid.encryptedKey e)
             (Hybrid.iv e) (Rsa.privateKey Sample.keys1)
             (Sample.world Sample.t2)) = Ok payload.
Proof.
  intros payload [<-|[<-|[<-|[]]]];
    (eexists; split; [vm_compute; reflexivity|]; vm_compute; reflexivity).
Qed.

(** [decryptAES] returns the plaintext of [Sample.cipher] whatever it is
    given as [iv]. *)
Lemma iv_inert_aes :
  forall iv, In iv [Aes.iv Sample.cipher; ""; "zz";
                    "00000000000000000000000000000000"] ->
    fst (decryptAES (Aes.encryptedData Sample.cipher) iv "k1"
           (Sample.world Sample.t1)) = Ok "secret".
Proof.
  intros iv [<-|[<-|[<-|[<-|[]]]]]; vm_compute; reflexivity.
Qed.

(** C5 fails as stated: [Sample.cipher] is ["secret"] encrypted under
    ["k1"]; under ["k1"] it decrypts to ["secret"], but under the wrong key
    ["k2"] [decryptAES] returns the empty string and under the wrong key
    ["k434"] it returns the two characters ["Fa"], in both cases without
    throwing. *)
Lemma decryptAES_wrong_key_returns :
  fst (encryptAES "secret" "k1" (Sample.world Sample.t1)) = Ok Sample.cipher /\
  fst (decryptAES (Aes.encryptedData Sample.cipher) (Aes.iv Sample.cipher)
         "k1" (Sample.world Sample.t1)) = Ok "secret" /\
  fst (decryptAES (Aes.encryptedData Sample.cipher) (Aes.iv Sample.cipher)
         "k2" (Sample.world Sample.t1)) = Ok "" /\
  fst (decryptAES (Aes.encryptedData Sample.cipher) (Aes.iv Sample.cipher)
         "k434" (Sample.world Sample.t1)) = Ok "Fa".
Proof. repeat apply conj; vm_compute; reflexivity. Qed.

(** C6 fails as stated: ["not a key"] is no public key and [crypto.verify]
    throws on it, yet [verifyDigitalSignature] returns [false]. *)
Lemma verifyDigitalSignature_malformed_key :
  crypto_verify (toBuffer (DString "digest")) "not a key"
    (Buffer_from_base64 "c2ln")
  = Throw "error:1E08010C:DECODER routines::unsupported" /\
  verifyDigitalSignature (DString "digest") "c2ln" "not a key"
    (Sample.world Sample.t1)
  = (Ok false, Sample.world Sample.t1).
Proof. split; vm_compute; reflexivity. Qed.

(** C7 at [Sample.sealed] opened with the second key pair: the unwrap
    throws and the message says so. *)
Lemma hybridDecrypt_error_names_layer_witness :
  (exists m,
     privateDecrypt (Rsa.privateKey Sample.keys2)
       (Buffer_from_base64 (Hybrid.encryptedKey Sample.sealed)) = Throw m /\
     "Hybrid decryption failed: RSA decryption failed: error:02000079:rsa routines::oaep decoding error"
     = "Hybrid decryption failed: RSA decryption failed: " ++ m) \/
  (exists k,
     privateDecrypt (Rsa.privateKey Sample.keys2)
       (Buffer_from_base64 (Hybrid.encryptedKey Sample.sealed)) = Ok k /\
     "Hybrid decryption failed: RSA decryption failed: error:02000079:rsa routines::oaep decoding error"
     = "Hybrid decryption failed: Decryption failed: Malformed UTF-8 data").
Proof.
  apply (hybridDecrypt_error_names_layer
           (Hybrid.encryptedData Sample.sealed)
           (Hybrid.encryptedKey Sample.sealed) (Hybrid.iv Sample.sealed)
           (Rsa.privateKey Sample.keys2)
           (Sample.world Sample.t1) (Sample.world Sample.t1)).
  vm_compute. reflexivity.
Defined.

(** C7 fails as stated: the same sealed payload fails in the key-unwrap
    layer when opened with another key pair and in the payload layer when
    one bit of its ciphertext is flipped, and the two errors differ. *)
Lemma hybridDecrypt_errors_differ :
  fst (hybridDecrypt (Hybrid.encryptedData Sample.sealed)
         (Hybrid.encryptedKey Sample.sealed) (Hybrid.iv Sample.sealed)
         (Rsa.privateKey Sample.keys1) (Sample.world Sample.t1))
  = Ok Sample.letter /\
  fst (hybridDecrypt (Hybrid.encryptedData Sample.sealed)
         (Hybrid.encryptedKey Sample.sealed) (Hybrid.iv Sample.sealed)
         (Rsa.privateKey Sample.keys2) (Sample.world Sample.t1))
  = Throw "Hybrid decryption failed: RSA decryption failed: error:02000079:rsa routines::oaep decoding error" /\
  fst (hybridDecrypt (tamper (Hybrid.encryptedData Sample.sealed))
         (Hybrid.encryptedKey Sample.sealed) (Hybrid.iv Sample.sealed)
         (Rsa.privateKey Sample.keys1) (Sample.world Sample.t1))
  = Throw "Hybrid decryption failed: Decryption failed: Malformed UTF-8 data".
Proof. repeat apply conj; vm_compute; reflexivity. Qed.

(** C8 at the submitted application [APP2026-ABCXYZ], with the SHA-512 of
    its record at [t1]. *)
Lemma certificate_code_shape_witness :
  String.length "a8d525b05ab55d67" = 16 /\
  allChars isHexDigit "a8d525b05ab55d67" = true /\
  exists text,
    generateVerifiedCertificateData (applicationDataOf Sample.submitted)
      (Sample.world Sample.t1)
    = (Ok (Certificate.mk "SVS-VERIFIED-APP2026-ABCXYZ-a8d525b05ab55d67" text),
       Sample.world Sample.t1) /\
    contains "Verification Code: SVS-VERIFIED-APP2026-ABCXYZ-a8d525b05ab55d67" text /\
    contains "/verify/SVS-VERIFIED-APP2026-ABCXYZ-a8d525b05ab55d67" text.
Proof.
  pose proof (certificate_code_shape Sample.submitted
                (Sample.world Sample.t1) actual_sha512) as H.
  cbv zeta in H.
  assert (E : substring 0 16
                (sha512_hex
                   (Buffer_from_utf8
                      (certificateRecord Sample.submitted
                         (clock (Sample.world Sample.t1)))))
              = "a8d525b05ab55d67") by (vm_compute; reflexivity).
  rewrite E in H. exact H.
Defined.



(** C4 at the student without keys: the first call stores the first key
    pair of the tape, the second call returns it and changes nothing. *)
Lemma ensureKeyPair_sequential_witness :
  exists e w2 u' w',
    encryptAES (Rsa.privateKey Sample.keys1) "default_32_char_secret_key_here!"
      (snd (generateRSAKeyPair (Sample.world Sample.t1))) = (Ok e, w2) /\
    ensureKeyPair "65a1f0c2e4b0a1b2c3d4e5f6" (Sample.world Sample.t1)
    = (Ok u', w') /\
    publicKey u' = Some (Rsa.publicKey Sample.keys1) /\
    privateKey u' = Some (storedPrivateKey e) /\
    find (fun x => user_id x =? "65a1f0c2e4b0a1b2c3d4e5f6") (users w')
    = Some u' /\
    ensureKeyPair "65a1f0c2e4b0a1b2c3d4e5f6" w' = (Ok u', w').
Proof.
  destruct (ensureKeyPair_sequential "65a1f0c2e4b0a1b2c3d4e5f6"
              (Sample.world Sample.t1) Sample.student actual_pem eq_refl)
    as [_ H].
  exact (H eq_refl Sample.keys1
           (snd (generateRSAKeyPair (Sample.world Sample.t1))) eq_refl).
Defined.

(** C4 fails as stated: two first-time requests for the same user that both
    read the user before either saves each generate a key pair; the second
    save overwrites the first, so one stored pair remains and the first
    caller holds a public key that is not the stored one. *)
Lemma concurrent_first_calls_overwrite :
  exists ua ub w',
    racingFirstCalls "65a1f0c2e4b0a1b2c3d4e5f6" (Sample.world Sample.t1)
    = (Ok (ua, ub), w') /\
    publicKey ua = Some "PUB0b30557a9fc4e90e" /\
    publicKey ub = Some "PUBabd0f51a3f6489ae" /\
    map publicKey (users w') = [Some "PUBabd0f51a3f6489ae"] /\
    map privateKey (users w') = [privateKey ub] /\
    privateKey ua <> privateKey ub.
Proof.
  eexists _, _, _. split; [vm_compute; reflexivity|].
  repeat split. vm_compute. discriminate.
Qed.

End OnActual.

(* ================================================================== *)
(** * Verification codes: splitting and parsing *)
(* ================================================================== *)

Lemma split_nonempty (sep : ascii) (s : string) : split sep s <> [].
Proof.
  destruct s as [|c s]; cbn; [discriminate|].
  destruct (Ascii.eqb c sep); [discriminate|].
  destruct (split sep s); discriminate.
Qed.

Lemma split_app (sep : ascii) (a b : string) :
  split sep (a ++ String sep b) = (split sep a ++ split sep b)%list.
Proof.
  induction a as [|c a IH]; cbn [append split].
  - now rewrite Ascii.eqb_refl.
  - destruct (Ascii.eqb c sep); [now rewrite IH|].
    rewrite IH. destruct (split sep a) as [|p ps] eqn:E; [|reflexivity].
    now apply split_nonempty in E.
Qed.

Lemma split_whole (sep : ascii) (s : string) :
  allChars (fun c => negb (Ascii.eqb c sep)) s = true -> split sep s = [s].
Proof.
  induction s as [|c s IH]; cbn [allChars split]; [reflexivity|].
  intros H. apply andb_true_iff in H as [Hc Hs].
  apply negb_true_iff in Hc. rewrite Hc, (IH Hs). reflexivity.
Qed.

Lemma split_parts (sep : ascii) (s : string) :
  Forall (fun p => allChars (fun c => negb (Ascii.eqb c sep)) p = true)
    (split sep s).
Proof.
  induction s as [|c s IH]; cbn [split]; [repeat constructor|].
  destruct (Ascii.eqb c sep) eqn:E; [constructor; [reflexivity|exact IH]|].
  destruct (split sep s) as [|p ps]; [repeat constructor; cbn; now rewrite E|].
  inversion IH as [|? ? Hp Hps]; subst. constructor; [|exact Hps].
  cbn [allChars]. now rewrite E, Hp.
Qed.

Lemma concat_split (sep : ascii) (s : string) :
  String.concat (String sep "") (split sep s) = s.
Proof.
  induction s as [|c s IH]; [reflexivity|]. cbn [split].
  destruct (Ascii.eqb_spec c sep) as [->|_].
  - destruct (split sep s) as [|p ps] eqn:E; [now apply split_nonempty in E|].
    cbn [String.concat append] in IH |- *. now rewrite IH.
  - destruct (split sep s) as [|p ps] eqn:E; [now apply split_nonempty in E|].
    destruct ps; cbn [String.concat append] in IH |- *; now rewrite IH.
Qed.

Lemma concat_snoc (sep : string) (l : list string) (x : string) :
  l <> [] ->
  String.concat sep (l ++ [x]) = String.concat sep l ++ sep ++ x.
Proof.
  induction l as [|a l IH]; [congruence|]. intros _.
  destruct l as [|b l]; [reflexivity|].
  change (String.concat sep ((a :: b :: l) ++ [x]))
    with (a ++ sep ++ String.concat sep ((b :: l) ++ [x])).
  rewrite IH by discriminate.
  change (String.concat sep (a :: b :: l))
    with (a ++ sep ++ String.concat sep (b :: l)).
  now rewrite !append_assoc.
Qed.

Lemma slice_inner {A} (x y : A) (l : list A) :
  slice 1 (-1) (x :: l ++ [y]) = l.
Proof.
  unfold slice, relativeIndex. cbn [Z.ltb Z.compare].
  cbn [length]. rewrite length_app. cbn [length].
  replace (Z.to_nat (Z.max (Z.of_nat (S (length l + 1)) + -1) 0))
    with (S (length l)) by lia.
  replace (Nat.min (Z.to_nat 1) (S (length l + 1))) with 1 by lia.
  cbn [skipn]. replace (S (length l) - 1) with (length l) by lia.
  apply firstn_length_app.
Qed.

Lemma last_snoc {A} (a : A) (l : list A) (x d : A) :
  last (a :: l ++ [x]) d = x.
Proof.
  revert a. induction l as [|b l IH]; intros a; [reflexivity|].
  change (last (b :: l ++ [x]) d = x). apply IH.
Qed.

(** A list of at least three elements is a first one, a non-empty middle
    and a last one. *)
Lemma three_parts {A} (l : list A) :
  3 <= length l ->
  exists x mid y, mid <> [] /\ l = x :: mid ++ [y].
Proof.
  intros H. destruct l as [|x l]; [cbn in H; lia|].
  destruct (exists_last (l := l)) as (mid & y & ->);
    [destruct l; [cbn in H; lia|discriminate]|].
  exists x, mid, y. split; [|reflexivity].
  destruct mid; [cbn in H; lia|discriminate].
Qed.

Lemma parse_assembled (number hash : string) :
  noHyphen hash = true ->
  parseVerificationCode ("SVS-" ++ number ++ "-" ++ hash)
  = Parsed.Valid "SVS" number hash.
Proof.
  intros Hh. unfold parseVerificationCode.
  change ("SVS-" ++ number ++ "-" ++ hash)
    with ("SVS" ++ String "-" (number ++ String "-" hash)).
  rewrite !split_app, (split_whole "-" hash Hh).
  change (split "-" "SVS") with ["SVS"]. cbn [app hd].
  change ("SVS" =? "SVS") with true. cbn [negb orb].
  destruct (split "-" number) as [|p ps] eqn:E;
    [now apply split_nonempty in E|].
  replace (length ("SVS" :: (p :: ps) ++ [hash]) <? 3)%nat with false
    by (symmetry; apply Nat.ltb_ge; cbn [length app];
        rewrite length_app; cbn; lia).
  rewrite slice_inner, last_snoc, <- E, concat_split. reflexivity.
Qed.

Lemma parse_valid_inv (code prefix number hash : string) :
  parseVerificationCode code = Parsed.Valid prefix number hash ->
  prefix = "SVS" /\ code = "SVS-" ++ number ++ "-" ++ hash /\
  noHyphen hash = true.
Proof.
  unfold parseVerificationCode.
  destruct (negb (hd "" (split "-" code) =? "SVS")
            || (length (split "-" code) <? 3)%nat) eqn:G; [discriminate|].
  apply orb_false_iff in G as [G1 G2].
  apply negb_false_iff, String.eqb_eq in G1. apply Nat.ltb_ge in G2.
  destruct (three_parts _ G2) as (x & mid & y & Hmid & E).
  intros H. injection H as <- <- <-.
  pose proof (concat_split "-" code) as J.
  pose proof (split_parts "-" code) as K.
  rewrite E in *. cbn [hd] in *. subst x.
  rewrite slice_inner, last_snoc.
  split; [reflexivity|]. split.
  - rewrite <- J. destruct (mid ++ [y])%list as [|m ms] eqn:Em;
      [now destruct mid|].
    change (String.concat "-" ("SVS" :: m :: ms))
      with ("SVS" ++ "-" ++ String.concat "-" (m :: ms)).
    rewrite <- Em, concat_snoc by assumption. reflexivity.
  - inversion K as [|? ? _ K']; subst.
    apply Forall_app in K' as [_ K'']. now inversion K''.
Qed.

(** X1.  [parseVerificationCode] accepts exactly the codes
    [SVS-<applicationNumber>-<hash>] in which [hash] has no hyphen, and
    returns those three parts: the application number may be empty or
    contain hyphens itself.  Everything else is answered with the one
    error message, and nothing is thrown. *)
Theorem parseVerificationCode_accepts (code prefix number hash error : string) :
  (parseVerificationCode code = Parsed.Valid prefix number hash <->
   prefix = "SVS" /\ code = "SVS-" ++ number ++ "-" ++ hash /\
   noHyphen hash = true) /\
  (parseVerificationCode code = Parsed.Invalid error ->
   error = "Invalid verification code format").
Proof.
  split; [split|].
  - apply parse_valid_inv.
  - intros (-> & -> & Hh). now apply parse_assembled.
  - unfold parseVerificationCode.
    destruct (negb _ || _); [|discriminate]. now intros [= <-].
Qed.

Lemma allChars_app (p : ascii -> bool) (s t : string) :
  allChars p (s ++ t) = allChars p s && allChars p t.
Proof.
  induction s as [|c s IH]; [reflexivity|].
  cbn [append allChars]. now rewrite IH, andb_assoc.
Qed.

(** A file name in quotes fits a header when the name does. *)
Lemma headerSafe_quoted (before name after : string) :
  headerSafe before = true -> headerSafe after = true ->
  headerSafe (before ++ name ++ after) = headerSafe name.
Proof.
  intros Hb Ha. unfold headerSafe in *.
  now rewrite !allChars_app, Hb, Ha, andb_true_r.
Qed.


Lemma allChars_impl (p q : ascii -> bool) (s : string) :
  (forall c, p c = true -> q c = true) ->
  allChars p s = true -> allChars q s = true.
Proof.
  intros H. induction s as [|c s IH]; cbn [allChars]; [reflexivity|].
  intros G. apply andb_true_iff in G as [G1 G2].
  now rewrite (H c G1), (IH G2).
Qed.

Lemma Ok_inj {A} (a b : A) (r : World) (r' : World) :
  (Ok a, r) = (Ok b, r') -> a = b.
Proof. congruence. Qed.

Lemma hex_noHyphen (s : string) : allChars isHexDigit s = true -> noHyphen s = true.
Proof.
  apply allChars_impl. intros c Hc.
  destruct (Ascii.eqb_spec c "-") as [->|_]; [discriminate Hc|reflexivity].
Qed.

Section CodesFacts.
Context {P : Primitives}.

(** X2.  [decodeBase64] undoes [encodeBase64] on every string of
    well-formed Unicode, and neither throws. *)
Theorem base64_text_roundtrip (text : string) (w : World) :
  Buffer_base64_law -> Buffer_utf8_law -> wellFormed text = true ->
  exists encoded,
    encodeBase64 text w = (Ok encoded, w) /\
    decodeBase64 encoded w = (Ok text, w).
Proof.
  intros B U Ht. eexists. split; [reflexivity|].
  unfold decodeBase64, try_rethrow, ret. now rewrite B, U.
Qed.

(** X3.  The two code generators of [encoding.js] hash the same record, so for
    the same data and clock they issue the same 16 hexadecimal digits;
    the codes are [SVS-<n>-<hash>] and [SVS-VERIFIED-<n>-<hash>] for the
    [applicationNumber] property [n].  [parseVerificationCode] reads both:
    it returns [n] and the hash for the first and [VERIFIED-<n>] and the
    hash for the second. *)
Theorem issued_codes_parse (applicationData : ApplicationData.t) (w : World) :
  sha512_law ->
  let number := template (ApplicationData.applicationNumber applicationData) in
  exists hash text,
    String.length hash = 16 /\ allChars isHexDigit hash = true /\
    generateVerificationCodeString applicationData w
    = (Ok ("SVS-" ++ number ++ "-" ++ hash), w) /\
    generateVerifiedCertificateData applicationData w
    = (Ok (Certificate.mk ("SVS-VERIFIED-" ++ number ++ "-" ++ hash) text), w) /\
    parseVerificationCode ("SVS-" ++ number ++ "-" ++ hash)
    = Parsed.Valid "SVS" number hash /\
    parseVerificationCode ("SVS-VERIFIED-" ++ number ++ "-" ++ hash)
    = Parsed.Valid "SVS" ("VERIFIED-" ++ number) hash.
Proof.
  intros S. cbv zeta.
  set (record :=
         JSON_stringify
           [ ("applicationId", jsonOpt (ApplicationData.id applicationData));
             ("applicationNumber",
              jsonOpt (ApplicationData.application_number applicationData));
             ("studentId", jsonOpt (ApplicationData.student_id applicationData));
             ("timestamp", JNumber (clock w)) ]).
  destruct (S (Buffer_from_utf8 record)) as [Hl Hh].
  exists (substring 0 16 (sha512_hex (Buffer_from_utf8 record))).
  eexists.
  assert (H16 : String.length (substring 0 16 (sha512_hex (Buffer_from_utf8 record))) = 16)
    by (apply substring_prefix_length; lia).
  assert (Hhex : allChars isHexDigit
                   (substring 0 16 (sha512_hex (Buffer_from_utf8 record))) = true)
    by now apply allChars_substring.
  split; [exact H16|]. split; [exact Hhex|].
  split; [reflexivity|]. split; [reflexivity|].
  split.
  - apply parse_assembled, hex_noHyphen, Hhex.
  - apply (parse_assembled
             ("VERIFIED-" ++ template (ApplicationData.applicationNumber applicationData))).
    apply hex_noHyphen, Hhex.
Qed.

End CodesFacts.

(* ================================================================== *)
(** * RSA wrap, signatures and the envelope *)
(* ================================================================== *)

Section Asymmetric.
Context {P : Primitives}.

(** X4.  [decryptRSA] undoes [encryptRSA] for a generated key pair, on every
    string of at most 214 UTF-8 bytes. *)
Theorem rsa_roundtrip (data publicKey privateKey : string) (w : World) :
  Buffer_base64_law -> Buffer_utf8_law -> RSA_law ->
  KeyPair publicKey privateKey ->
  wellFormed data = true -> length (Buffer_from_utf8 data) <= 214 ->
  exists c w',
    encryptRSA data publicKey w = (Ok c, w') /\
    forall wD, decryptRSA c privateKey wD = (Ok data, wD).
Proof.
  intros B U R K Hd Hl.
  destruct (R publicKey privateKey K (Buffer_from_utf8 data) (rng w) Hl)
    as (c & g' & He & Hdec).
  eexists _, _. split.
  - unfold encryptRSA, try_rethrow, bind, withRng, ret. rewrite He. reflexivity.
  - intros wD. unfold decryptRSA, try_rethrow, bind, lift, ret.
    rewrite B, Hdec, U by assumption. reflexivity.
Qed.

Lemma sign_then_verify (data data' : JsData) (publicKey privateKey : string)
    (w : World) :
  Buffer_base64_law -> Signature_law -> KeyPair publicKey privateKey ->
  toBuffer data' = toBuffer data ->
  exists signature,
    createDigitalSignature data privateKey w = (Ok signature, w) /\
    forall wV,
      verifyDigitalSignature data' signature publicKey wV = (Ok true, wV).
Proof.
  intros B S K E.
  destruct (S publicKey privateKey K (toBuffer data)) as (s & Hs & Hv).
  eexists. split.
  - unfold createDigitalSignature, try_rethrow, bind, lift, ret.
    rewrite Hs. reflexivity.
  - intros wV. unfold verifyDigitalSignature, try_catch, lift.
    rewrite B, E, Hv. reflexivity.
Qed.

(** X5.  A signature made by [createDigitalSignature] with the private key of
    a generated pair is accepted by [verifyDigitalSignature] under the
    public key, whether the data is passed as a string or as the buffer of
    its bytes. *)
Theorem signature_roundtrip (data data' : JsData) (publicKey privateKey : string)
    (w : World) :
  Buffer_base64_law -> Signature_law -> KeyPair publicKey privateKey ->
  toBuffer data' = toBuffer data ->
  exists signature,
    createDigitalSignature data privateKey w = (Ok signature, w) /\
    forall wV,
      verifyDigitalSignature data' signature publicKey wV = (Ok true, wV).
Proof. apply sign_then_verify. Qed.

(** X6.  [encryptAES] never throws.  It draws 24 bytes: the first 16 are the
    [iv] it reports, as 32 hexadecimal digits, and the next 8 are the salt
    that [encryptedData] carries behind the marker [Salted__]. *)
Theorem encryptAES_envelope (plainText secretKey : string) (w : World) :
  exists e c,
    encryptAES plainText secretKey w = (Ok e, afterDraw 24 w) /\
    Aes.iv e = Hex_stringify (map (tape (rng w)) (seq (drawn (rng w)) 16)) /\
    String.length (Aes.iv e) = 32 /\
    allChars isHexDigit (Aes.iv e) = true /\
    Aes.encryptedData e
    = Base64_stringify
        (list_byte_of_string "Salted__"
         ++ map (tape (rng w)) (seq (drawn (rng w) + 16) 8) ++ c)%list.
Proof.
  eexists _, _. split; [|split; [|split; [|split]]].
  - rewrite encryptAES_run. unfold afterDraw.
    replace (drawn (rng w) + 16 + 8) with (drawn (rng w) + 24) by lia.
    reflexivity.
  - reflexivity.
  - cbn [Aes.iv]. now rewrite Hex_stringify_length, length_map, length_seq.
  - apply Hex_stringify_hex.
  - reflexivity.
Qed.

(** X7.  [hybridEncrypt] fails only in the RSA wrap of the session key, and
    then names that layer; the AES layer has run by then.  What it hands
    to RSA is the session key as 64 hexadecimal digits. *)
Theorem hybridEncrypt_outcome (data publicKey : string) (w : World) :
  String.length (sessionKey w) = 64 /\
  allChars isHexDigit (sessionKey w) = true /\
  match
    publicEncrypt publicKey (Buffer_from_utf8 (sessionKey w))
      (rng (afterDraw 56 w))
  with
  | (Ok c, _) =>
      exists e w',
        hybridEncrypt data publicKey w = (Ok e, w') /\
        Hybrid.encryptedKey e = Buffer_toString_base64 c /\
        String.length (Hybrid.iv e) = 32
  | (Throw m, _) =>
      exists w',
        hybridEncrypt data publicKey w
        = (Throw ("Hybrid encryption failed: RSA encryption failed: " ++ m), w')
  end.
Proof.
  split; [apply sessionKey_length|]. split; [apply Hex_stringify_hex|].
  destruct (hybridEncrypt_run data publicKey w) as (e & w1 & He & Hh).
  pose proof (encryptAES_run data (sessionKey w) (afterDraw 32 w)) as Hr.
  cbv zeta in Hr. rewrite Hr in He.
  pose proof (f_equal snd He) as Hw. cbn [snd] in Hw.
  assert (Hiv : Aes.iv e
                = Hex_stringify
                    (map (tape (rng (afterDraw 32 w)))
                       (seq (drawn (rng (afterDraw 32 w))) 16)))
    by (apply Ok_inj in He; now rewrite <- He).
  assert (Hg : rng w1 = rng (afterDraw 56 w)).
  { rewrite <- Hw. unfold afterDraw. cbn [rng tape drawn]. f_equal. lia. }
  rewrite Hh, Hg.
  destruct (publicEncrypt publicKey (Buffer_from_utf8 (sessionKey w))
              (rng (afterDraw 56 w))) as [[c|m] g].
  - eexists _, _. split; [reflexivity|]. split; [reflexivity|].
    cbn [Hybrid.iv]. rewrite Hiv.
    now rewrite Hex_stringify_length, length_map, length_seq.
  - eexists. reflexivity.
Qed.

End Asymmetric.

(* ================================================================== *)
(** * Status changes and the codes they leave *)
(* ================================================================== *)

Lemma find_app_id (id : string) (l : list Application) (a : Application) :
  find (fun x => app_id x =? id) l = Some a -> app_id a = id /\ In a l.
Proof.
  intros H. apply find_some in H as [Hin H]. split; [|exact Hin].
  now apply String.eqb_eq.
Qed.

(** [find] on a list in which the elements with one id were replaced:
    when the first match of [p] in the old list has that id and its
    replacement matches too, the replacement is found. *)
Lemma find_replaced (p : Application -> bool) (id : string)
    (a a' : Application) (l : list Application) :
  find p l = Some a -> app_id a = id -> p a' = true ->
  find p (map (fun d => if app_id d =? id then a' else d) l) = Some a'.
Proof.
  intros Hf Hid Hp. induction l as [|x l IH]; [discriminate|].
  cbn [map find] in *.
  destruct (String.eqb_spec (app_id x) id) as [E|E].
  - now rewrite Hp.
  - destruct (p x) eqn:Px.
    + injection Hf as ->. contradiction.
    + now apply IH.
Qed.

Lemma find_replaced_id (id : string) (a a' : Application)
    (l : list Application) :
  find (fun x => app_id x =? id) l = Some a -> app_id a' = id ->
  find (fun x => app_id x =? id)
    (map (fun d => if app_id d =? id then a' else d) l) = Some a'.
Proof.
  intros Hf Hid. apply find_app_id in Hf as Ha. destruct Ha as [Ha _].
  apply (find_replaced _ id a a' l Hf Ha).
  rewrite Hid. apply String.eqb_refl.
Qed.

Section StatusChanges.
Context {P : Primitives}.

(** [PUT .../status] on an application that exists, with a status of the
    list: what is stored. *)
Lemma putStatus_run (reviewer id newStatus : string) (comments : option string)
    (w : World) (a : Application) :
  isObjectId reviewer = true ->
  find (fun x => app_id x =? id) (applications w) = Some a ->
  existsb (String.eqb newStatus) allowed = true ->
  exists text,
    putStatus reviewer id newStatus comments w =
    (Success 200 tt,
     setApplications
       (map (fun d =>
               if app_id d =? id
               then
                 if issues newStatus a
                 then certifiedAs reviewer newStatus comments a
                        (Certificate.mk (codeFor a (clock w)) text) (clock w)
                 else reviewedAs reviewer newStatus comments a (clock w)
               else d)
            (applications w))
       w).
Proof.
  intros Hr Hf Hs.
  destruct (generateVerifiedCertificateData_run a w) as (text & Hg).
  exists text.
  destruct (find_app_id _ _ _ Hf) as [Hid _].
  unfold putStatus, route. rewrite Hs, Hr. change (negb true) with false.
  cbv iota.
  unfold bind at 1. unfold Application_findById. rewrite Hf.
  fold (issues newStatus a).
  destruct (issues newStatus a).
  - unfold bind at 1. unfold bind at 1.
    rewrite Hg. unfold bind, Date_now, ret, Application_save, certifiedAs.
    cbn [app_id applicationNumber userId status reviewedBy reviewedAt reviewNotes
         verificationCode verifiedVerificationCode verifiedCertificateText
         verifiedAt Certificate.verificationCode Certificate.certificateText].
    rewrite Hid. reflexivity.
  - unfold bind, Date_now, ret, Application_save, reviewedAs.
    cbn [app_id]. rewrite Hid. reflexivity.
Qed.

(** [PUT .../status] with a reviewer that [save()] rejects: 500, and
    nothing is stored. *)
Lemma putStatus_rejected (reviewer id newStatus : string)
    (comments : option string) (w : World) (a : Application) :
  isObjectId reviewer = false ->
  find (fun x => app_id x =? id) (applications w) = Some a ->
  existsb (String.eqb newStatus) allowed = true ->
  putStatus reviewer id newStatus comments w
  = (Failure 500 "Failed to update status", w).
Proof.
  intros Hr Hf Hs.
  destruct (generateVerifiedCertificateData_run a w) as (text & Hg).
  unfold putStatus, route. rewrite Hs, Hr. change (negb true) with false.
  change (negb false) with true. cbv iota.
  unfold bind at 1. unfold Application_findById. rewrite Hf.
  fold (issues newStatus a).
  destruct (issues newStatus a).
  - unfold bind at 1. unfold bind at 1.
    rewrite Hg. unfold bind, Date_now, ret, throw. reflexivity.
  - unfold bind, Date_now, ret, throw. reflexivity.
Qed.

(** The answers of [PUT .../status]. *)
Lemma putStatus_answers (reviewer id newStatus : string)
    (comments : option string) (w : World) :
  let r := fst (putStatus reviewer id newStatus comments w) in
  r = Success 200 tt \/ r = Failure 400 "Invalid status" \/
  r = Failure 404 "Application not found" \/
  r = Failure 500 "Failed to update status".
Proof.
  cbv zeta.
  destruct (existsb (String.eqb newStatus) allowed) eqn:Hs.
  - destruct (find (fun x => app_id x =? id) (applications w)) as [a|] eqn:Hf.
    + destruct (isObjectId reviewer) eqn:Hr.
      * destruct (putStatus_run reviewer id newStatus comments w a Hr Hf Hs)
          as (text & ->).
        now left.
      * rewrite (putStatus_rejected reviewer id newStatus comments w a Hr Hf Hs).
        now right; right; right.
    + unfold putStatus, route. rewrite Hs. change (negb true) with false.
      cbv iota. unfold bind, Application_findById. rewrite Hf.
      now right; right; left.
  - unfold putStatus, route. rewrite Hs. now right; left.
Qed.

(** X8.  [PUT .../status], for an id that is the text of an [ObjectId], never
    adds or removes an application, never touches an application with
    another id, and never touches the users, the clock, the environment or
    the entropy source.  It answers 200, 400 (a status outside the list),
    404 (an unknown id) or 500 (the save was rejected), and every answer
    but 200 changes nothing at all.  For a reviewer whose id is the text
    of an [ObjectId] it answers 200 exactly when the status is of the list
    and the id is stored. *)
Theorem putStatus_frame (reviewer id newStatus : string)
    (comments : option string) (w : World) :
  isObjectId id = true ->
  let r := fst (putStatus reviewer id newStatus comments w) in
  let w' := snd (putStatus reviewer id newStatus comments w) in
  rng w' = rng w /\ clock w' = clock w /\ env w' = env w /\
  users w' = users w /\
  map app_id (applications w') = map app_id (applications w) /\
  (forall b, In b (applications w) -> app_id b <> id -> In b (applications w')) /\
  (r = Success 200 tt \/
   (r = Failure 400 "Invalid status" \/ r = Failure 404 "Application not found"
    \/ r = Failure 500 "Failed to update status")
   /\ w' = w) /\
  (isObjectId reviewer = true ->
   (r = Success 200 tt <->
    existsb (String.eqb newStatus) allowed = true /\
    find (fun x => app_id x =? id) (applications w) <> None)).
Proof.
  intros _. cbv zeta.
  destruct (existsb (String.eqb newStatus) allowed) eqn:Hs.
  - destruct (find (fun x => app_id x =? id) (applications w)) as [a|] eqn:Hf.
    + destruct (isObjectId reviewer) eqn:Hr.
      * destruct (putStatus_run reviewer id newStatus comments w a Hr Hf Hs)
          as (text & ->).
        cbn [fst snd]. unfold setApplications.
        cbn [rng clock env users applications].
        destruct (find_app_id _ _ _ Hf) as [Hid _].
        repeat split; try reflexivity; try discriminate; auto.
        -- rewrite map_map. apply map_ext. intros d.
           destruct (String.eqb_spec (app_id d) id) as [E|E]; [|reflexivity].
           destruct (issues newStatus a); cbn [app_id certifiedAs reviewedAs];
             congruence.
        -- intros b Hb Hne. apply in_map_iff. exists b. split; [|exact Hb].
           apply String.eqb_neq in Hne. now rewrite Hne.
      * rewrite (putStatus_rejected reviewer id newStatus comments w a Hr Hf Hs).
        cbn [fst snd].
        do 6 (split; [auto|]). split; [right; auto|discriminate].
    + unfold putStatus, route. rewrite Hs. change (negb true) with false.
      cbv iota. unfold bind, Application_findById. rewrite Hf.
      cbn [ret fst snd].
      do 6 (split; [auto|]). split; [right; auto|]. intros _.
      split; [discriminate|]. intros [_ H]. congruence.
  - unfold putStatus, route. rewrite Hs. cbn [negb ret fst snd].
    do 6 (split; [auto|]). split; [right; auto|]. intros _.
    split; [discriminate|]. intros [H _]. discriminate.
Qed.

(** X9.  A status change that issues no certificate keeps the codes: after
    [under_review] or [rejected] (and after [approved] when a verified
    code is there already), set by a reviewer whose id is the text of an
    [ObjectId], the application holds the same codes as before, so every
    code that resolved to it still resolves to it.
    [GET /applications/verify/:code] then shows the new status and no
    certificate. *)
Theorem status_change_keeps_codes (reviewer id newStatus code : string)
    (comments : option string) (w : World) (a : Application) :
  isObjectId reviewer = true ->
  find (fun x => app_id x =? id) (applications w) = Some a ->
  find (holdsCode code) (applications w) = Some a ->
  newStatus = "under_review" \/ newStatus = "rejected" \/
  newStatus = "approved" /\ truthy (verifiedVerificationCode a) = true ->
  let w' := snd (putStatus reviewer id newStatus comments w) in
  fst (putStatus reviewer id newStatus comments w) = Success 200 tt /\
  (exists a',
     find (fun x => app_id x =? id) (applications w') = Some a' /\
     status a' = newStatus /\
     verificationCode a' = verificationCode a /\
     verifiedVerificationCode a' = verifiedVerificationCode a /\
     verifiedCertificateText a' = verifiedCertificateText a /\
     verifiedAt a' = verifiedAt a) /\
  (exists data,
     fst (getVerify code w') = Success 200 data /\
     Verified.status data = newStatus /\
     Verified.applicationNumber data = applicationNumber a /\
     Verified.certificateAvailable data = false).
Proof.
  intros Hr Hf Hc Hs. cbv zeta.
  assert (Hallowed : existsb (String.eqb newStatus) allowed = true)
    by (destruct Hs as [->|[->|[-> _]]]; reflexivity).
  assert (Hissues : issues newStatus a = false).
  { unfold issues. destruct Hs as [->|[->|[-> Ht]]]; [reflexivity..|].
    now rewrite Ht. }
  assert (Hnv : (newStatus =? "verified") = false)
    by (destruct Hs as [->|[->|[-> _]]]; reflexivity).
  destruct (putStatus_run reviewer id newStatus comments w a Hr Hf Hallowed)
    as (text & ->).
  rewrite Hissues. cbn [fst snd]. split; [reflexivity|].
  destruct (find_app_id _ _ _ Hf) as [Hid _].
  split.
  - exists (reviewedAs reviewer newStatus comments a (clock w)).
    split; [|repeat split].
    unfold setApplications. cbn [applications].
    now apply (find_replaced_id id a).
  - rewrite getVerify_run. unfold setApplications. cbn [applications env].
    rewrite (find_replaced (holdsCode code) id a
               (reviewedAs reviewer newStatus comments a (clock w)))
      by (try assumption;
          apply find_some in Hc as [_ Hc]; exact Hc).
    eexists. split; [reflexivity|].
    cbn [Verified.status Verified.applicationNumber
         Verified.certificateAvailable reviewedAs status applicationNumber].
    rewrite Hnv. repeat split.
Qed.

(** X10.  Approving an application that has no verified code, as a reviewer
    whose id is the text of an [ObjectId], issues one, as verifying does;
    the code then resolves to the application (when no
    earlier application holds the same code), but with status [approved]
    no certificate is available for it, and the document route answers
    404. *)
Theorem approval_issues_code (scholarshipTitle : Application -> option string)
    (reviewer id : string) (comments : option string) (w : World)
    (a : Application) :
  isObjectId reviewer = true ->
  find (fun x => app_id x =? id) (applications w) = Some a ->
  truthy (verifiedVerificationCode a) = false ->
  (forall b, In b (applications w) -> app_id b <> id ->
     holdsCode (codeFor a (clock w)) b = false) ->
  let code := codeFor a (clock w) in
  let w' := snd (putStatus reviewer id "approved" comments w) in
  fst (putStatus reviewer id "approved" comments w) = Success 200 tt /\
  (exists a',
     find (fun x => app_id x =? id) (applications w') = Some a' /\
     status a' = "approved" /\
     verifiedVerificationCode a' = Some code /\
     verifiedAt a' = Some (clock w)) /\
  (exists data,
     fst (getVerify code w') = Success 200 data /\
     Verified.status data = "approved" /\
     Verified.certificateAvailable data = false) /\
  fst (getCertificateDocument scholarshipTitle code w')
  = Failure 404 "Certificate not found".
Proof.
  intros Hr Hf Ht Hothers. cbv zeta.
  assert (Hissues : issues "approved" a = true)
    by (unfold issues; now rewrite Ht).
  destruct (putStatus_run reviewer id "approved" comments w a Hr Hf eq_refl)
    as (text & ->).
  rewrite Hissues. cbn [fst snd].
  destruct (find_app_id _ _ _ Hf) as [Hid Hin].
  set (a' := certifiedAs reviewer "approved" comments a
               (Certificate.mk (codeFor a (clock w)) text) (clock w)).
  assert (Hholds : holdsCode (codeFor a (clock w)) a' = true).
  { unfold holdsCode, a', certifiedAs, eqOpt.
    cbn [verifiedVerificationCode Certificate.verificationCode].
    rewrite String.eqb_refl. apply orb_true_r. }
  assert (Hfirst : forall (p : Application -> bool),
             p a' = true ->
             (forall b, In b (applications w) -> app_id b <> id -> p b = false) ->
             find p (map (fun d => if app_id d =? id then a' else d)
                       (applications w)) = Some a').
  { intros p Hp Hn. clear Hf Hothers.
    induction (applications w) as [|x l IH]; [contradiction|].
    cbn [map find]. destruct (String.eqb_spec (app_id x) id) as [E|E].
    - now rewrite Hp.
    - rewrite (Hn x (or_introl eq_refl) E).
      destruct Hin as [->|Hin]; [contradiction|].
      apply IH; [exact Hin|]. intros b Hb. apply Hn. now right. }
  split; [reflexivity|]. split; [|split].
  - exists a'. split; [|repeat split].
    unfold setApplications. cbn [applications].
    now apply (find_replaced_id id a).
  - rewrite getVerify_run. unfold setApplications. cbn [applications env].
    rewrite (Hfirst (holdsCode (codeFor a (clock w))) Hholds Hothers).
    eexists. split; [reflexivity|]. repeat split.
  - unfold getCertificateDocument, route, setApplications. cbn [applications].
    rewrite (Hfirst (fun b => eqOpt (verifiedVerificationCode b)
                                (codeFor a (clock w)))).
    + reflexivity.
    + unfold a', certifiedAs, eqOpt.
      cbn [verifiedVerificationCode Certificate.verificationCode].
      apply String.eqb_refl.
    + intros b Hb Hne. specialize (Hothers b Hb Hne).
      unfold holdsCode in Hothers. now apply orb_false_iff in Hothers.
Qed.

(** X11.  Whenever [GET /applications/verify/:code] reports a certificate as
    available, the document route it advertises serves that certificate
    (when the application number fits the name of the attachment): 200,
    with the application's number and the status [verified] in the
    text. *)
Theorem advertised_certificate_downloads
    (scholarshipTitle : Application -> option string) (code : string)
    (w : World) (data : Verified.t) :
  fst (getVerify code w) = Success 200 data ->
  Verified.certificateAvailable data = true ->
  headerSafe (template (Verified.applicationNumber data)) = true ->
  exists file,
    fst (getCertificateDocument scholarshipTitle code w) = Success 200 file /\
    contains ("Application: " ++ template (Verified.applicationNumber data))
      (CertificateFile.content file) /\
    contains "Status: verified" (CertificateFile.content file) /\
    snd (getCertificateDocument scholarshipTitle code w) = w /\
    snd (getVerify code w) = w.
Proof.
  rewrite getVerify_run.
  destruct (find (holdsCode code) (applications w)) as [a|] eqn:Hf;
    [|discriminate].
  intros H Hav Hsafe. injection H as <-.
  cbn [Verified.certificateAvailable Verified.applicationNumber] in Hav, Hsafe.
  apply andb_true_iff in Hav as [Hst Hv]. apply String.eqb_eq in Hst.
  assert (Hfind : find (fun b => eqOpt (verifiedVerificationCode b) code)
                    (applications w) = Some a).
  { clear Hst. induction (applications w) as [|x l IH]; [discriminate|].
    cbn [find] in Hf |- *. unfold holdsCode in Hf at 1.
    destruct (eqOpt (verifiedVerificationCode x) code) eqn:Ex.
    - rewrite orb_true_r in Hf. exact Hf.
    - rewrite orb_false_r in Hf.
      destruct (eqOpt (verificationCode x) code).
      + injection Hf as ->. congruence.
      + now apply IH. }
  unfold getCertificateDocument, route. rewrite Hfind, Hst.
  change (negb ("verified" =? "verified")) with false. cbv iota.
  unfold bind, User_findById, Date_now, ret. cbn [fst snd].
  assert (Hd : headerSafe
                 ("attachment; filename=" ++ dquote ++ "verified-certificate-"
                  ++ template (applicationNumber a) ++ ".txt" ++ dquote)
               = true).
  { change (headerSafe
              (("attachment; filename=" ++ dquote ++ "verified-certificate-")
               ++ template (applicationNumber a) ++ (".txt" ++ dquote))
            = true).
    rewrite headerSafe_quoted by reflexivity. exact Hsafe. }
  cbv zeta. rewrite Hd. cbn [negb fst snd].
  eexists. split; [reflexivity|]. cbn [CertificateFile.content Verified.applicationNumber].
  split; [|split; [|split]].
  - cbn [String.concat]. do 2 apply contains_app_l.
    apply contains_app_r, contains_refl.
  - cbn [String.concat]. do 8 apply contains_app_l.
    apply contains_app_r. exact (contains_refl "Status: verified").
  - reflexivity.
  - unfold getVerify, route, bind, Application_findOneByCode, getenv, ret.
    rewrite Hf. reflexivity.
Qed.

End StatusChanges.

Local Open Scope portal_scope.

(* ================================================================== *)
(** * Access control *)
(* ================================================================== *)

Lemma existsb_eqb_In (s : string) (l : list string) :
  existsb (String.eqb s) l = true <-> In s l.
Proof.
  rewrite existsb_exists. split.
  - intros (x & Hx & E). apply String.eqb_eq in E. now subst.
  - intros H. exists s. split; [exact H|apply String.eqb_refl].
Qed.

Lemma logAccessAttempt_run (req : Req.t) (action status : string) (p : Portal) :
  logAccessAttempt req action status p =
  Some (Ok tt,
        mkPortal (world p) (documents p) (files p)
          (auditLogs p
           ++ [AuditLog.mk
                 match Req.user req with
                 | Some u =>
                     if truthy (Some (Requester.id u))
                     then Some (Requester.id u) else None
                 | None => None
                 end
                 action (Req.baseUrl req) (Req.ip req) (Req.userAgent req)
                 status (clock (world p))])%list).
Proof.
  unfold logAccessAttempt, bindA, inWorld, Date_now, setWorld.
  destruct p as [w ds fs logs]. reflexivity.
Qed.

(** X12.  [requireRole] calls [next()] exactly for an authenticated requester
    whose role is in the list.  It touches nothing but the audit log: a
    403 adds one entry, with the requester's id, the action
    [Unauthorized Access Attempt], the status [failure] and the time; a
    401 and a pass add none. *)
Theorem requireRole_decides (allowedRoles : list string) (req : Req.t)
    (p : Portal) :
  exists g p',
    requireRole allowedRoles req p = Some (Ok g, p') /\
    (g = Next <->
     exists u, Req.user req = Some u /\ In (Requester.role u) allowedRoles) /\
    world p' = world p /\ documents p' = documents p /\ files p' = files p /\
    match g with
    | Next => auditLogs p' = auditLogs p
    | Refused d =>
        match Req.user req with
        | None => Denial.statusCode d = 401 /\ auditLogs p' = auditLogs p
        | Some u =>
            Denial.statusCode d = 403 /\
            Denial.required d = Some allowedRoles /\
            Denial.current d = Some (Requester.role u) /\
            exists who,
              auditLogs p' =
              (auditLogs p
               ++ [AuditLog.mk who "Unauthorized Access Attempt"
                     (Req.baseUrl req) (Req.ip req) (Req.userAgent req)
                     "failure" (clock (world p))])%list /\
              (Requester.id u <> "" -> who = Some (Requester.id u))
        end
    end.
Proof.
  unfold requireRole. destruct (Req.user req) as [u|] eqn:Hu.
  - destruct (existsb (String.eqb (Requester.role u)) allowedRoles) eqn:E;
      cbn [negb].
    + eexists _, _. split; [reflexivity|].
      split; [|repeat split].
      split; [intros _|reflexivity].
      exists u. split; [reflexivity|]. now apply existsb_eqb_In.
    + unfold bindA. rewrite logAccessAttempt_run. rewrite Hu.
      eexists _, _. split; [reflexivity|].
      split; [|repeat split].
      * split; [discriminate|].
        intros (u' & [= <-] & Hin). apply existsb_eqb_In in Hin. congruence.
      * eexists. split; [reflexivity|].
        intros Hne. unfold truthy.
        destruct (String.eqb_spec (Requester.id u) ""); [contradiction|].
        reflexivity.
  - eexists _, _. split; [reflexivity|].
    split; [|repeat split].
    split; [discriminate|]. intros (u & [=] & _).
Qed.

(** X13.  What the permission table grants: every grant to any role is also a
    grant to [admin]; only [admin] may manage users, read the audit log,
    delete anything, or create, update or delete scholarships; a role
    that is not one of the three is granted nothing; and for the two
    resources that list only [read], no other action is granted even to
    [admin]. *)
Theorem permissions_hierarchy (role : string) (resource : Acl.Resource)
    (action : Acl.Action) :
  Acl.isAllowed role resource action = true ->
  Acl.isAllowed "admin" resource action = true /\
  (role = "student" \/ role = "officer" \/ role = "admin") /\
  (role <> "admin" ->
   resource <> Acl.manage_users /\ resource <> Acl.view_audit_logs /\
   action <> Acl.delete /\
   (resource = Acl.manage_scholarships -> action = Acl.read)) /\
  (resource = Acl.view_audit_logs \/ resource = Acl.verify_documents ->
   action = Acl.read).
Proof.
  unfold Acl.isAllowed, Acl.ROLE_PERMISSIONS. cbn [find fst snd].
  destruct (String.eqb_spec "student" role) as [<-|H1];
    [|destruct (String.eqb_spec "officer" role) as [<-|H2];
      [|destruct (String.eqb_spec "admin" role) as [<-|H3]]];
    destruct resource, action; cbn; intros H; try discriminate H;
    repeat split; auto; try discriminate; try congruence;
    intros; try discriminate; try congruence;
    match goal with
    | H : _ \/ _ |- _ => destruct H; discriminate
    | _ => idtac
    end.
Qed.

(** X14.  [checkPermission] calls [next()] exactly for an authenticated
    requester to whom the table grants the action.  Every authenticated
    request adds one audit entry, [success] when it passes and [failure]
    when it is answered 403; a 401 adds none; 500 is never answered; and
    nothing but the audit log changes. *)
Theorem checkPermission_audits (resource : Acl.Resource) (action : Acl.Action)
    (req : Req.t) (p : Portal) :
  exists g p',
    checkPermission resource action req p = Some (Ok g, p') /\
    (g = Next <->
     exists u, Req.user req = Some u /\
               Acl.isAllowed (Requester.role u) resource action = true) /\
    world p' = world p /\ documents p' = documents p /\ files p' = files p /\
    match Req.user req with
    | None =>
        g = Refused (Denial.mk 401 "Authentication required" None None) /\
        auditLogs p' = auditLogs p
    | Some u =>
        exists e,
          auditLogs p' = (auditLogs p ++ [e])%list /\
          AuditLog.timestamp e = clock (world p) /\
          AuditLog.resource e = Req.baseUrl req /\
          match g with
          | Next => AuditLog.status e = "success"
          | Refused d =>
              Denial.statusCode d = 403 /\ AuditLog.status e = "failure"
          end
    end.
Proof.
  unfold checkPermission. destruct (Req.user req) as [u|] eqn:Hu.
  - destruct (Acl.isAllowed (Requester.role u) resource action) eqn:E;
      cbn [negb]; unfold bindA; rewrite logAccessAttempt_run; cbn [retA].
    + eexists _, _. split; [reflexivity|].
      split; [|repeat split].
      * split; [intros _; exists u; auto|reflexivity].
      * eexists. cbn [auditLogs]. repeat split.
    + eexists _, _. split; [reflexivity|].
      split; [|repeat split].
      * split; [discriminate|]. intros (u' & [= <-] & H). congruence.
      * eexists. cbn [auditLogs]. repeat split.
  - eexists _, _. split; [reflexivity|].
    split; [|repeat split].
    split; [discriminate|]. intros (u & [=] & _).
Qed.

(** X15.  [checkOwnership] calls [next()] exactly for an authenticated [admin]
    or [officer].  Nobody else passes, whatever the resource and whoever
    owns it: for an application or a document the answer is 500, because
    the query runs on a [pool] that is not declared; for a user or another
    resource type it is 403, with an audit entry. *)
Theorem checkOwnership_staff_only (resourceType : Owned.t) (req : Req.t)
    (p : Portal) :
  exists g p',
    checkOwnership resourceType req p = Some (Ok g, p') /\
    world p' = world p /\ documents p' = documents p /\ files p' = files p /\
    (g = Next <->
     exists u, Req.user req = Some u /\
               (Requester.role u = "admin" \/ Requester.role u = "officer")) /\
    (forall u,
       Req.user req = Some u ->
       Requester.role u <> "admin" -> Requester.role u <> "officer" ->
       match resourceType with
       | Owned.application | Owned.document =>
           g = Refused (Denial.mk 500 "Authorization error" None None) /\
           auditLogs p' = auditLogs p
       | _ =>
           g = Refused
                 (Denial.mk 403
                    "Access denied. You can only access your own resources."
                    None None) /\
           exists e, auditLogs p' = (auditLogs p ++ [e])%list /\
                     AuditLog.status e = "failure"
       end).
Proof.
  unfold checkOwnership. destruct (Req.user req) as [u|] eqn:Hu.
  - cbn [existsb].
    destruct (String.eqb_spec (Requester.role u) "admin") as [Ea|Ea];
      [|destruct (String.eqb_spec (Requester.role u) "officer") as [Eo|Eo]];
      cbn [orb].
    + eexists _, _. split; [reflexivity|]. repeat split; eauto.
      intros u' [= <-] H. contradiction.
    + eexists _, _. split; [reflexivity|]. repeat split; eauto.
      intros u' [= <-] _ H. contradiction.
    + destruct resourceType; unfold bindA; cbn [throwA retA negb];
        try rewrite logAccessAttempt_run;
        (eexists _, _; split; [reflexivity|]);
        (repeat split; try discriminate;
         try (intros (u' & [= <-] & [H|H]); contradiction);
         try (intros u' [= <-] _ _; repeat split; eexists; split;
              [reflexivity|reflexivity])).
      all: eexists; split; reflexivity.
  - eexists _, _. split; [reflexivity|]. repeat split; try discriminate.
    intros (u & [=] & _).
Qed.

Lemma requireRole_pass (allowedRoles : list string) (req : Req.t)
    (u : Requester.t) (p : Portal) :
  Req.user req = Some u -> In (Requester.role u) allowedRoles ->
  requireRole allowedRoles req p = Some (Ok Next, p).
Proof.
  intros Hu Hin. unfold requireRole. rewrite Hu.
  apply existsb_eqb_In in Hin. now rewrite Hin.
Qed.

Lemma requireRole_deny (allowedRoles : list string) (req : Req.t)
    (u : Requester.t) (p : Portal) :
  Req.user req = Some u -> ~ In (Requester.role u) allowedRoles ->
  requireRole allowedRoles req p =
  Some (Ok (Refused
              (Denial.mk 403 "Access denied. Insufficient privileges."
                 (Some allowedRoles) (Some (Requester.role u)))),
        mkPortal (world p) (documents p) (files p)
          (auditLogs p
           ++ [AuditLog.mk
                 (if truthy (Some (Requester.id u))
                  then Some (Requester.id u) else None)
                 "Unauthorized Access Attempt" (Req.baseUrl req) (Req.ip req)
                 (Req.userAgent req) "failure" (clock (world p))])%list).
Proof.
  intros Hu Hin. unfold requireRole. rewrite Hu.
  destruct (existsb (String.eqb (Requester.role u)) allowedRoles) eqn:E.
  - apply existsb_eqb_In in E. contradiction.
  - cbn [negb]. unfold bindA. rewrite logAccessAttempt_run, Hu. reflexivity.
Qed.

Lemma segment_whole (s : string) :
  allChars (fun c => negb (Ascii.eqb c "/")) s = true -> segment s = (s, "").
Proof.
  induction s as [|c s IH]; cbn [allChars segment]; [reflexivity|].
  intros H. apply andb_true_iff in H as [Hc Hs].
  apply negb_true_iff in Hc. now rewrite Hc, (IH Hs).
Qed.

Lemma segment_app (s t : string) :
  allChars (fun c => negb (Ascii.eqb c "/")) s = true ->
  segment (s ++ String "/" t) = (s, String "/" t).
Proof.
  induction s as [|c s IH]; cbn [allChars segment append]; [reflexivity|].
  intros H. apply andb_true_iff in H as [Hc Hs].
  apply negb_true_iff in Hc. now rewrite Hc, (IH Hs).
Qed.

(** The text of an [ObjectId] is not empty and has neither [/] nor [?]. *)
Lemma objectId_plain (id : string) :
  isObjectId id = true ->
  (id =? "") = false /\
  allChars (fun c => negb (Ascii.eqb c "/")) id = true /\
  allChars (fun c => negb (Ascii.eqb c "?")) id = true.
Proof.
  unfold isObjectId. intros H. apply andb_true_iff in H as [Hl Hh].
  split; [destruct id; [discriminate Hl|reflexivity]|].
  split; revert Hh; apply allChars_impl; intros c Hc.
  - destruct (Ascii.eqb_spec c "/") as [->|_]; [discriminate Hc|reflexivity].
  - destruct (Ascii.eqb_spec c "?") as [->|_]; [discriminate Hc|reflexivity].
Qed.

Lemma getReadableAction_status (id : string) :
  isObjectId id = true ->
  getReadableAction "PUT" ("/api/applications/" ++ id ++ "/status")
  = Some "Update Application Status".
Proof.
  intros H. destruct (objectId_plain id H) as (Hne & Hs & Hq).
  unfold getReadableAction.
  rewrite (split_whole "?" ("/api/applications/" ++ id ++ "/status"))
    by (rewrite !allChars_app, Hq; reflexivity).
  cbn [hd]. cbn.
  rewrite (segment_app id "status" Hs). rewrite Hne. cbn. reflexivity.
Qed.

Lemma getReadableAction_deleteUser (id : string) :
  isObjectId id = true ->
  getReadableAction "DELETE" ("/api/users/" ++ id) = Some "Delete User".
Proof.
  intros H. destruct (objectId_plain id H) as (Hne & Hs & Hq).
  unfold getReadableAction.
  rewrite (split_whole "?" ("/api/users/" ++ id))
    by (rewrite !allChars_app, Hq; reflexivity).
  cbn [hd]. cbn.
  rewrite (segment_whole id Hs). rewrite Hne. cbn. reflexivity.
Qed.

(** What [auditLog] adds to a route that answers. *)
Lemma auditLog_run {A} (req : Req.t)
    (next : Portal -> option ((Denial.t + Response A) * Portal))
    (p p' : Portal) (answer : Denial.t + Response A) (readableAction : string) :
  next p = Some (answer, p') ->
  getReadableAction (Req.method req) (Req.originalUrl req)
  = Some readableAction ->
  auditLog req next p =
  Some (answer,
        mkPortal (world p') (documents p') (files p')
          (auditLogs p'
           ++ [AuditLog.mk
                 match Req.user req with
                 | Some u =>
                     if truthy (Some (Requester.id u))
                     then Some (Requester.id u) else None
                 | None => None
                 end
                 readableAction (Req.baseUrl req) (Req.ip req)
                 (Req.userAgent req)
                 (if (statusCodeOf answer <? 400)%nat then "success"
                  else "failure")
                 (clock (world p'))])%list).
Proof.
  intros Hn Ha. unfold auditLog. rewrite Hn, Ha.
  now rewrite logAccessAttempt_run.
Qed.

Section GuardedFacts.
Context {P : Primitives}.

(** X16.  The status route as it is served, for a request
    [PUT /api/applications/<id>/status] of an authenticated requester,
    both ids being texts of an [ObjectId].  A requester who is neither
    [officer] nor [admin] is answered 403 and no application changes; the
    audit log gets the entry of [requireRole] and, as the response ends,
    the entry of [auditLog], both with status [failure].  For an
    [officer] or [admin] the handler runs with the requester as reviewer,
    and the audit log gets the one entry of [auditLog], with status
    [success] exactly when the handler answers 200.  The entry of
    [auditLog] names the action [Update Application Status] and the
    requester.  Documents and files are never touched. *)
Theorem putStatusRoute_guard (req : Req.t) (u : Requester.t)
    (id newStatus : string) (comments : option string) (p : Portal) :
  isObjectId id = true ->
  isObjectId (Requester.id u) = true ->
  Req.user req = Some u ->
  Req.method req = "PUT" ->
  Req.originalUrl req = "/api/applications/" ++ id ++ "/status" ->
  exists answer p' logged,
    putStatusRoute req id newStatus comments p = Some (answer, p') /\
    documents p' = documents p /\ files p' = files p /\
    AuditLog.action logged = "Update Application Status" /\
    AuditLog.userId logged = Some (Requester.id u) /\
    AuditLog.resource logged = Req.baseUrl req /\
    if existsb (String.eqb (Requester.role u)) ["officer"; "admin"] then
      answer = inr (fst (putStatus (Requester.id u) id newStatus comments
                           (world p))) /\
      world p' = snd (putStatus (Requester.id u) id newStatus comments (world p)) /\
      auditLogs p' = (auditLogs p ++ [logged])%list /\
      (AuditLog.status logged = "success" /\ answer = inr (Success 200 tt) \/
       AuditLog.status logged = "failure" /\ answer <> inr (Success 200 tt))
    else
      (exists d, answer = inl d /\ Denial.statusCode d = 403) /\
      world p' = world p /\
      AuditLog.status logged = "failure" /\
      exists e,
        auditLogs p' = (auditLogs p ++ [e; logged])%list /\
        AuditLog.action e = "Unauthorized Access Attempt" /\
        AuditLog.userId e = Some (Requester.id u) /\
        AuditLog.status e = "failure".
Proof.
  intros Hid Huid Hu Hm Hurl.
  assert (Hwho : truthy (Some (Requester.id u)) = true).
  { destruct (objectId_plain _ Huid) as [E _]. cbn [truthy]. now rewrite E. }
  assert (Ha : getReadableAction (Req.method req) (Req.originalUrl req)
               = Some "Update Application Status")
    by (rewrite Hm, Hurl; now apply getReadableAction_status).
  unfold putStatusRoute.
  destruct (existsb (String.eqb (Requester.role u)) ["officer"; "admin"]) eqn:E.
  - pose proof (putStatus_answers (Requester.id u) id newStatus comments
                  (world p)) as Hr. cbv zeta in Hr.
    destruct (putStatus (Requester.id u) id newStatus comments (world p))
      as [r w'] eqn:Hp.
    erewrite auditLog_run; [| |exact Ha].
    2: { unfold guarded. rewrite Hu.
         rewrite (requireRole_pass _ req u p Hu) by now apply existsb_eqb_In.
         unfold onWorld. rewrite Hp. reflexivity. }
    rewrite Hu, Hwho.
    cbn [fst snd] in Hr |- *.
    eexists _, _, (AuditLog.mk _ _ _ _ _ _ _). split; [reflexivity|].
    cbn [documents files world auditLogs setWorld AuditLog.action
         AuditLog.userId AuditLog.resource AuditLog.status statusCodeOf].
    do 8 (split; [reflexivity|]).
    destruct Hr as [-> | [-> | [-> | ->]]];
      [left; split; reflexivity | right; split; [reflexivity|discriminate]..].
  - assert (Hn : ~ In (Requester.role u) ["officer"; "admin"]).
    { intros H. apply existsb_eqb_In in H. congruence. }
    erewrite auditLog_run; [| |exact Ha].
    2: { unfold guarded. rewrite (requireRole_deny _ req u p Hu Hn).
         reflexivity. }
    rewrite Hu, Hwho.
    eexists _, _, (AuditLog.mk _ _ _ _ _ _ _). split; [reflexivity|].
    cbn [documents files world auditLogs AuditLog.action AuditLog.userId
         AuditLog.resource AuditLog.status statusCodeOf Denial.statusCode].
    do 5 (split; [reflexivity|]).
    split; [eexists; split; reflexivity|].
    do 2 (split; [reflexivity|]).
    eexists (AuditLog.mk _ _ _ _ _ _ _). split; [now rewrite <- app_assoc|].
    cbn [AuditLog.action AuditLog.userId AuditLog.status].
    repeat split.
Qed.

End GuardedFacts.

(* ================================================================== *)
(** * The [binary] encoding *)
(* ================================================================== *)

Lemma lowBytes_utf8_of_byte (b : byte) (rest : bytes) :
  lowBytes (utf8_of_byte b ++ rest)%list = b :: lowBytes rest.
Proof. destruct b; reflexivity. Qed.

Lemma utf8_valid_utf8_of_byte (b : byte) (rest : bytes) :
  utf8_valid (utf8_of_byte b ++ rest)%list = utf8_valid rest.
Proof. destruct b; reflexivity. Qed.

Lemma Buffer_binary_roundtrip (bs : bytes) :
  Buffer_from_binary (Buffer_toString_binary bs) = bs.
Proof.
  unfold Buffer_from_binary, Buffer_toString_binary.
  rewrite list_byte_of_string_of_list_byte.
  induction bs as [|b bs IH]; [reflexivity|].
  cbn [flat_map]. now rewrite lowBytes_utf8_of_byte, IH.
Qed.

Lemma Buffer_toString_binary_wellFormed (bs : bytes) :
  wellFormed (Buffer_toString_binary bs) = true.
Proof.
  unfold wellFormed, Buffer_toString_binary.
  rewrite list_byte_of_string_of_list_byte.
  induction bs as [|b bs IH]; [reflexivity|].
  cbn [flat_map]. now rewrite utf8_valid_utf8_of_byte.
Qed.

(* ================================================================== *)
(** * Running the portal *)
(* ================================================================== *)

Lemma bindA_inWorld {A B} (c : M A) (k : A -> Act B) (p : Portal) (a : A)
    (w' : World) :
  c (world p) = (Ok a, w') ->
  bindA (inWorld c) k p = k a (setWorld w' p).
Proof. intros H. unfold bindA, inWorld. now rewrite H. Qed.

Lemma bindA_liftA {A B} (r : Result A) (k : A -> Act B) (p : Portal) (a : A) :
  r = Ok a -> bindA (liftA r) k p = k a p.
Proof. intros ->. reflexivity. Qed.

Lemma setWorld_world (p : Portal) : setWorld (world p) p = p.
Proof. now destruct p. Qed.

Lemma asString_read {B} (key : string) (members : list (string * Json))
    (s : string) (k : string -> Act B) (p : Portal) :
  find (fun m => fst m =? key) members = Some (key, JsonString s) ->
  bindA (bindA (liftA (property key (JsonObject members))) asString) k p
  = k s p.
Proof. intros H. unfold bindA, liftA, property. now rewrite H. Qed.

Section VaultFacts.
Context {P : Primitives} {F : Platform}.

Lemma wellFormed_encryptedData (plainText secretKey : string) (w w' : World)
    (e : Aes.t) :
  Base64_text_law ->
  encryptAES plainText secretKey w = (Ok e, w') ->
  wellFormed (Aes.encryptedData e) = true /\ wellFormed (Aes.iv e) = true.
Proof.
  intros T H. rewrite encryptAES_run in H.
  apply Ok_inj in H. subst e. cbn [Aes.encryptedData Aes.iv]. split.
  - unfold CryptoJS.OpenSSL_stringify. apply T.
  - apply hex_wellFormed, Hex_stringify_hex.
Qed.

Lemma encryptAES_opens (plainText secretKey : string) (w w' : World) (e : Aes.t) :
  Base64_law -> AES_law -> wellFormed plainText = true ->
  encryptAES plainText secretKey w = (Ok e, w') ->
  forall iv wD, decryptAES (Aes.encryptedData e) iv secretKey wD = (Ok plainText, wD).
Proof.
  intros B A Hp H.
  destruct (decryptAES_encryptAES plainText secretKey w B A Hp)
    as (e' & w'' & He & Hd).
  rewrite H in He. apply Ok_inj in He. now subst e'.
Qed.

(** The stored private key of a vaulted user unlocks. *)
Lemma unlock_vaulted (user : User) (pub prv : string) (p : Portal) :
  Base64_law -> AES_law -> PEM_law -> JSON_law -> Base64_text_law ->
  Vaulted (secretOf (world p)) user pub prv ->
  unlockPrivateKey user p = Some (Ok prv, p).
Proof.
  intros B A PEM [J _] T (K & _ & e & w0 & w1 & He & Hs).
  destruct (wellFormed_encryptedData _ _ _ _ _ T He) as [Wd Wi].
  destruct (PEM _ _ K) as [_ Wk].
  unfold unlockPrivateKey. rewrite Hs. unfold keyOf.
  change (bindA (retA ?x) ?k p) with (k x p). cbv beta.
  unfold storedPrivateKey.
  rewrite (bindA_liftA _ _ _ _ (J _ _ Wd Wi)).
  rewrite (asString_read "data" _ (Aes.encryptedData e)) by reflexivity.
  rewrite (asString_read "iv" _ (Aes.iv e)) by reflexivity.
  unfold inWorld, AES_SECRET, getenv. unfold bind, ret. cbv beta iota.
  fold (secretOf (world p)).
  rewrite (encryptAES_opens _ _ _ _ _ B A Wk He).
  now rewrite setWorld_world.
Qed.

(** [ensureKeyPair] for a stored user: a vaulted user is returned as it
    is; for a user without keys a pair is generated and vaulted.  Only the
    entropy source and that user change. *)
Lemma ensureKeyPair_vaults (id : string) (w : World) (u : User) :
  PEM_law ->
  find (fun x => user_id x =? id) (users w) = Some u ->
  (exists pub prv, Vaulted (secretOf w) u pub prv) \/
  (truthy (publicKey u) && truthy (privateKey u) = false /\
   exists kp w1, generateRSAKeyPair w = (Ok kp, w1)) ->
  exists u' w' pub prv,
    ensureKeyPair id w = (Ok u', w') /\
    Vaulted (secretOf w) u' pub prv /\
    find (fun x => user_id x =? id) (users w') = Some u' /\
    clock w' = clock w /\ env w' = env w /\
    applications w' = applications w /\
    map user_id (users w') = map user_id (users w).
Proof.
  intros PEM Hf [(pub & prv & V)|(Hk & kp & w1 & Hg)].
  - exists u, w, pub, prv.
    destruct V as (K & Hp & e & w0 & w1 & He & Hs).
    destruct (PEM _ _ K) as [Hne _].
    split; [|repeat split; try assumption; eauto 8].
    unfold ensureKeyPair, bind, User_findById. rewrite Hf.
    unfold ensureUserKeys. rewrite Hp, Hs.
    now rewrite truthy_Some, storedPrivateKey_truthy.
  - assert (Hid : user_id u = id).
    { apply find_some in Hf as [_ H]. now apply String.eqb_eq. }
    assert (Hin : existsb (fun x => user_id x =? id) (users w) = true).
    { apply existsb_exists. exists u. now apply find_some in Hf. }
    destruct (generateRSAKeyPair_frame w w1 kp Hg) as (g & ->).
    pose proof (generateRSAKeyPair_KeyPair _ _ _ Hg) as K.
    set (w1 := mkWorld g (clock w) (env w) (users w) (applications w)) in *.
    pose proof (encryptAES_run (Rsa.privateKey kp) (secretOf w) w1) as He.
    cbv zeta in He.
    match type of He with
    | _ = (Ok ?x, ?y) => set (e := x) in *; set (w2 := y) in *
    end.
    set (u' := mkUser (user_id u) (email u) (fullName u)
                 (Some (Rsa.publicKey kp)) (Some (storedPrivateKey e))).
    set (f := fun x => if user_id x =? user_id u'
                       then mkUser (user_id x) (email x) (fullName x)
                              (publicKey u') (privateKey u')
                       else x).
    exists u', (setUsers (map f (users w)) w2),
      (Rsa.publicKey kp), (Rsa.privateKey kp).
    split; [|split; [|split; [|repeat split]]].
    + unfold ensureKeyPair, bind at 1, User_findById. rewrite Hf.
      unfold ensureUserKeys. rewrite Hk.
      unfold bind at 1. rewrite Hg.
      unfold bind at 1, AES_SECRET, bind at 1, getenv, ret.
      change (env w1) with (env w). fold (secretOf w).
      unfold bind at 1. rewrite He.
      unfold bind, User_saveKeys, ret. fold (storedPrivateKey e). fold u'.
      change (users w2) with (users w). change (user_id u') with (user_id u).
      rewrite Hid, Hin. unfold f. change (user_id u') with (user_id u).
      rewrite Hid. reflexivity.
    + split; [exact K|]. split; [reflexivity|].
      exists e, w1, w2. split; [exact He|reflexivity].
    + cbn [users setUsers]. rewrite find_map_same.
      * rewrite Hf. cbn [option_map]. unfold f.
        cbn [user_id]. now rewrite String.eqb_refl.
      * intros x. unfold f. now destruct (user_id x =? user_id u').
    + cbn [users setUsers]. rewrite map_map. apply map_ext.
      intros x. unfold f. now destruct (user_id x =? user_id u').
Qed.

(** What [hybridEncrypt] returns for a generated public key opens under
    the private key; its three fields are text. *)
Lemma hybrid_sealed (payload pub prv : string) (w : World) :
  Base64_law -> Buffer_base64_law -> Buffer_utf8_law -> AES_law -> RSA_law ->
  Base64_text_law ->
  KeyPair pub prv -> wellFormed payload = true ->
  exists e w',
    hybridEncrypt payload pub w = (Ok e, w') /\
    clock w' = clock w /\ env w' = env w /\ users w' = users w /\
    applications w' = applications w /\
    wellFormed (Hybrid.encryptedData e) = true /\
    wellFormed (Hybrid.encryptedKey e) = true /\
    wellFormed (Hybrid.iv e) = true /\
    forall wD,
      hybridDecrypt (Hybrid.encryptedData e) (Hybrid.encryptedKey e)
        (Hybrid.iv e) prv wD
      = (Ok payload, wD).
Proof.
  intros B64 BB BU A R T K Hp.
  destruct (hybridEncrypt_run payload pub w) as (e & w2 & He & Hrun).
  pose proof (encryptAES_opens _ _ _ _ _ B64 A Hp He) as Hdec.
  destruct (wellFormed_encryptedData _ _ _ _ _ T He) as [Wd Wi].
  pose proof He as Hw. rewrite encryptAES_run in Hw.
  apply (f_equal snd) in Hw. cbn [snd] in Hw.
  destruct (R _ _ K (Buffer_from_utf8 (sessionKey w)) (rng w2))
    as (c & g & Hc & Hd).
  { unfold Buffer_from_utf8.
    rewrite list_byte_of_string_length, sessionKey_length. lia. }
  rewrite Hc in Hrun.
  eexists _, _. split; [exact Hrun|].
  cbn [clock env users applications Hybrid.encryptedData Hybrid.encryptedKey
       Hybrid.iv].
  rewrite <- Hw. cbn [clock env users applications afterDraw].
  repeat split; try assumption; try apply T.
  intros wD.
  rewrite hybridDecrypt_run, BB, Hd, BU by apply sessionKey_wellFormed.
  now rewrite Hdec.
Qed.

End VaultFacts.

(* ================================================================== *)
(** * Documents: upload, download, verification, deletion *)
(* ================================================================== *)

Lemma find_snoc_fresh (id : string) (ds : list Doc.t) (d : Doc.t) :
  ~ In id (map docId ds) -> docId d = id ->
  find (fun x => docId x =? id) (ds ++ [d]) = Some d.
Proof.
  intros Hn Hd. induction ds as [|x ds IH]; cbn [app find].
  - now rewrite Hd, String.eqb_refl.
  - destruct (String.eqb_spec (docId x) id) as [E|E].
    + exfalso. apply Hn. left. exact E.
    + apply IH. intros H. apply Hn. now right.
Qed.

Section DocumentFacts.
Context {P : Primitives} {F : Platform}.

Lemma ensureKeyPair_vaulted (id : string) (w : World) (u : User)
    (pub prv : string) :
  PEM_law ->
  find (fun x => user_id x =? id) (users w) = Some u ->
  Vaulted (secretOf w) u pub prv ->
  ensureKeyPair id w = (Ok u, w).
Proof.
  intros PEM Hf (K & Hp & e & w0 & w1 & He & Hs).
  destruct (PEM _ _ K) as [Hne _].
  unfold ensureKeyPair, bind, User_findById. rewrite Hf.
  unfold ensureUserKeys. rewrite Hp, Hs.
  now rewrite truthy_Some, storedPrivateKey_truthy.
Qed.

(** A sealed document opens to its content and the store stays as it
    is. *)
Lemma openDocument_sealed (p : Portal) (doc : Doc.t) (content : bytes) :
  DocumentLaws -> Sealed p doc content ->
  exists owner pub,
    openDocument doc p = Some (Ok (owner, content), p) /\
    publicKey owner = Some pub /\
    (forall w,
       verifyDigitalSignature (DString (documentHash (Doc.document doc)))
         (digitalSignature (Doc.document doc)) pub w
       = (Ok true, w)).
Proof.
  intros (B & BB & BU & A & PEM & R & S & J & T & O & PL)
    (owner & pub & prv & data & encryptedKey & iv & Hu & V & Hfile & _
     & Wd & Wk & Wi & Hopen & _ & Hsig).
  exists owner, pub. split; [|split; [apply V|exact Hsig]].
  unfold openDocument.
  unfold bindA at 1. unfold fs_readFile. rewrite Hfile. cbn [snd].
  rewrite (bindA_liftA _ _ _ _ (proj2 J _ _ _ Wd Wk Wi)).
  rewrite (bindA_inWorld _ _ _ _ _ (ensureKeyPair_vaulted _ _ _ _ _ PEM Hu V)).
  rewrite setWorld_world.
  unfold bindA at 1. rewrite (unlock_vaulted owner pub prv p B A PEM J T V).
  rewrite (asString_read "data" _ data) by reflexivity.
  rewrite (asString_read "encryptedKey" _ encryptedKey) by reflexivity.
  rewrite (asString_read "iv" _ iv) by reflexivity.
  rewrite (bindA_inWorld _ _ _ _ _ (Hopen (world p))).
  rewrite setWorld_world.
  unfold bindA, inWorld, decodeBase64, try_rethrow, ret, retA, fileText.
  rewrite BB, BU by apply Buffer_toString_binary_wellFormed.
  now rewrite setWorld_world, Buffer_binary_roundtrip.
Qed.

(** [POST /upload] for a student with a draft application of their own,
    up to the call of [Document.create]: the keys are vaulted, the
    encrypted file is written, and the answer is decided by what
    [Document.create] does. *)
Lemma postUpload_stores (req : Req.t) (student : Requester.t) (file : File.t)
    (application_id : string) (document_type : option string) (p : Portal)
    (a : Application) (u : User) :
  DocumentLaws ->
  Req.user req = Some student ->
  find (fun x => (app_id x =? application_id)
                 && (userId x =? Requester.id student))
    (applications (world p)) = Some a ->
  status a = "draft" ->
  find (fun x => user_id x =? Requester.id student) (users (world p)) = Some u ->
  (exists pub prv, Vaulted (secretOf (world p)) u pub prv) \/
  (truthy (publicKey u) && truthy (privateKey u) = false /\
   exists kp w1, generateRSAKeyPair (world p) = (Ok kp, w1)) ->
  exists u' pub prv e sig path w3,
    let hash := createHashSHA512 (DBuffer (File.buffer file)) in
    let stored :=
      JSON_stringify
        [ ("data", JString (Hybrid.encryptedData e));
          ("encryptedKey", JString (Hybrid.encryptedKey e));
          ("iv", JString (Hybrid.iv e)) ] in
    let q :=
      mkPortal w3 (documents p)
        ((path, stored) :: filter (fun f => negb (fst f =? path)) (files p))
        (auditLogs p) in
    postUpload req (Some file) application_id document_type p
    = match
        Document_create application_id (Requester.id student) document_type
          (File.originalname file) (File.size file) path stored hash sig q
      with
      | Some (Ok doc, p') =>
          Some (Success 201
                  (Receipt.mk (docId doc) (File.originalname file) document_type
                     hash sig),
                p')
      | Some (Throw _, p') => Some (Failure 500 "Failed to upload document", p')
      | None => None
      end /\
    path <> "" /\
    clock w3 = clock (world p) /\
    applications w3 = applications (world p) /\
    secretOf w3 = secretOf (world p) /\
    find (fun x => user_id x =? Requester.id student) (users w3) = Some u' /\
    Vaulted (secretOf (world p)) u' pub prv /\
    wellFormed (Hybrid.encryptedData e) = true /\
    wellFormed (Hybrid.encryptedKey e) = true /\
    wellFormed (Hybrid.iv e) = true /\
    (forall wD,
       hybridDecrypt (Hybrid.encryptedData e) (Hybrid.encryptedKey e)
         (Hybrid.iv e) prv wD
       = (Ok (fileText (File.buffer file)), wD)) /\
    (forall wV,
       verifyDigitalSignature (DString hash) sig pub wV = (Ok true, wV)).
Proof.
  intros L Hreq Ha Hst Hu Hkeys.
  pose proof L as (B & BB & BU & A & PEM & R & S & J & T & O & PL).
  destruct (ensureKeyPair_vaults (Requester.id student) (world p) u PEM Hu Hkeys)
    as (u' & w1 & pub & prv & Hens & V & Hu' & Hc1 & He1 & Ha1 & _).
  pose proof V as (K & Hpub & _).
  assert (Wt : wellFormed (fileText (File.buffer file)) = true) by apply T.
  destruct (hybrid_sealed (fileText (File.buffer file)) pub prv w1
              B BB BU A R T K Wt)
    as (e & w2 & Henc & Hc2 & He2 & Hu2 & Ha2 & Wd & Wk & Wi & Hopen).
  destruct (sign_then_verify
              (DString (createHashSHA512 (DBuffer (File.buffer file))))
              (DString (createHashSHA512 (DBuffer (File.buffer file))))
              pub prv w2 BB S K eq_refl)
    as (sig & Hsign & Hverify).
  destruct (uuidv4 (rng w2)) as [uuid g3] eqn:Huuid.
  set (w3 := mkWorld g3 (clock w2) (env w2) (users w2) (applications w2)).
  set (path := path_join uploadsDir (uuid ++ path_extname (File.originalname file))).
  assert (Hsec : secretOf w2 = secretOf (world p))
    by (unfold secretOf; now rewrite He2, He1).
  exists u', pub, prv, e, sig, path, w3. cbv zeta.
  refine (conj _ (conj (PL _ _) (conj _ (conj _ (conj Hsec (conj _ (conj V
           (conj Wd (conj Wk (conj Wi (conj Hopen Hverify))))))))))).
  - unfold postUpload, routeA. rewrite Hreq.
    assert (Hfind : Application_findOwned application_id (Requester.id student)
                      (world p) = (Ok (Some a), world p))
      by (unfold Application_findOwned; now rewrite Ha).
    rewrite (bindA_inWorld _ _ _ _ _ Hfind), setWorld_world.
    rewrite Hst. change (negb ("draft" =? "draft")) with false. cbv iota.
    assert (Hb64 : encodeBase64 (Buffer_toString_binary (File.buffer file))
                     (world p)
                   = (Ok (fileText (File.buffer file)), world p))
      by reflexivity.
    rewrite (bindA_inWorld _ _ _ _ _ Hb64), setWorld_world.
    rewrite (bindA_inWorld _ _ _ _ _ Hens).
    rewrite Hpub. unfold keyOf at 1.
    change (bindA (retA pub) ?k ?q) with (k pub q). cbv beta.
    rewrite (bindA_inWorld _ _ (setWorld w1 p) _ _ Henc).
    unfold bindA at 1.
    rewrite (unlock_vaulted u' pub prv (setWorld w2 (setWorld w1 p)) B A PEM J T)
      by (cbn [world setWorld]; now rewrite Hsec).
    rewrite (bindA_inWorld _ _ (setWorld w2 (setWorld w1 p)) _ _ Hsign).
    unfold bindA at 1, inWorld at 1, withRng.
    cbn [world setWorld rng]. rewrite Huuid.
    fold w3. fold path.
    unfold bindA at 1, fs_writeFile. cbn [setFiles setWorld world documents files
                                         auditLogs].
    unfold bindA at 1.
    destruct (Document_create _ _ _ _ _ _ _ _ _ _) as [[[doc|m] p']|];
      reflexivity.
  - cbn [clock w3]. now rewrite Hc2, Hc1.
  - cbn [applications w3]. now rewrite Ha2, Ha1.
  - cbn [users w3]. now rewrite Hu2.
Qed.

(** What [POST /upload] does for a student with a draft application of
    their own, a named file and a document type of the schema: 201, one
    new document under a fresh id, sealed. *)
Lemma postUpload_seals (req : Req.t) (student : Requester.t) (file : File.t)
    (application_id documentType : string) (p : Portal)
    (a : Application) (u : User) :
  DocumentLaws ->
  Req.user req = Some student ->
  File.originalname file <> "" ->
  In documentType documentTypes ->
  find (fun x => (app_id x =? application_id)
                 && (userId x =? Requester.id student))
    (applications (world p)) = Some a ->
  status a = "draft" ->
  find (fun x => user_id x =? Requester.id student) (users (world p)) = Some u ->
  (exists pub prv, Vaulted (secretOf (world p)) u pub prv) \/
  (truthy (publicKey u) && truthy (privateKey u) = false /\
   exists kp w1, generateRSAKeyPair (world p) = (Ok kp, w1)) ->
  exists receipt doc p',
    postUpload req (Some file) application_id (Some documentType) p
    = Some (Success 201 receipt, p') /\
    documents p' = (documents p ++ [doc])%list /\
    ~ In (docId doc) (map docId (documents p)) /\
    docId doc = Receipt.id receipt /\
    Doc.userId doc = Requester.id student /\
    Doc.applicationId doc = application_id /\
    Receipt.hash receipt = createHashSHA512 (DBuffer (File.buffer file)) /\
    Receipt.filename receipt = File.originalname file /\
    Receipt.hash receipt = documentHash (Doc.document doc) /\
    Receipt.signature receipt = digitalSignature (Doc.document doc) /\
    fileName (Doc.document doc) = File.originalname file /\
    applications (world p') = applications (world p) /\
    auditLogs p' = auditLogs p /\
    Sealed p' doc (File.buffer file).
Proof.
  intros L Hreq Hname Htype Ha Hst Hu Hkeys.
  pose proof L as (_ & _ & _ & _ & _ & _ & _ & _ & _ & O & _).
  destruct (postUpload_stores req student file application_id (Some documentType)
              p a u L Hreq Ha Hst Hu Hkeys)
    as (u' & pub & prv & e & sig & path & w3 & Hrun & Hpath & Hc & Happ & Hsec
        & Hu' & V & Wd & Wk & Wi & Hopen & Hverify).
  cbv zeta in Hrun.
  set (hash := createHashSHA512 (DBuffer (File.buffer file))) in *.
  set (stored :=
         JSON_stringify
           [ ("data", JString (Hybrid.encryptedData e));
             ("encryptedKey", JString (Hybrid.encryptedKey e));
             ("iv", JString (Hybrid.iv e)) ]) in *.
  set (doc :=
         Doc.mk
           (mkDocument (ObjectId_new (map docId (documents p)))
              (File.originalname file) hash sig)
           application_id (Requester.id student) (Some documentType)
           (File.size file) path (Some stored) (clock w3)).
  set (p' :=
         mkPortal w3 (documents p ++ [doc])%list
           ((path, stored) :: filter (fun f => negb (fst f =? path)) (files p))
           (auditLogs p)).
  exists (Receipt.mk (docId doc) (File.originalname file) (Some documentType)
            hash sig),
    doc, p'.
  split; [|repeat split; try reflexivity].
  - rewrite Hrun. unfold Document_create.
    apply existsb_eqb_In in Htype. rewrite Htype.
    apply String.eqb_neq in Hname, Hpath. rewrite Hname, Hpath.
    cbn [negb andb]. reflexivity.
  - apply O.
  - exact Happ.
  - exists u', pub, prv, (Hybrid.encryptedData e), (Hybrid.encryptedKey e),
      (Hybrid.iv e).
    cbn [Doc.userId doc world p' files Doc.filePath Doc.encryptedData
         Doc.document documentHash digitalSignature].
    rewrite Hsec.
    refine (conj Hu' (conj V (conj _ (conj eq_refl (conj Wd (conj Wk
              (conj Wi (conj Hopen (conj eq_refl Hverify))))))))).
    cbn [find fst]. now rewrite String.eqb_refl.
Qed.

End DocumentFacts.

Section DocumentRoutes.
Context {P : Primitives} {F : Platform}.


(** Being sealed is a matter of the users, the secret and the files. *)
Lemma Sealed_agree (p p2 : Portal) (doc : Doc.t) (content : bytes) :
  world p2 = world p -> files p2 = files p ->
  Sealed p doc content -> Sealed p2 doc content.
Proof. unfold Sealed. intros -> ->. exact (fun H => H). Qed.


(** X18.  Upload, then verify, handler by handler.  In the same situation the
    handler of [GET /documents/:id/verify] reports a valid signature, no
    tampering, the stored hash equal to the hash of what it decrypted,
    and as many decrypted bytes as were uploaded; the [iv] it shows is the
    string under [iv] in the [encryptedData] of the stored document.  It
    changes nothing. *)
Theorem upload_then_verify (req : Req.t) (requester : Requester.t)
    (file : File.t) (application_id documentType : string)
    (p : Portal) (a : Application) (u : User) :
  DocumentLaws ->
  isObjectId application_id = true ->
  Req.user req = Some requester ->
  File.originalname file <> "" ->
  In documentType documentTypes ->
  find (fun x => (app_id x =? application_id)
                 && (userId x =? Requester.id requester))
    (applications (world p)) = Some a ->
  status a = "draft" ->
  find (fun x => user_id x =? Requester.id requester) (users (world p))
  = Some u ->
  (exists pub prv, Vaulted (secretOf (world p)) u pub prv) \/
  (truthy (publicKey u) && truthy (privateKey u) = false /\
   exists kp w1, generateRSAKeyPair (world p) = (Ok kp, w1)) ->
  exists receipt p' doc data encryptedKey iv,
    postUpload req (Some file) application_id (Some documentType) p
    = Some (Success 201 receipt, p') /\
    find (fun d => docId d =? Receipt.id receipt) (documents p') = Some doc /\
    Doc.encryptedData doc
    = Some (JSON_stringify
              [ ("data", JString data); ("encryptedKey", JString encryptedKey);
                ("iv", JString iv) ]) /\
    forall p2,
      world p2 = world p' -> documents p2 = documents p' ->
      files p2 = files p' ->
      exists report,
        getDocumentVerify (Receipt.id receipt) p2
        = Some (Success 200 report, p2) /\
        Report.documentId report = Receipt.id receipt /\
        Report.filename report = File.originalname file /\
        Verification.signatureValid (Report.verification report) = true /\
        Verification.isTampered (Report.verification report) = false /\
        Verification.documentHash (Report.verification report)
        = Receipt.hash receipt /\
        Verification.currentHash (Report.verification report)
        = Receipt.hash receipt /\
        Verification.signature (Report.verification report)
        = Receipt.signature receipt /\
        Report.iv report = Some (JsonString iv) /\
        Report.decryptedBytes report = length (File.buffer file).
Proof.
  intros L _ Hreq Hname Htype Ha Hst Hu Hkeys.
  destruct (postUpload_seals req requester file application_id documentType p
              a u L Hreq Hname Htype Ha Hst Hu Hkeys)
    as (receipt & doc & p' & Hup & Hdocs & Hfresh & Hid & _ & _ & Hh & Hn & Hrh
        & Hrs & Hfn & Happ & Hlog & Hs).
  assert (Hdoc : find (fun d => docId d =? Receipt.id receipt) (documents p')
                 = Some doc).
  { rewrite Hdocs. apply find_snoc_fresh; [|exact Hid]. now rewrite <- Hid. }
  pose proof L as (_ & _ & _ & _ & _ & _ & _ & J & _ & _ & _).
  pose proof Hs as (_ & _ & _ & data & ek & iv & _ & _ & _ & Henc & Wd & Wk & Wi
                    & _ & Hhash & _).
  exists receipt, p', doc, data, ek, iv.
  do 3 (split; [assumption|]).
  intros p2 Hw Hd Hf.
  apply (Sealed_agree p' p2 doc _ Hw Hf) in Hs.
  rewrite <- Hd in Hdoc.
  destruct (openDocument_sealed p2 doc (File.buffer file) L Hs)
    as (owner & pub & Ho & Hp & Hv).
  eexists. split.
  - unfold getDocumentVerify, routeA.
    unfold bindA at 1, Document_findById. rewrite Hdoc.
    unfold bindA at 1. rewrite Ho. rewrite Hp. unfold keyOf.
    change (bindA (retA pub) ?k p2) with (k pub p2). cbv beta.
    unfold bindA at 1, inWorld, verifyChecked, bind, andThen.
    rewrite Hhash in Hv |- *. rewrite String.eqb_refl, Hv.
    unfold ret. rewrite setWorld_world.
    rewrite Henc. unfold orElse, truthy, template.
    assert (Hne : forall f, (JSON_stringify f =? "") = false) by reflexivity.
    rewrite Hne. cbn [negb].
    rewrite (proj2 J _ _ _ Wd Wk Wi). reflexivity.
  - cbn [Report.documentId Report.filename Report.verification Report.iv
         Report.decryptedBytes Verification.signatureValid
         Verification.isTampered Verification.documentHash
         Verification.currentHash Verification.signature].
    rewrite Hid, Hfn, Hrh, Hrs, Hhash. repeat split.
Qed.


End DocumentRoutes.

Section DocumentSafety.
Context {P : Primitives} {F : Platform}.

Lemma ensureKeyPair_returns_id (id : string) (w w' : World) (u : User) :
  ensureKeyPair id w = (Ok u, w') -> user_id u = id.
Proof.
  unfold ensureKeyPair, bind at 1, User_findById.
  destruct (find (fun x => user_id x =? id) (users w)) as [u0|] eqn:Hf.
  - destruct (find_some _ _ Hf) as [_ Hid]. apply String.eqb_eq in Hid.
    unfold ensureUserKeys.
    destruct (truthy (publicKey u0) && truthy (privateKey u0)).
    + unfold ret. now intros [= <- _].
    + unfold bind at 1. destruct (generateRSAKeyPair w) as [[kp|m] w1];
        [|discriminate].
      unfold bind at 1, AES_SECRET, bind at 1, getenv, ret.
      unfold bind at 1. rewrite encryptAES_run. cbv zeta.
      unfold bind, User_saveKeys, ret.
      destruct (existsb _ _); [|discriminate].
      now intros [= <- _].
  - unfold ensureUserKeys.
    unfold bind at 1. destruct (generateRSAKeyPair w) as [[kp|m] w1];
      [|discriminate].
    unfold bind at 1, AES_SECRET, bind at 1, getenv, ret.
    unfold bind at 1. rewrite encryptAES_run. cbv zeta.
    unfold throw. discriminate.
Qed.

(** The user [ensureKeyPair] returns is the one stored under the id when
    it returns. *)
Lemma ensureKeyPair_stored (id : string) (w w' : World) (u : User) :
  ensureKeyPair id w = (Ok u, w') ->
  find (fun x => user_id x =? id) (users w') = Some u.
Proof.
  unfold ensureKeyPair, bind at 1, User_findById.
  destruct (find (fun x => user_id x =? id) (users w)) as [u0|] eqn:Hf.
  - destruct (find_some _ _ Hf) as [Hin Hid]. apply String.eqb_eq in Hid.
    unfold ensureUserKeys.
    destruct (truthy (publicKey u0) && truthy (privateKey u0)).
    + unfold ret. intros [= <- <-]. exact Hf.
    + unfold bind at 1. destruct (generateRSAKeyPair w) as [[kp|m] w1] eqn:Hg;
        [|discriminate].
      destruct (generateRSAKeyPair_frame w w1 kp Hg) as (g & ->).
      unfold bind at 1, AES_SECRET, bind at 1, getenv, ret.
      unfold bind at 1. rewrite encryptAES_run. cbv zeta.
      unfold bind, User_saveKeys, ret.
      cbn [users user_id publicKey privateKey].
      destruct (existsb _ _); [|discriminate].
      intros [= <- <-]. cbn [users setUsers].
      rewrite find_map_same.
      * rewrite Hf. cbn [option_map]. rewrite Hid.
        now rewrite String.eqb_refl.
      * intros x. now destruct (user_id x =? user_id u0).
  - unfold ensureUserKeys.
    unfold bind at 1. destruct (generateRSAKeyPair w) as [[kp|m] w1];
      [|discriminate].
    unfold bind at 1, AES_SECRET, bind at 1, getenv, ret.
    unfold bind at 1. rewrite encryptAES_run. cbv zeta.
    unfold throw. discriminate.
Qed.

(** The owner [openDocument] returns is what [ensureKeyPair] returned for
    the [userId] of the document, in the world [openDocument] began
    with. *)
Lemma openDocument_owner (doc : Doc.t) (p p' : Portal) (owner : User)
    (content : bytes) :
  openDocument doc p = Some (Ok (owner, content), p') ->
  exists w1, ensureKeyPair (Doc.userId doc) (world p) = (Ok owner, w1).
Proof.
  unfold openDocument.
  unfold bindA at 1, fs_readFile.
  destruct (find (fun f => fst f =? Doc.filePath doc) (files p)) as [f|];
    [|discriminate].
  unfold bindA at 1, liftA.
  destruct (JSON_parse (snd f)) as [j|m]; [|discriminate].
  unfold bindA at 1, inWorld at 1.
  destruct (ensureKeyPair (Doc.userId doc) (world p)) as [[o|m] w1] eqn:E;
    [|discriminate].
  unfold bindA at 1. destruct (unlockPrivateKey o _) as [[[sk|m] p2]|];
    [|discriminate..].
  repeat (unfold bindA at 1;
          match goal with
          | |- context [match ?c ?q with _ => _ end] =>
              destruct (c q) as [[[?|?] ?]|]; [|discriminate..]
          end).
  unfold retA. intros [= <- _ _]. now exists w1.
Qed.

(** X20.  What the handler of [GET /documents/:id] serves is intact: whenever it
    answers 200 with some bytes, the requester is an [admin] or
    [officer], a document with that id is stored, the SHA-512 of the
    bytes is its stored hash, and its stored signature verifies for that
    hash under the public key of the owner: the user that
    [ensureUserKeys] returned for the [userId] of the document, who is
    stored under that id once it has returned. *)
Theorem download_serves_only_intact (req : Req.t) (id : string) (p p' : Portal)
    (content : bytes) :
  getDocument req id p = Some (Success 200 content, p') ->
  exists doc staff owner pub w1,
    find (fun d => docId d =? id) (documents p) = Some doc /\
    Req.user req = Some staff /\
    (Requester.role staff = "admin" \/ Requester.role staff = "officer") /\
    ensureKeyPair (Doc.userId doc) (world p) = (Ok owner, w1) /\
    find (fun x => user_id x =? Doc.userId doc) (users w1) = Some owner /\
    publicKey owner = Some pub /\
    createHashSHA512 (DBuffer content) = documentHash (Doc.document doc) /\
    verifies (Buffer_from_utf8 (documentHash (Doc.document doc))) pub
      (Buffer_from_base64 (digitalSignature (Doc.document doc))) = true.
Proof.
  unfold getDocument, routeA.
  unfold bindA at 1, Document_findById.
  destruct (find (fun d => docId d =? id) (documents p)) as [doc|] eqn:Hdoc;
    [|discriminate].
  destruct (Req.user req) as [staff|] eqn:Hreq; [|discriminate].
  destruct (existsb (String.eqb (Requester.role staff)) ["admin"; "officer"])
    eqn:Hrole; cbn [negb]; [|discriminate].
  unfold bindA at 1.
  destruct (openDocument doc p) as [[[[owner buf]|m] p1]|] eqn:Ho;
    [|discriminate..].
  apply openDocument_owner in Ho as (w1 & Ho).
  pose proof (ensureKeyPair_stored _ _ _ _ Ho) as Hst.
  destruct (publicKey owner) as [pub|] eqn:Hp; [|discriminate].
  unfold keyOf. change (bindA (retA pub) ?k p1) with (k pub p1). cbv beta.
  unfold bindA at 1, inWorld, downloadChecked, bind, andThen.
  destruct (String.eqb_spec (createHashSHA512 (DBuffer buf))
              (documentHash (Doc.document doc))) as [E|E].
  - rewrite verifyDigitalSignature_run. cbn [toBuffer]. rewrite E.
    destruct (verifies _ _ _) eqn:V; cbn [negb]; unfold ret; [|discriminate].
    destruct (headerSafe _); cbn [negb]; [|discriminate].
    intros [= <- _].
    exists doc, staff, owner, pub, w1. repeat split; try assumption.
    apply existsb_eqb_In in Hrole.
    destruct Hrole as [H|[H|[]]]; [left|right]; now symmetry.
  - unfold ret. cbn [negb]. discriminate.
Qed.

(** X21.  [GET /documents/:id] decrypts for [admin] and [officer] only: any
    other requester, the owner of the document included, is answered 403
    and nothing changes.  The lookup comes first, so for the text of an
    [ObjectId] that is not stored the answer is 404 whoever asks. *)
Theorem download_staff_only (req : Req.t) (requester : Requester.t)
    (id : string) (p : Portal) :
  isObjectId id = true ->
  Req.user req = Some requester ->
  Requester.role requester <> "admin" ->
  Requester.role requester <> "officer" ->
  getDocument req id p =
  match find (fun d => docId d =? id) (documents p) with
  | Some _ => Some (Failure 403 "Access denied", p)
  | None => Some (Failure 404 "Document not found", p)
  end.
Proof.
  intros _ Hreq Ha Ho. unfold getDocument, routeA, bindA, Document_findById.
  destruct (find _ _); [|reflexivity]. rewrite Hreq. cbn [existsb].
  apply String.eqb_neq in Ha, Ho. now rewrite Ha, Ho.
Qed.

Lemma removeFirst_other (id : string) (ds : list Doc.t) (d : Doc.t) :
  docId d <> id -> (In d (removeFirst id ds) <-> In d ds).
Proof.
  intros Hne. induction ds as [|x ds IH]; [reflexivity|].
  cbn [removeFirst]. destruct (String.eqb_spec (docId x) id) as [E|E].
  - split; [now right|]. intros [->|H]; [contradiction|exact H].
  - cbn [In]. now rewrite IH.
Qed.

Lemma removeFirst_length (id : string) (ds : list Doc.t) (d : Doc.t) :
  find (fun x => docId x =? id) ds = Some d ->
  S (length (removeFirst id ds)) = length ds.
Proof.
  induction ds as [|x ds IH]; [discriminate|].
  cbn [find removeFirst]. destruct (docId x =? id); [reflexivity|].
  intros H. cbn [length]. now rewrite IH.
Qed.

(** X22.  [DELETE /documents/:id], for the text of an [ObjectId], removes a
    document only for its owner, and then removes only the record: the
    encrypted file stays where [POST /upload] wrote it, and every other
    document stays.  For anyone else, and for an id that is not stored,
    the answer is 403 and nothing changes. *)
Theorem deleteDocument_owner_only (req : Req.t) (requester : Requester.t)
    (id : string) (p : Portal) :
  isObjectId id = true ->
  Req.user req = Some requester ->
  exists r p',
    deleteDocument req id p = Some (r, p') /\
    world p' = world p /\ files p' = files p /\ auditLogs p' = auditLogs p /\
    (r = Success 200 tt <->
     exists doc,
       find (fun d => docId d =? id) (documents p) = Some doc /\
       Doc.userId doc = Requester.id requester) /\
    (r = Success 200 tt ->
     S (length (documents p')) = length (documents p) /\
     forall d, docId d <> id -> (In d (documents p') <-> In d (documents p))) /\
    (r <> Success 200 tt -> r = Failure 403 "Access denied" /\ p' = p).
Proof.
  intros _ Hreq. unfold deleteDocument, routeA.
  unfold bindA at 1, Document_findById. rewrite Hreq.
  destruct (find (fun d => docId d =? id) (documents p)) as [doc|] eqn:Hdoc.
  - destruct (String.eqb_spec (Doc.userId doc) (Requester.id requester)) as [E|E];
      cbn [negb].
    + eexists _, _. split; [reflexivity|].
      cbn [world files auditLogs documents setDocuments].
      repeat split; eauto.
      * now apply removeFirst_length with (d := doc).
      * now apply removeFirst_other.
      * now apply removeFirst_other.
      * contradiction.
      * contradiction.
    + eexists _, _. split; [reflexivity|].
      repeat split; try discriminate.
      intros (d & [= <-] & H). contradiction.
  - eexists _, _. split; [reflexivity|].
    repeat split; try discriminate.
    intros (d & [=] & _).
Qed.

(** X23.  [POST /upload] refuses, and changes nothing, when no file came with
    the request (400), when the application (named by the text of an
    [ObjectId]) is not the requester's own or does not exist (403), and
    when the application is no longer a draft (400). *)
Theorem upload_refusals (req : Req.t) (requester : Requester.t)
    (file : File.t) (application_id : string) (document_type : option string)
    (p : Portal) :
  Req.user req = Some requester ->
  let owned :=
    find (fun x => (app_id x =? application_id)
                   && (userId x =? Requester.id requester))
      (applications (world p)) in
  postUpload req None application_id document_type p
  = Some (Failure 400 "No file uploaded", p) /\
  (isObjectId application_id = true -> owned = None ->
   postUpload req (Some file) application_id document_type p
   = Some (Failure 403 "Application not found or access denied", p)) /\
  (forall a,
     owned = Some a -> status a <> "draft" ->
     postUpload req (Some file) application_id document_type p
     = Some (Failure 400 "Cannot upload documents to submitted application",
             p)).
Proof.
  intros Hreq. cbv zeta. split; [reflexivity|]. split.
  - intros _ Ha. unfold postUpload, routeA. rewrite Hreq.
    unfold bindA, inWorld, Application_findOwned. rewrite Ha.
    cbn [retA]. now rewrite setWorld_world.
  - intros a Ha Hs. apply String.eqb_neq in Hs.
    unfold postUpload, routeA. rewrite Hreq.
    unfold bindA, inWorld, Application_findOwned. rewrite Ha, Hs.
    cbn [negb retA]. now rewrite setWorld_world.
Qed.

End DocumentSafety.

Section KeyVaultFacts.
Context {P : Primitives} {F : Platform}.

(** X24.  For the text of an [ObjectId] that no stored user has, [ensureKeyPair]
    throws: the error of the key generation when that fails, and
    otherwise, after it has generated and encrypted a key pair, the
    [TypeError] of the assignment to [null].  Users and applications stay
    as they were. *)
Theorem ensureKeyPair_unknown_user (id : string) (w : World) :
  isObjectId id = true ->
  find (fun x => user_id x =? id) (users w) = None ->
  exists m w',
    ensureKeyPair id w = (Throw m, w') /\
    users w' = users w /\ applications w' = applications w /\
    (forall kp w1,
       generateRSAKeyPair w = (Ok kp, w1) ->
       m = "Cannot set properties of null (setting 'publicKey')").
Proof.
  intros _ Hf. unfold ensureKeyPair, bind at 1, User_findById. rewrite Hf.
  unfold ensureUserKeys. unfold bind at 1.
  destruct (generateRSAKeyPair w) as [[kp|m] w1] eqn:Hg.
  - destruct (generateRSAKeyPair_frame w w1 kp Hg) as (g & ->).
    unfold bind at 1, AES_SECRET, bind at 1, getenv, ret.
    unfold bind at 1. rewrite encryptAES_run. cbv zeta. unfold throw.
    eexists _, _. split; [reflexivity|]. repeat split.
  - eexists _, _. split; [reflexivity|].
    assert (Hw : users w1 = users w /\ applications w1 = applications w).
    { revert Hg. unfold generateRSAKeyPair, try_rethrow, bind, withRng, ret.
      destruct (generateKeyPairSync (rng w)) as [[[pk sk]|m'] g];
        [discriminate|].
      intros [= _ <-]. split; reflexivity. }
    destruct Hw. repeat split; try assumption. discriminate.
Qed.

(** X25.  The key vault round trip: after [ensureKeyPair] for a user without
    keys, the stored [privateKey], parsed and decrypted as the routes do,
    is the private key of the pair whose public key is stored beside
    it. *)
Theorem vault_roundtrip (id : string) (w : World) (u : User) (kp : Rsa.t)
    (w1 : World) :
  Base64_law -> AES_law -> PEM_law -> JSON_law -> Base64_text_law ->
  find (fun x => user_id x =? id) (users w) = Some u ->
  truthy (publicKey u) && truthy (privateKey u) = false ->
  generateRSAKeyPair w = (Ok kp, w1) ->
  exists u' w' pub prv,
    ensureKeyPair id w = (Ok u', w') /\
    find (fun x => user_id x =? id) (users w') = Some u' /\
    publicKey u' = Some pub /\ KeyPair pub prv /\
    forall p, world p = w' -> unlockPrivateKey u' p = Some (Ok prv, p).
Proof.
  intros B A PEM J T Hf Hk Hg.
  destruct (ensureKeyPair_vaults id w u PEM Hf) as
    (u' & w' & pub & prv & He & V & Hu' & _ & Henv & _); [right; eauto|].
  exists u', w', pub, prv.
  split; [exact He|]. split; [exact Hu'|].
  split; [apply V|]. split; [apply V|].
  intros p Hp. apply (unlock_vaulted u' pub prv p B A PEM J T).
  unfold secretOf in *. now rewrite Hp, Henv.
Qed.

End KeyVaultFacts.

(* ================================================================== *)
(** * Deleting a user *)
(* ================================================================== *)

Lemma removeFirstUser_gone (id : string) (us : list User) :
  NoDup (map user_id us) -> ~ In id (map user_id (removeFirstUser id us)).
Proof.
  induction us as [|u us IH]; [auto|].
  cbn [map removeFirstUser]. intros H. inversion H as [|? ? Hn Hd]; subst.
  destruct (String.eqb_spec (user_id u) id) as [E|E].
  - now rewrite <- E.
  - cbn [map In]. intros [H'|H']; [contradiction|]. now apply IH.
Qed.

Lemma removeFirstUser_other (id : string) (us : list User) (x : User) :
  user_id x <> id -> (In x (removeFirstUser id us) <-> In x us).
Proof.
  intros Hne. induction us as [|u us IH]; [reflexivity|].
  cbn [removeFirstUser]. destruct (String.eqb_spec (user_id u) id) as [E|E].
  - split; [now right|]. intros [->|H]; [contradiction|exact H].
  - cbn [In]. now rewrite IH.
Qed.

(** X26.  [DELETE /api/users/<id>] as it is served to an [admin], both ids
    being texts of an [ObjectId]: both gates pass and the answer is 200.
    The audit log gets two entries with status [success]: [Delete Users],
    written by [checkPermission], and [Delete User], written by
    [auditLog] as the response ends.  Afterwards no application and no
    document of that user is left and (ids being unique) no user with
    that id; the records of everyone else stay, and so do all files,
    those of the deleted user's documents included. *)
Theorem deleteUser_as_admin (req : Req.t) (admin : Requester.t) (id : string)
    (p : Portal) :
  isObjectId id = true ->
  isObjectId (Requester.id admin) = true ->
  Req.user req = Some admin ->
  Requester.role admin = "admin" ->
  Req.method req = "DELETE" ->
  Req.originalUrl req = "/api/users/" ++ id ->
  exists p' permitted logged,
    deleteUserRoute req id p = Some (inr (Success 200 tt), p') /\
    auditLogs p' = (auditLogs p ++ [permitted; logged])%list /\
    AuditLog.action permitted = "Delete Users" /\
    AuditLog.status permitted = "success" /\
    AuditLog.userId permitted = Some (Requester.id admin) /\
    AuditLog.action logged = "Delete User" /\
    AuditLog.status logged = "success" /\
    AuditLog.userId logged = Some (Requester.id admin) /\
    files p' = files p /\
    (forall a, In a (applications (world p')) <->
               In a (applications (world p)) /\ userId a <> id) /\
    (forall d, In d (documents p') <->
               In d (documents p) /\ Doc.userId d <> id) /\
    (forall x, user_id x <> id ->
               (In x (users (world p')) <-> In x (users (world p)))) /\
    (NoDup (map user_id (users (world p))) ->
     ~ In id (map user_id (users (world p')))).
Proof.
  intros Hid Huid Hreq Hrole Hm Hurl.
  assert (Hwho : truthy (Some (Requester.id admin)) = true).
  { destruct (objectId_plain _ Huid) as [E _]. cbn [truthy]. now rewrite E. }
  assert (Ha : getReadableAction (Req.method req) (Req.originalUrl req)
               = Some "Delete User")
    by (rewrite Hm, Hurl; now apply getReadableAction_deleteUser).
  unfold deleteUserRoute.
  erewrite auditLog_run; [| |exact Ha].
  2: { unfold guarded.
       rewrite (requireRole_pass _ req admin p Hreq)
         by (rewrite Hrole; now left).
       unfold checkPermission. rewrite Hreq, Hrole.
       change (Acl.isAllowed "admin" Acl.manage_users Acl.delete) with true.
       cbn [negb]. unfold bindA at 1. rewrite logAccessAttempt_run.
       cbn [retA]. unfold deleteUser, routeA. reflexivity. }
  rewrite Hreq, Hwho.
  eexists _, (AuditLog.mk _ _ _ _ _ _ _), (AuditLog.mk _ _ _ _ _ _ _).
  split; [reflexivity|].
  cbn [auditLogs files world documents applications users AuditLog.action
       AuditLog.status AuditLog.userId statusCodeOf].
  split; [now rewrite <- app_assoc|].
  do 7 (split; [reflexivity|]).
  split; [intros a; rewrite filter_In, negb_true_iff, String.eqb_neq;
          reflexivity|].
  split; [intros d; rewrite filter_In, negb_true_iff, String.eqb_neq;
          reflexivity|].
  split; [intros x Hx; now apply removeFirstUser_other
         |apply removeFirstUser_gone].
Qed.

(* ================================================================== *)
(** * Submitting an application *)
(* ================================================================== *)

Lemma find_weaker {A} (p q : A -> bool) (l : list A) (a : A) :
  find p l = Some a -> (forall x, q x = true -> p x = true) -> q a = true ->
  find q l = Some a.
Proof.
  intros Hf Hpq Hq. induction l as [|x l IH]; [discriminate|].
  cbn [find] in *. destruct (p x) eqn:Px.
  - injection Hf as ->. now rewrite Hq.
  - destruct (q x) eqn:Qx; [|now apply IH].
    apply Hpq in Qx. congruence.
Qed.

Lemma find_replaced_in (id : string) (a a' : Application)
    (l : list Application) :
  In a l -> app_id a = id -> app_id a' = id ->
  find (fun x => app_id x =? id)
    (map (fun d => if app_id d =? id then a' else d) l) = Some a'.
Proof.
  intros Hin Hid Hid'. induction l as [|x l IH]; [contradiction|].
  cbn [map find]. destruct (String.eqb_spec (app_id x) id) as [E|E].
  - now rewrite Hid', String.eqb_refl.
  - apply String.eqb_neq in E as E'. rewrite E'.
    destruct Hin as [->|Hin]; [contradiction|]. now apply IH.
Qed.

Lemma find_owned (id owner : string) (l : list Application) (a : Application) :
  find (fun x => (app_id x =? id) && (userId x =? owner)) l = Some a ->
  app_id a = id /\ userId a = owner /\ In a l.
Proof.
  intros H. apply find_some in H as [Hin H].
  apply andb_true_iff in H as [H1 H2].
  apply String.eqb_eq in H1, H2. auto.
Qed.

Lemma postSubmit_run (requester id : string) (w : World) (a : Application) :
  find (fun x => (app_id x =? id) && (userId x =? requester)) (applications w)
  = Some a ->
  postSubmit requester id w
  = (Success 200 (applicationNumber a),
     setApplications
       (map (fun d => if app_id d =? id then submittedAs a else d)
          (applications w))
       w).
Proof.
  intros Hf. destruct (find_owned _ _ _ _ Hf) as (Hid & _ & _).
  unfold postSubmit, route, bind, Application_findOwned. rewrite Hf.
  unfold Application_save, ret. cbn [app_id submittedAs]. now rewrite Hid.
Qed.

(** The requester's application is found again after the submission. *)
Lemma find_owned_submitted (id owner : string) (l : list Application)
    (a : Application) :
  find (fun x => (app_id x =? id) && (userId x =? owner)) l = Some a ->
  find (fun x => (app_id x =? id) && (userId x =? owner))
    (map (fun d => if app_id d =? id then submittedAs a else d) l)
  = Some (submittedAs a).
Proof.
  intros Hf. destruct (find_owned _ _ _ _ Hf) as (Hid & Hu & _).
  apply (find_replaced _ id a (submittedAs a) l Hf Hid).
  cbn [app_id userId submittedAs]. now rewrite Hid, Hu, !String.eqb_refl.
Qed.

Section Submitting.
Context {P : Primitives} {F : Platform}.

(** X27.  [POST /applications/:id/submit] asks for the owner, not for the
    status: the owner's application is submitted from whatever status it
    has, a verified, approved or rejected one included.  The answer is
    200 with the application number; the status becomes [submitted] and
    the review notes are unset, while the reviewer, the codes, the
    certificate text and [verifiedAt] stay.  No other application, no
    user and nothing else changes. *)
Theorem submit_from_any_status (requester id : string) (w : World)
    (a : Application) :
  find (fun x => (app_id x =? id) && (userId x =? requester)) (applications w)
  = Some a ->
  let w' := snd (postSubmit requester id w) in
  fst (postSubmit requester id w) = Success 200 (applicationNumber a) /\
  rng w' = rng w /\ clock w' = clock w /\ env w' = env w /\
  users w' = users w /\
  map app_id (applications w') = map app_id (applications w) /\
  (forall b, In b (applications w) -> app_id b <> id -> In b (applications w')) /\
  exists a',
    find (fun x => app_id x =? id) (applications w') = Some a' /\
    status a' = "submitted" /\ reviewNotes a' = None /\
    userId a' = userId a /\ applicationNumber a' = applicationNumber a /\
    reviewedBy a' = reviewedBy a /\ reviewedAt a' = reviewedAt a /\
    verificationCode a' = verificationCode a /\
    verifiedVerificationCode a' = verifiedVerificationCode a /\
    verifiedCertificateText a' = verifiedCertificateText a /\
    verifiedAt a' = verifiedAt a.
Proof.
  intros Hf. cbv zeta. rewrite (postSubmit_run _ _ _ _ Hf). cbn [fst snd].
  destruct (find_owned _ _ _ _ Hf) as (Hid & Hu & Hin).
  unfold setApplications. cbn [rng clock env users applications].
  do 5 (split; [reflexivity|]).
  split; [|split].
  - rewrite map_map. apply map_ext. intros d.
    destruct (String.eqb_spec (app_id d) id) as [E|E]; [|reflexivity].
    cbn [app_id submittedAs]. congruence.
  - intros b Hb Hne. apply in_map_iff. exists b. split; [|exact Hb].
    apply String.eqb_neq in Hne. now rewrite Hne.
  - exists (submittedAs a). split; [|repeat split].
    apply (find_replaced_in id a); [exact Hin|exact Hid|].
    cbn [app_id submittedAs]. exact Hid.
Qed.

(** X28.  Submitting again withdraws the certificate.  When the owner submits
    an application that holds the verified code [code], the code still
    resolves to the application, now with status [submitted] and no
    certificate available, and the certificate route answers 404 for
    it. *)
Theorem resubmission_withdraws_certificate
    (scholarshipTitle : Application -> option string)
    (requester id code : string) (w : World) (a : Application) :
  find (fun x => (app_id x =? id) && (userId x =? requester)) (applications w)
  = Some a ->
  find (holdsCode code) (applications w) = Some a ->
  verifiedVerificationCode a = Some code ->
  let w' := snd (postSubmit requester id w) in
  fst (postSubmit requester id w) = Success 200 (applicationNumber a) /\
  (exists data,
     fst (getVerify code w') = Success 200 data /\
     Verified.status data = "submitted" /\
     Verified.applicationNumber data = applicationNumber a /\
     Verified.certificateAvailable data = false) /\
  fst (getCertificateDocument scholarshipTitle code w')
  = Failure 404 "Certificate not found".
Proof.
  intros Hf Hc Hv. cbv zeta. rewrite (postSubmit_run _ _ _ _ Hf). cbn [fst snd].
  destruct (find_owned _ _ _ _ Hf) as (Hid & Hu & Hin).
  assert (Hheld : eqOpt (verifiedVerificationCode (submittedAs a)) code = true).
  { cbn [verifiedVerificationCode submittedAs]. rewrite Hv. cbn [eqOpt].
    apply String.eqb_refl. }
  split; [reflexivity|]. split.
  - rewrite getVerify_run. unfold setApplications. cbn [applications env].
    rewrite (find_replaced (holdsCode code) id a (submittedAs a) _ Hc Hid)
      by (unfold holdsCode; rewrite Hheld; apply orb_true_r).
    eexists. split; [reflexivity|]. repeat split.
  - assert (Hfirst : find (fun b => eqOpt (verifiedVerificationCode b) code)
                       (applications w) = Some a).
    { apply (find_weaker (holdsCode code) _ _ _ Hc).
      - intros x Hx. unfold holdsCode. rewrite Hx. apply orb_true_r.
      - rewrite Hv. cbn [eqOpt]. apply String.eqb_refl. }
    unfold getCertificateDocument, route, setApplications. cbn [applications].
    rewrite (find_replaced _ id a (submittedAs a) _ Hfirst Hid Hheld).
    reflexivity.
Qed.

(** X29.  After the submission the draft is closed, handler by handler: once
    the handler of [POST /applications/:id/submit] has answered the owner
    200, the handler of [POST /documents/upload] answers the owner 400
    for this application in every portal with the world the submission
    left, whatever the file and the document type, and changes nothing. *)
Theorem submit_then_upload_refused (req : Req.t) (requester : Requester.t)
    (id : string) (w : World) (a : Application) :
  isObjectId id = true ->
  Req.user req = Some requester ->
  find (fun x => (app_id x =? id) && (userId x =? Requester.id requester))
    (applications w) = Some a ->
  exists w1,
    postSubmit (Requester.id requester) id w
    = (Success 200 (applicationNumber a), w1) /\
    forall p1 file document_type,
      world p1 = w1 ->
      postUpload req (Some file) id document_type p1
      = Some (Failure 400 "Cannot upload documents to submitted application",
              p1).
Proof.
  intros _ Hreq Hf.
  rewrite (postSubmit_run _ _ _ _ Hf).
  eexists. split; [reflexivity|].
  intros p1 file document_type Hw.
  unfold postUpload, routeA. rewrite Hreq.
  unfold bindA, inWorld, Application_findOwned. rewrite Hw.
  cbn [setApplications applications].
  rewrite (find_owned_submitted _ _ _ _ Hf).
  cbn [status submittedAs negb retA]. rewrite <- Hw. now rewrite setWorld_world.
Qed.

(** X30.  Only the owner submits: for the text of an [ObjectId],
    [POST /applications/:id/submit] answers 200 exactly when a stored
    application has that id and the requester as its user; otherwise it
    answers 404 and changes nothing. *)
Theorem submit_owner_only (requester id : string) (w : World) :
  isObjectId id = true ->
  let owned :=
    find (fun x => (app_id x =? id) && (userId x =? requester))
      (applications w) in
  ((exists number, fst (postSubmit requester id w) = Success 200 number)
   <-> owned <> None) /\
  (owned = None ->
   postSubmit requester id w = (Failure 404 "Application not found", w)).
Proof.
  intros _. cbv zeta.
  destruct (find _ (applications w)) as [a|] eqn:Hf.
  - rewrite (postSubmit_run _ _ _ _ Hf). cbn [fst].
    split; [|discriminate]. split; [discriminate|]. intros _. now eexists.
  - unfold postSubmit, route, bind, Application_findOwned. rewrite Hf.
    cbn [fst ret]. split; [|reflexivity].
    split; [intros [n [=]]|now intros []].
Qed.

End Submitting.

(* ================================================================== *)
(** * The second instance satisfies the laws *)
(* ================================================================== *)

Lemma hex_byte (b : byte) :
  byte_of_N
    (16 * Actual.hexValue (hexDigit (Byte.to_N b / 16))
     + Actual.hexValue (hexDigit (Byte.to_N b mod 16)))
  = b.
Proof. destruct b; reflexivity. Qed.

Lemma hex_parse_stringify (bs : bytes) : Actual.hex_parse (Hex_stringify bs) = bs.
Proof.
  unfold Actual.hex_parse, Actual.ofN.
  induction bs as [|b bs IH]; [reflexivity|].
  cbn [Hex_stringify Actual.hexTable map]. now rewrite hex_byte, IH.
Qed.

Lemma hexed_base64 : @Base64_law Hexed.primitives.
Proof. exact hex_parse_stringify. Qed.

Lemma hexed_buffer_base64 : @Buffer_base64_law Hexed.primitives.
Proof. exact hex_parse_stringify. Qed.

Lemma hexed_buffer_utf8 : @Buffer_utf8_law Hexed.primitives.
Proof. exact standin_buffer_utf8. Qed.

Lemma hexed_aes : @AES_law Hexed.primitives.
Proof. exact standin_aes. Qed.

Lemma hexed_pem : @PEM_law Hexed.primitives.
Proof. exact standin_pem. Qed.

Lemma hexed_rsa : @RSA_law Hexed.primitives.
Proof. exact standin_rsa. Qed.

Lemma hexed_sha512 : @sha512_law Hexed.primitives.
Proof. exact actual_sha512. Qed.

Lemma hexed_text : @Base64_text_law Hexed.primitives.
Proof.
  intros bs. split; apply hex_wellFormed, Hex_stringify_hex.
Qed.

Lemma standin_signature : @Signature_law Standin.primitives.
Proof.
  intros pk sk K data.
  apply standin_keygen_shape in K as (seed & Hs & -> & ->).
  assert (Hh : String.length (Hex_stringify seed) = 16)
    by (rewrite Hex_stringify_length; lia).
  cbn [crypto_sign crypto_verify Standin.primitives].
  unfold Standin.sign, Standin.verify, Standin.publicTag, Standin.privateTag.
  rewrite !tagOf_tagged by (reflexivity || assumption).
  eexists. split; [reflexivity|]. now rewrite String.eqb_refl.
Qed.

Lemma hexed_signature : @Signature_law Hexed.primitives.
Proof. exact standin_signature. Qed.

Lemma strip_app (pre s : string) : Hexed.strip pre (pre ++ s) = Some s.
Proof.
  induction pre as [|a pre IH]; [reflexivity|].
  cbn [append Hexed.strip]. now rewrite Ascii.eqb_refl.
Qed.

Lemma readString_escaped (v rest : string) :
  Hexed.readString (JSON_escapeAll v ++ String Hexed.quote rest) = Some (v, rest).
Proof.
  induction v as [|c v IH]; [reflexivity|].
  cbn [JSON_escapeAll]. rewrite append_assoc.
  set (tail := (JSON_escapeAll v ++ String Hexed.quote rest)%string) in *.
  clearbody tail.
  destruct c as [[] [] [] [] [] [] [] []];
    cbv - [Hexed.readString]; cbn; rewrite IH; reflexivity.
Qed.

Lemma readMembers_cons (key : string) (keys : list string) (first : bool)
    (v rest : string) (r : option (list (string * Json))) :
  Hexed.readMembers keys false rest = r ->
  Hexed.readMembers (key :: keys) first
    (Hexed.memberPrefix first key ++ JSON_escapeAll v ++ String Hexed.quote rest)
  = match r with
    | Some members => Some ((key, JsonString v) :: members)
    | None => None
    end.
Proof.
  intros <-. cbn [Hexed.readMembers]. fold (Hexed.memberPrefix first key).
  now rewrite strip_app, readString_escaped.
Qed.

Lemma hexed_json : @JSON_law Hexed.platform.
Proof.
  split.
  - intros data iv _ _.
    cbn [JSON_parse Hexed.platform]. unfold Hexed.parse, JSON_stringify.
    cbn [JSON_members String.concat]. unfold JSON_quote.
    change (JSON_escapeAll "data") with "data". change (JSON_escapeAll "iv") with "iv".
    unfold dquote. rewrite !append_assoc. cbn [append Hexed.strip].
    change (("{" =? "{")%char) with true. cbv iota.
    match goal with
    | |- context [Hexed.readMembers ["data"; "encryptedKey"; "iv"] true ?b] =>
        change b with
          (Hexed.memberPrefix true "data" ++ JSON_escapeAll data
           ++ String Hexed.quote
                (Hexed.memberPrefix false "iv" ++ JSON_escapeAll iv
                 ++ String Hexed.quote "}"))
    end.
    rewrite (readMembers_cons "data" ["encryptedKey"; "iv"] true data _ None)
      by reflexivity.
    cbv iota.
    rewrite (readMembers_cons "data" ["iv"] true data _
               (Some [("iv", JsonString iv)])).
    + reflexivity.
    + now rewrite (readMembers_cons "iv" [] false iv "}" (Some [])).
  - intros data encryptedKey iv _ _ _.
    cbn [JSON_parse Hexed.platform]. unfold Hexed.parse, JSON_stringify.
    cbn [JSON_members String.concat]. unfold JSON_quote.
    change (JSON_escapeAll "data") with "data".
    change (JSON_escapeAll "iv") with "iv".
    change (JSON_escapeAll "encryptedKey") with "encryptedKey".
    unfold dquote. rewrite !append_assoc. cbn [append Hexed.strip].
    change (("{" =? "{")%char) with true. cbv iota.
    match goal with
    | |- context [Hexed.readMembers ["data"; "encryptedKey"; "iv"] true ?b] =>
        change b with
          (Hexed.memberPrefix true "data" ++ JSON_escapeAll data
           ++ String Hexed.quote
                (Hexed.memberPrefix false "encryptedKey" ++ JSON_escapeAll encryptedKey
                 ++ String Hexed.quote
                      (Hexed.memberPrefix false "iv" ++ JSON_escapeAll iv
                       ++ String Hexed.quote "}")))
    end.
    rewrite (readMembers_cons "data" ["encryptedKey"; "iv"] true data _
               (Some [("encryptedKey", JsonString encryptedKey);
                      ("iv", JsonString iv)])).
    + reflexivity.
    + rewrite (readMembers_cons "encryptedKey" ["iv"] false encryptedKey _
                 (Some [("iv", JsonString iv)])); [reflexivity|].
      now rewrite (readMembers_cons "iv" [] false iv "}" (Some [])).
Qed.

Lemma zeros_length (n : nat) : String.length (Hexed.zeros n) = n.
Proof. induction n; cbn; congruence. Qed.

Lemma hexed_objectId : @ObjectId_law Hexed.platform.
Proof.
  intros used Hin. cbn [ObjectId_new Hexed.platform] in Hin.
  assert (Hle : Forall (fun k => k <= list_max (map String.length used))%nat
                  (map String.length used))
    by now apply list_max_le.
  rewrite Forall_forall in Hle.
  specialize (Hle _ (in_map String.length _ _ Hin)).
  rewrite zeros_length in Hle. lia.
Qed.

Lemma hexed_path : @Path_law Hexed.platform.
Proof.
  intros a b. cbn [path_join Hexed.platform].
  destruct a; discriminate.
Qed.

Lemma hexed_laws : @DocumentLaws Hexed.primitives Hexed.platform.
Proof.
  unfold DocumentLaws.
  refine (conj hexed_base64 (conj hexed_buffer_base64 (conj hexed_buffer_utf8
         (conj hexed_aes (conj hexed_pem (conj hexed_rsa (conj hexed_signature
         (conj hexed_json (conj hexed_text (conj hexed_objectId hexed_path)))))))))).
Qed.

(* ================================================================== *)
(** * The theorems on the portal, at the sample data *)
(* ================================================================== *)

Section PortalOnStandin.
#[local] Existing Instance Standin.primitives.

Lemma sample_keys1 : KeyPair "PUB0b30557a9fc4e90e" "PRV0b30557a9fc4e90e".
Proof. exists (mkRng Sample.entropy 0). eexists. reflexivity. Qed.

(** A payload of eleven bytes sealed for the first key pair of the tape and
    opened with its private key. *)
Lemma rsa_roundtrip_witness :
  exists c w',
    encryptRSA "hello-world" "PUB0b30557a9fc4e90e" (Sample.world Sample.t1)
    = (Ok c, w') /\
    forall wD, decryptRSA c "PRV0b30557a9fc4e90e" wD = (Ok "hello-world", wD).
Proof.
  apply (rsa_roundtrip "hello-world" "PUB0b30557a9fc4e90e"
           "PRV0b30557a9fc4e90e" (Sample.world Sample.t1)
           standin_buffer_base64 standin_buffer_utf8 standin_rsa sample_keys1).
  - reflexivity.
  - vm_compute. lia.
Defined.

(** A hash signed as a string and verified as the buffer of its bytes. *)
Lemma signature_roundtrip_witness :
  exists signature,
    createDigitalSignature (DString "88ffa368") "PRV0b30557a9fc4e90e"
      (Sample.world Sample.t1)
    = (Ok signature, Sample.world Sample.t1) /\
    forall wV,
      verifyDigitalSignature (DBuffer (list_byte_of_string "88ffa368")) signature
        "PUB0b30557a9fc4e90e" wV
      = (Ok true, wV).
Proof.
  apply (signature_roundtrip (DString "88ffa368")
           (DBuffer (list_byte_of_string "88ffa368")) "PUB0b30557a9fc4e90e"
           "PRV0b30557a9fc4e90e" (Sample.world Sample.t1)
           standin_buffer_base64 standin_signature sample_keys1).
  reflexivity.
Defined.

(** No user has the id ["65a1f0c2e4b0a1b2c3d4e5ff"] in the sample world. *)
Lemma ensureKeyPair_unknown_user_witness :
  exists m w',
    ensureKeyPair "65a1f0c2e4b0a1b2c3d4e5ff" (Sample.world Sample.t1)
    = (Throw m, w') /\
    users w' = users (Sample.world Sample.t1) /\
    applications w' = applications (Sample.world Sample.t1) /\
    (forall kp w1,
       generateRSAKeyPair (Sample.world Sample.t1) = (Ok kp, w1) ->
       m = "Cannot set properties of null (setting 'publicKey')").
Proof.
  apply (ensureKeyPair_unknown_user "65a1f0c2e4b0a1b2c3d4e5ff"
           (Sample.world Sample.t1));
    reflexivity.
Defined.

(** An officer verifies the submitted sample application: the answer is
    200, and the frame holds of the world that results. *)
Lemma putStatus_frame_witness :
  fst (putStatus Sample.officer "65a1f0c2e4b0a1b2c3d4e5f7" "verified" None
         (Sample.office Sample.t1)) = Success 200 tt /\
  let r :=
    fst (putStatus Sample.officer "65a1f0c2e4b0a1b2c3d4e5f7" "verified" None
           (Sample.office Sample.t1)) in
  let w' :=
    snd (putStatus Sample.officer "65a1f0c2e4b0a1b2c3d4e5f7" "verified" None
           (Sample.office Sample.t1)) in
  rng w' = rng (Sample.office Sample.t1) /\
  clock w' = clock (Sample.office Sample.t1) /\
  env w' = env (Sample.office Sample.t1) /\
  users w' = users (Sample.office Sample.t1) /\
  map app_id (applications w')
  = map app_id (applications (Sample.office Sample.t1)) /\
  (forall b,
     In b (applications (Sample.office Sample.t1)) ->
     app_id b <> "65a1f0c2e4b0a1b2c3d4e5f7" -> In b (applications w')) /\
  (r = Success 200 tt \/
   (r = Failure 400 "Invalid status" \/ r = Failure 404 "Application not found"
    \/ r = Failure 500 "Failed to update status")
   /\ w' = Sample.office Sample.t1) /\
  (r = Success 200 tt <->
   existsb (String.eqb "verified") allowed = true /\
   find (fun x => app_id x =? "65a1f0c2e4b0a1b2c3d4e5f7")
     (applications (Sample.office Sample.t1)) <> None).
Proof.
  split; [vm_compute; reflexivity|].
  pose proof (putStatus_frame Sample.officer "65a1f0c2e4b0a1b2c3d4e5f7"
                "verified" None (Sample.office Sample.t1) eq_refl) as H.
  cbv zeta in H |- *.
  destruct H as (H1 & H2 & H3 & H4 & H5 & H6 & H7 & H8).
  exact (conj H1 (conj H2 (conj H3 (conj H4 (conj H5 (conj H6
           (conj H7 (H8 eq_refl)))))))).
Defined.

(** The student asks to verify the submitted application and is refused;
    the officer asks, and the application is verified. *)
Lemma putStatusRoute_guard_witness :
  (exists answer p' logged,
     putStatusRoute
       (Campus.reviewing Campus.student "65a1f0c2e4b0a1b2c3d4e5f7")
       "65a1f0c2e4b0a1b2c3d4e5f7" "verified" None Campus.portal
     = Some (answer, p') /\
     documents p' = documents Campus.portal /\
     files p' = files Campus.portal /\
     AuditLog.action logged = "Update Application Status" /\
     AuditLog.userId logged = Some "65a1f0c2e4b0a1b2c3d4e5f6" /\
     AuditLog.resource logged = "/api/applications" /\
     (exists d, answer = inl d /\ Denial.statusCode d = 403) /\
     world p' = world Campus.portal /\
     AuditLog.status logged = "failure" /\
     exists e,
       auditLogs p' = (auditLogs Campus.portal ++ [e; logged])%list /\
       AuditLog.action e = "Unauthorized Access Attempt" /\
       AuditLog.userId e = Some "65a1f0c2e4b0a1b2c3d4e5f6" /\
       AuditLog.status e = "failure") /\
  (exists answer p' logged,
     putStatusRoute
       (Campus.reviewing Campus.officer "65a1f0c2e4b0a1b2c3d4e5f7")
       "65a1f0c2e4b0a1b2c3d4e5f7" "verified" None Campus.portal
     = Some (answer, p') /\
     documents p' = documents Campus.portal /\
     files p' = files Campus.portal /\
     AuditLog.action logged = "Update Application Status" /\
     AuditLog.userId logged = Some Sample.officer /\
     AuditLog.resource logged = "/api/applications" /\
     answer
     = inr (fst (putStatus Sample.officer "65a1f0c2e4b0a1b2c3d4e5f7"
                   "verified" None (world Campus.portal))) /\
     world p'
     = snd (putStatus Sample.officer "65a1f0c2e4b0a1b2c3d4e5f7" "verified"
              None (world Campus.portal)) /\
     auditLogs p' = (auditLogs Campus.portal ++ [logged])%list /\
     (AuditLog.status logged = "success" /\ answer = inr (Success 200 tt) \/
      AuditLog.status logged = "failure" /\ answer <> inr (Success 200 tt))) /\
  (exists p',
     putStatusRoute
       (Campus.reviewing Campus.officer "65a1f0c2e4b0a1b2c3d4e5f7")
       "65a1f0c2e4b0a1b2c3d4e5f7" "verified" None Campus.portal
     = Some (inr (Success 200 tt), p') /\
     map AuditLog.action (auditLogs p') = ["Update Application Status"] /\
     map AuditLog.status (auditLogs p') = ["success"]).
Proof.
  refine (conj _ (conj _ _)).
  - exact (putStatusRoute_guard
             (Campus.reviewing Campus.student "65a1f0c2e4b0a1b2c3d4e5f7")
             Campus.student "65a1f0c2e4b0a1b2c3d4e5f7" "verified" None
             Campus.portal eq_refl eq_refl eq_refl eq_refl eq_refl).
  - exact (putStatusRoute_guard
             (Campus.reviewing Campus.officer "65a1f0c2e4b0a1b2c3d4e5f7")
             Campus.officer "65a1f0c2e4b0a1b2c3d4e5f7" "verified" None
             Campus.portal eq_refl eq_refl eq_refl eq_refl eq_refl).
  - eexists. vm_compute. repeat split.
Defined.

End PortalOnStandin.

Section PortalOnHexed.
#[local] Existing Instance Hexed.primitives.
#[local] Existing Instance Hexed.platform.

(** Text with a character of two bytes, encoded and decoded. *)
Lemma base64_text_roundtrip_witness :
  exists encoded,
    encodeBase64 "Zoë" (Sample.world Sample.t1)
    = (Ok encoded, Sample.world Sample.t1) /\
    decodeBase64 encoded (Sample.world Sample.t1)
    = (Ok "Zoë", Sample.world Sample.t1).
Proof.
  apply (base64_text_roundtrip "Zoë" (Sample.world Sample.t1)
           hexed_buffer_base64 hexed_buffer_utf8).
  reflexivity.
Defined.

Lemma campus_student :
  find (fun x => user_id x =? "65a1f0c2e4b0a1b2c3d4e5f6")
    (users (world Campus.portal))
  = Some Sample.student.
Proof. reflexivity. Qed.

Lemma campus_draft :
  find (fun x => (app_id x =? "65a1f0c2e4b0a1b2c3d4e5f8")
                 && (userId x =? "65a1f0c2e4b0a1b2c3d4e5f6"))
    (applications (world Campus.portal))
  = Some Campus.draft.
Proof. reflexivity. Qed.

Lemma campus_keys :
  (exists pub prv,
     Vaulted (secretOf (world Campus.portal)) Sample.student pub prv) \/
  (truthy (publicKey Sample.student) && truthy (privateKey Sample.student)
   = false /\
   exists kp w1, generateRSAKeyPair (world Campus.portal) = (Ok kp, w1)).
Proof.
  right. split; [reflexivity|].
  exists Sample.keys1, (snd (generateRSAKeyPair (world Campus.portal))).
  reflexivity.
Qed.


(** The same upload, and the report of [GET /documents/:id/verify]. *)
Lemma upload_then_verify_witness :
  exists receipt p' doc data encryptedKey iv,
    postUpload Campus.asStudent (Some Campus.transcript)
      "65a1f0c2e4b0a1b2c3d4e5f8" (Some "transcript") Campus.portal
    = Some (Success 201 receipt, p') /\
    find (fun d => docId d =? Receipt.id receipt) (documents p') = Some doc /\
    Doc.encryptedData doc
    = Some (JSON_stringify
              [ ("data", JString data); ("encryptedKey", JString encryptedKey);
                ("iv", JString iv) ]) /\
    forall p2,
      world p2 = world p' -> documents p2 = documents p' ->
      files p2 = files p' ->
      exists report,
        getDocumentVerify (Receipt.id receipt) p2
        = Some (Success 200 report, p2) /\
        Report.documentId report = Receipt.id receipt /\
        Report.filename report = File.originalname Campus.transcript /\
        Verification.signatureValid (Report.verification report) = true /\
        Verification.isTampered (Report.verification report) = false /\
        Verification.documentHash (Report.verification report)
        = Receipt.hash receipt /\
        Verification.currentHash (Report.verification report)
        = Receipt.hash receipt /\
        Verification.signature (Report.verification report)
        = Receipt.signature receipt /\
        Report.iv report = Some (JsonString iv) /\
        Report.decryptedBytes report = length (File.buffer Campus.transcript).
Proof.
  apply (upload_then_verify Campus.asStudent Campus.student
           Campus.transcript "65a1f0c2e4b0a1b2c3d4e5f8" "transcript"
           Campus.portal Campus.draft Sample.student hexed_laws).
  - reflexivity.
  - reflexivity.
  - discriminate.
  - left. reflexivity.
  - exact campus_draft.
  - reflexivity.
  - exact campus_student.
  - exact campus_keys.
Defined.


Lemma campus_download :
  getDocument (Campus.fetching Campus.officer Campus.uploadedId)
    Campus.uploadedId Campus.uploaded
  = Some (Success 200 (File.buffer Campus.transcript), Campus.uploaded).
Proof. vm_compute. reflexivity. Qed.

(** The officer's download of the uploaded transcript. *)
Lemma download_serves_only_intact_witness :
  exists doc staff owner pub w1,
    find (fun d => docId d =? Campus.uploadedId) (documents Campus.uploaded)
    = Some doc /\
    Req.user (Campus.fetching Campus.officer Campus.uploadedId) = Some staff /\
    (Requester.role staff = "admin" \/ Requester.role staff = "officer") /\
    ensureKeyPair (Doc.userId doc) (world Campus.uploaded) = (Ok owner, w1) /\
    find (fun x => user_id x =? Doc.userId doc) (users w1) = Some owner /\
    publicKey owner = Some pub /\
    createHashSHA512 (DBuffer (File.buffer Campus.transcript))
    = documentHash (Doc.document doc) /\
    verifies (Buffer_from_utf8 (documentHash (Doc.document doc))) pub
      (Buffer_from_base64 (digitalSignature (Doc.document doc))) = true.
Proof.
  apply (download_serves_only_intact
           (Campus.fetching Campus.officer Campus.uploadedId) Campus.uploadedId
           Campus.uploaded Campus.uploaded (File.buffer Campus.transcript)).
  exact campus_download.
Defined.

(** The student asks for the uploaded transcript, and for a document that
    does not exist. *)
Lemma download_staff_only_witness :
  getDocument (Campus.fetching Campus.student Campus.uploadedId)
    Campus.uploadedId Campus.uploaded
  = Some (Failure 403 "Access denied", Campus.uploaded) /\
  getDocument (Campus.fetching Campus.student "65a1f0c2e4b0a1b2c3d4e5ff")
    "65a1f0c2e4b0a1b2c3d4e5ff" Campus.uploaded
  = Some (Failure 404 "Document not found", Campus.uploaded).
Proof.
  split.
  - pose proof (download_staff_only
                  (Campus.fetching Campus.student Campus.uploadedId)
                  Campus.student Campus.uploadedId Campus.uploaded eq_refl
                  eq_refl ltac:(discriminate) ltac:(discriminate)) as H.
    destruct (find _ _) eqn:E in H;
      [exact H | vm_compute in E; discriminate E].
  - pose proof (download_staff_only
                  (Campus.fetching Campus.student "65a1f0c2e4b0a1b2c3d4e5ff")
                  Campus.student "65a1f0c2e4b0a1b2c3d4e5ff" Campus.uploaded
                  eq_refl eq_refl ltac:(discriminate) ltac:(discriminate))
      as H.
    destruct (find _ _) eqn:E in H;
      [vm_compute in E; discriminate E | exact H].
Defined.

(** Another student, who does not own it, asks to delete the uploaded
    transcript; then its owner does. *)
Lemma deleteDocument_owner_only_witness :
  (exists r p',
     deleteDocument (Campus.deleting Campus.visitor Campus.uploadedId)
       Campus.uploadedId Campus.uploaded
     = Some (r, p') /\
     world p' = world Campus.uploaded /\ files p' = files Campus.uploaded /\
     auditLogs p' = auditLogs Campus.uploaded /\
     (r = Success 200 tt <->
      exists doc,
        find (fun d => docId d =? Campus.uploadedId) (documents Campus.uploaded)
        = Some doc /\
        Doc.userId doc = "65a1f0c2e4b0a1b2c3d4e5f5") /\
     (r = Success 200 tt ->
      S (length (documents p')) = length (documents Campus.uploaded) /\
      forall d,
        docId d <> Campus.uploadedId ->
        (In d (documents p') <-> In d (documents Campus.uploaded))) /\
     (r <> Success 200 tt ->
      r = Failure 403 "Access denied" /\ p' = Campus.uploaded)) /\
  (exists r p',
     deleteDocument (Campus.deleting Campus.student Campus.uploadedId)
       Campus.uploadedId Campus.uploaded
     = Some (r, p') /\
     world p' = world Campus.uploaded /\ files p' = files Campus.uploaded /\
     auditLogs p' = auditLogs Campus.uploaded /\
     (r = Success 200 tt <->
      exists doc,
        find (fun d => docId d =? Campus.uploadedId) (documents Campus.uploaded)
        = Some doc /\
        Doc.userId doc = "65a1f0c2e4b0a1b2c3d4e5f6") /\
     (r = Success 200 tt ->
      S (length (documents p')) = length (documents Campus.uploaded) /\
      forall d,
        docId d <> Campus.uploadedId ->
        (In d (documents p') <-> In d (documents Campus.uploaded))) /\
     (r <> Success 200 tt ->
      r = Failure 403 "Access denied" /\ p' = Campus.uploaded)) /\
  (exists p',
     deleteDocument (Campus.deleting Campus.visitor Campus.uploadedId)
       Campus.uploadedId Campus.uploaded
     = Some (Failure 403 "Access denied", p')) /\
  (exists p',
     deleteDocument (Campus.deleting Campus.student Campus.uploadedId)
       Campus.uploadedId Campus.uploaded
     = Some (Success 200 tt, p') /\
     documents p' = []).
Proof.
  refine (conj _ (conj _ (conj _ _))).
  - apply (deleteDocument_owner_only
             (Campus.deleting Campus.visitor Campus.uploadedId) Campus.visitor
             Campus.uploadedId Campus.uploaded);
      reflexivity.
  - apply (deleteDocument_owner_only
             (Campus.deleting Campus.student Campus.uploadedId) Campus.student
             Campus.uploadedId Campus.uploaded);
      reflexivity.
  - eexists. vm_compute. reflexivity.
  - eexists. vm_compute. split; reflexivity.
Defined.

(** The student sends no file, names an application of nobody, and names
    the submitted one. *)
Lemma upload_refusals_witness :
  postUpload Campus.asStudent None "65a1f0c2e4b0a1b2c3d4e5ff" None Campus.portal
  = Some (Failure 400 "No file uploaded", Campus.portal) /\
  postUpload Campus.asStudent (Some Campus.transcript)
    "65a1f0c2e4b0a1b2c3d4e5ff" None Campus.portal
  = Some (Failure 403 "Application not found or access denied", Campus.portal) /\
  postUpload Campus.asStudent (Some Campus.transcript)
    "65a1f0c2e4b0a1b2c3d4e5f7" None Campus.portal
  = Some (Failure 400 "Cannot upload documents to submitted application",
          Campus.portal).
Proof.
  refine (conj _ (conj _ _)).
  - apply (upload_refusals Campus.asStudent
             Campus.student
             Campus.transcript "65a1f0c2e4b0a1b2c3d4e5ff" None Campus.portal).
    reflexivity.
  - apply (upload_refusals Campus.asStudent
             Campus.student
             Campus.transcript "65a1f0c2e4b0a1b2c3d4e5ff" None Campus.portal);
      reflexivity.
  - apply (upload_refusals Campus.asStudent
             Campus.student
             Campus.transcript "65a1f0c2e4b0a1b2c3d4e5f7" None Campus.portal
             eq_refl) with (a := Sample.submitted);
      [reflexivity | discriminate].
Defined.

(** The sample student gets keys, and the stored private key opens. *)
Lemma vault_roundtrip_witness :
  exists u' w' pub prv,
    ensureKeyPair "65a1f0c2e4b0a1b2c3d4e5f6" (world Campus.portal) = (Ok u', w') /\
    find (fun x => user_id x =? "65a1f0c2e4b0a1b2c3d4e5f6") (users w') = Some u' /\
    publicKey u' = Some pub /\ KeyPair pub prv /\
    forall p, world p = w' -> unlockPrivateKey u' p = Some (Ok prv, p).
Proof.
  apply (vault_roundtrip "65a1f0c2e4b0a1b2c3d4e5f6" (world Campus.portal)
           Sample.student Sample.keys1
           (snd (generateRSAKeyPair (world Campus.portal)))
           hexed_base64 hexed_aes hexed_pem hexed_json hexed_text).
  - reflexivity.
  - reflexivity.
  - reflexivity.
Defined.

(** The student submits the draft, then tries to upload to it. *)
Lemma submit_then_upload_refused_witness :
  exists w1,
    postSubmit "65a1f0c2e4b0a1b2c3d4e5f6" "65a1f0c2e4b0a1b2c3d4e5f8"
      (world Campus.portal)
    = (Success 200 (applicationNumber Campus.draft), w1) /\
    forall p1 file document_type,
      world p1 = w1 ->
      postUpload Campus.asStudent (Some file) "65a1f0c2e4b0a1b2c3d4e5f8"
        document_type p1
      = Some (Failure 400 "Cannot upload documents to submitted application",
              p1).
Proof.
  apply (submit_then_upload_refused Campus.asStudent Campus.student
           "65a1f0c2e4b0a1b2c3d4e5f8" (world Campus.portal) Campus.draft).
  - reflexivity.
  - reflexivity.
  - exact campus_draft.
Defined.

End PortalOnHexed.

Section PortalOnActual.
#[local] Existing Instance Actual.primitives.

(** The codes of the sample application, with SHA-512 computed. *)
Lemma issued_codes_parse_witness :
  exists hash text,
    String.length hash = 16 /\ allChars isHexDigit hash = true /\
    generateVerificationCodeString (applicationDataOf Sample.submitted)
      (Sample.world Sample.t1)
    = (Ok ("SVS-" ++ "APP2026-ABCXYZ" ++ "-" ++ hash), Sample.world Sample.t1) /\
    generateVerifiedCertificateData (applicationDataOf Sample.submitted)
      (Sample.world Sample.t1)
    = (Ok (Certificate.mk ("SVS-VERIFIED-" ++ "APP2026-ABCXYZ" ++ "-" ++ hash)
             text),
       Sample.world Sample.t1) /\
    parseVerificationCode ("SVS-" ++ "APP2026-ABCXYZ" ++ "-" ++ hash)
    = Parsed.Valid "SVS" "APP2026-ABCXYZ" hash /\
    parseVerificationCode ("SVS-VERIFIED-" ++ "APP2026-ABCXYZ" ++ "-" ++ hash)
    = Parsed.Valid "SVS" ("VERIFIED-" ++ "APP2026-ABCXYZ") hash.
Proof.
  exact (issued_codes_parse (applicationDataOf Sample.submitted)
           (Sample.world Sample.t1) actual_sha512).
Defined.

Lemma verifiedOnce_stored :
  find (fun x => app_id x =? "65a1f0c2e4b0a1b2c3d4e5f7")
    (applications Sample.verifiedOnce) = Some Sample.storedOnce /\
  find (holdsCode Sample.code1) (applications Sample.verifiedOnce)
  = Some Sample.storedOnce.
Proof. split; vm_compute; reflexivity. Qed.

(** The verified sample application is rejected afterwards. *)
Lemma status_change_keeps_codes_witness :
  fst (putStatus Sample.officer "65a1f0c2e4b0a1b2c3d4e5f7" "rejected" None
         Sample.verifiedOnce) = Success 200 tt /\
  (exists a',
     find (fun x => app_id x =? "65a1f0c2e4b0a1b2c3d4e5f7")
       (applications
          (snd (putStatus Sample.officer "65a1f0c2e4b0a1b2c3d4e5f7" "rejected" None
                  Sample.verifiedOnce))) = Some a' /\
     status a' = "rejected" /\
     verificationCode a' = verificationCode Sample.storedOnce /\
     verifiedVerificationCode a' = verifiedVerificationCode Sample.storedOnce /\
     verifiedCertificateText a' = verifiedCertificateText Sample.storedOnce /\
     verifiedAt a' = verifiedAt Sample.storedOnce) /\
  (exists data,
     fst (getVerify Sample.code1
            (snd (putStatus Sample.officer "65a1f0c2e4b0a1b2c3d4e5f7" "rejected" None
                    Sample.verifiedOnce))) = Success 200 data /\
     Verified.status data = "rejected" /\
     Verified.applicationNumber data = applicationNumber Sample.storedOnce /\
     Verified.certificateAvailable data = false).
Proof.
  apply (status_change_keeps_codes Sample.officer "65a1f0c2e4b0a1b2c3d4e5f7"
           "rejected" Sample.code1 None Sample.verifiedOnce Sample.storedOnce
           eq_refl (proj1 verifiedOnce_stored) (proj2 verifiedOnce_stored)).
  right. left. reflexivity.
Defined.

(** The submitted sample application is approved. *)
Lemma approval_issues_code_witness :
  fst (putStatus Sample.officer "65a1f0c2e4b0a1b2c3d4e5f7" "approved" None
         (Sample.office Sample.t1)) = Success 200 tt /\
  (exists a',
     find (fun x => app_id x =? "65a1f0c2e4b0a1b2c3d4e5f7")
       (applications
          (snd (putStatus Sample.officer "65a1f0c2e4b0a1b2c3d4e5f7" "approved" None
                  (Sample.office Sample.t1)))) = Some a' /\
     status a' = "approved" /\
     verifiedVerificationCode a' = Some (codeFor Sample.submitted Sample.t1) /\
     verifiedAt a' = Some Sample.t1) /\
  (exists data,
     fst (getVerify (codeFor Sample.submitted Sample.t1)
            (snd (putStatus Sample.officer "65a1f0c2e4b0a1b2c3d4e5f7" "approved" None
                    (Sample.office Sample.t1)))) = Success 200 data /\
     Verified.status data = "approved" /\
     Verified.certificateAvailable data = false) /\
  fst (getCertificateDocument Campus.title (codeFor Sample.submitted Sample.t1)
         (snd (putStatus Sample.officer "65a1f0c2e4b0a1b2c3d4e5f7" "approved" None
                 (Sample.office Sample.t1))))
  = Failure 404 "Certificate not found".
Proof.
  apply (approval_issues_code Campus.title Sample.officer
           "65a1f0c2e4b0a1b2c3d4e5f7" None (Sample.office Sample.t1)
           Sample.submitted).
  - reflexivity.
  - reflexivity.
  - reflexivity.
  - intros b [<-|[]] Hb. now contradiction Hb.
Defined.

Lemma verifiedOnce_advertised :
  fst (getVerify Sample.code1 Sample.verifiedOnce)
  = Success 200 Campus.verifiedData /\
  Verified.certificateAvailable Campus.verifiedData = true.
Proof. split; vm_compute; reflexivity. Qed.

(** The certificate of the verified sample application. *)
Lemma advertised_certificate_downloads_witness :
  exists file,
    fst (getCertificateDocument Campus.title Sample.code1 Sample.verifiedOnce)
    = Success 200 file /\
    contains
      ("Application: "
       ++ template (Verified.applicationNumber Campus.verifiedData))
      (CertificateFile.content file) /\
    contains "Status: verified" (CertificateFile.content file) /\
    snd (getCertificateDocument Campus.title Sample.code1 Sample.verifiedOnce)
    = Sample.verifiedOnce /\
    snd (getVerify Sample.code1 Sample.verifiedOnce) = Sample.verifiedOnce.
Proof.
  exact (advertised_certificate_downloads Campus.title Sample.code1
           Sample.verifiedOnce Campus.verifiedData
           (proj1 verifiedOnce_advertised) (proj2 verifiedOnce_advertised)
           eq_refl).
Defined.

Lemma verifiedOnce_owned :
  find (fun x => (app_id x =? "65a1f0c2e4b0a1b2c3d4e5f7")
                 && (userId x =? "65a1f0c2e4b0a1b2c3d4e5f6"))
    (applications Sample.verifiedOnce) = Some Sample.storedOnce /\
  verifiedVerificationCode Sample.storedOnce = Some Sample.code1.
Proof. split; vm_compute; reflexivity. Qed.

(** The student submits the sample application after it was verified. *)
Lemma submit_from_any_status_witness :
  let w' :=
    snd (postSubmit "65a1f0c2e4b0a1b2c3d4e5f6" "65a1f0c2e4b0a1b2c3d4e5f7"
           Sample.verifiedOnce) in
  fst (postSubmit "65a1f0c2e4b0a1b2c3d4e5f6" "65a1f0c2e4b0a1b2c3d4e5f7"
         Sample.verifiedOnce)
  = Success 200 (applicationNumber Sample.storedOnce) /\
  rng w' = rng Sample.verifiedOnce /\ clock w' = clock Sample.verifiedOnce /\
  env w' = env Sample.verifiedOnce /\ users w' = users Sample.verifiedOnce /\
  map app_id (applications w') = map app_id (applications Sample.verifiedOnce) /\
  (forall b,
     In b (applications Sample.verifiedOnce) ->
     app_id b <> "65a1f0c2e4b0a1b2c3d4e5f7" -> In b (applications w')) /\
  exists a',
    find (fun x => app_id x =? "65a1f0c2e4b0a1b2c3d4e5f7") (applications w')
    = Some a' /\
    status a' = "submitted" /\ reviewNotes a' = None /\
    userId a' = userId Sample.storedOnce /\
    applicationNumber a' = applicationNumber Sample.storedOnce /\
    reviewedBy a' = reviewedBy Sample.storedOnce /\
    reviewedAt a' = reviewedAt Sample.storedOnce /\
    verificationCode a' = verificationCode Sample.storedOnce /\
    verifiedVerificationCode a' = verifiedVerificationCode Sample.storedOnce /\
    verifiedCertificateText a' = verifiedCertificateText Sample.storedOnce /\
    verifiedAt a' = verifiedAt Sample.storedOnce.
Proof.
  exact (submit_from_any_status "65a1f0c2e4b0a1b2c3d4e5f6"
           "65a1f0c2e4b0a1b2c3d4e5f7" Sample.verifiedOnce Sample.storedOnce
           (proj1 verifiedOnce_owned)).
Defined.

(** The same submission, and the verified code afterwards. *)
Lemma resubmission_withdraws_certificate_witness :
  let w' :=
    snd (postSubmit "65a1f0c2e4b0a1b2c3d4e5f6" "65a1f0c2e4b0a1b2c3d4e5f7"
           Sample.verifiedOnce) in
  fst (postSubmit "65a1f0c2e4b0a1b2c3d4e5f6" "65a1f0c2e4b0a1b2c3d4e5f7"
         Sample.verifiedOnce)
  = Success 200 (applicationNumber Sample.storedOnce) /\
  (exists data,
     fst (getVerify Sample.code1 w') = Success 200 data /\
     Verified.status data = "submitted" /\
     Verified.applicationNumber data = applicationNumber Sample.storedOnce /\
     Verified.certificateAvailable data = false) /\
  fst (getCertificateDocument Campus.title Sample.code1 w')
  = Failure 404 "Certificate not found".
Proof.
  exact (resubmission_withdraws_certificate Campus.title
           "65a1f0c2e4b0a1b2c3d4e5f6" "65a1f0c2e4b0a1b2c3d4e5f7" Sample.code1
           Sample.verifiedOnce Sample.storedOnce (proj1 verifiedOnce_owned)
           (proj2 verifiedOnce_stored) (proj2 verifiedOnce_owned)).
Defined.

End PortalOnActual.

(** An officer may read the documents to verify; so may the admin. *)
Lemma permissions_hierarchy_witness :
  Acl.isAllowed "admin" Acl.verify_documents Acl.read = true /\
  ("officer" = "student" \/ "officer" = "officer" \/ "officer" = "admin") /\
  ("officer" <> "admin" ->
   Acl.verify_documents <> Acl.manage_users /\
   Acl.verify_documents <> Acl.view_audit_logs /\
   Acl.read <> Acl.delete /\
   (Acl.verify_documents = Acl.manage_scholarships -> Acl.read = Acl.read)) /\
  (Acl.verify_documents = Acl.view_audit_logs \/
   Acl.verify_documents = Acl.verify_documents ->
   Acl.read = Acl.read).
Proof.
  apply (permissions_hierarchy "officer" Acl.verify_documents Acl.read).
  reflexivity.
Defined.

(** The admin deletes the sample student. *)
Lemma deleteUser_as_admin_witness :
  exists p' permitted logged,
    deleteUserRoute Campus.asAdmin "65a1f0c2e4b0a1b2c3d4e5f6" Campus.portal
    = Some (inr (Success 200 tt), p') /\
    auditLogs p' = (auditLogs Campus.portal ++ [permitted; logged])%list /\
    AuditLog.action permitted = "Delete Users" /\
    AuditLog.status permitted = "success" /\
    AuditLog.userId permitted = Some "65a1f0c2e4b0a1b2c3d4e5a2" /\
    AuditLog.action logged = "Delete User" /\
    AuditLog.status logged = "success" /\
    AuditLog.userId logged = Some "65a1f0c2e4b0a1b2c3d4e5a2" /\
    files p' = files Campus.portal /\
    (forall a, In a (applications (world p')) <->
               In a (applications (world Campus.portal)) /\
               userId a <> "65a1f0c2e4b0a1b2c3d4e5f6") /\
    (forall d, In d (documents p') <->
               In d (documents Campus.portal) /\
               Doc.userId d <> "65a1f0c2e4b0a1b2c3d4e5f6") /\
    (forall x, user_id x <> "65a1f0c2e4b0a1b2c3d4e5f6" ->
               (In x (users (world p')) <-> In x (users (world Campus.portal)))) /\
    (NoDup (map user_id (users (world Campus.portal))) ->
     ~ In "65a1f0c2e4b0a1b2c3d4e5f6" (map user_id (users (world p')))).
Proof.
  apply (deleteUser_as_admin Campus.asAdmin Campus.admin
           "65a1f0c2e4b0a1b2c3d4e5f6" Campus.portal);
    reflexivity.
Defined.

(** The second student asks to submit the first student's application;
    the first student submits their draft. *)
Lemma submit_owner_only_witness :
  (((exists number,
       fst (postSubmit "65a1f0c2e4b0a1b2c3d4e5f5" "65a1f0c2e4b0a1b2c3d4e5f7"
              (world Campus.portal)) = Success 200 number)
    <-> find (fun x => (app_id x =? "65a1f0c2e4b0a1b2c3d4e5f7")
                       && (userId x =? "65a1f0c2e4b0a1b2c3d4e5f5"))
          (applications (world Campus.portal)) <> None) /\
   (find (fun x => (app_id x =? "65a1f0c2e4b0a1b2c3d4e5f7")
                   && (userId x =? "65a1f0c2e4b0a1b2c3d4e5f5"))
      (applications (world Campus.portal)) = None ->
    postSubmit "65a1f0c2e4b0a1b2c3d4e5f5" "65a1f0c2e4b0a1b2c3d4e5f7"
      (world Campus.portal)
    = (Failure 404 "Application not found", world Campus.portal))) /\
  (((exists number,
       fst (postSubmit "65a1f0c2e4b0a1b2c3d4e5f6" "65a1f0c2e4b0a1b2c3d4e5f8"
              (world Campus.portal)) = Success 200 number)
    <-> find (fun x => (app_id x =? "65a1f0c2e4b0a1b2c3d4e5f8")
                       && (userId x =? "65a1f0c2e4b0a1b2c3d4e5f6"))
          (applications (world Campus.portal)) <> None) /\
   (find (fun x => (app_id x =? "65a1f0c2e4b0a1b2c3d4e5f8")
                   && (userId x =? "65a1f0c2e4b0a1b2c3d4e5f6"))
      (applications (world Campus.portal)) = None ->
    postSubmit "65a1f0c2e4b0a1b2c3d4e5f6" "65a1f0c2e4b0a1b2c3d4e5f8"
      (world Campus.portal)
    = (Failure 404 "Application not found", world Campus.portal))) /\
  postSubmit "65a1f0c2e4b0a1b2c3d4e5f5" "65a1f0c2e4b0a1b2c3d4e5f7"
    (world Campus.portal)
  = (Failure 404 "Application not found", world Campus.portal) /\
  fst (postSubmit "65a1f0c2e4b0a1b2c3d4e5f6" "65a1f0c2e4b0a1b2c3d4e5f8"
         (world Campus.portal))
  = Success 200 (Some "APP2026-DEFUVW").
Proof.
  refine (conj _ (conj _ (conj _ _))).
  - exact (submit_owner_only "65a1f0c2e4b0a1b2c3d4e5f5"
             "65a1f0c2e4b0a1b2c3d4e5f7" (world Campus.portal) eq_refl).
  - exact (submit_owner_only "65a1f0c2e4b0a1b2c3d4e5f6"
             "65a1f0c2e4b0a1b2c3d4e5f8" (world Campus.portal) eq_refl).
  - vm_compute. reflexivity.
  - vm_compute. reflexivity.
Defined.
